(** * Split-learning trainer: the orchestrator of [ic_trainer_running.py]
      and the id generator of [random_clients_generator.py].

    The development follows the two source files.  Part 1 embeds
    [utils/random_clients_generator.py]; Part 2 embeds the methods of
    [ICTrainer] in a small state / trace / exception monad; Part 3 proves
    the properties of the orchestrator. *)

From Stdlib Require Import String Ascii List ZArith QArith Qfield Bool Arith Lia.
From Stdlib Require Import RelationClasses.
From coqutil Require Import Datatypes.RecordSetters.
Import ListNotations.
Import RecordSetters.TriangleBracketNotations.


Local Close Scope Q_scope.
Local Open Scope string_scope.
Local Open Scope list_scope.

(* ===================================================================== *)
(** * Part 1: [utils/random_clients_generator.py]                        *)
(* ===================================================================== *)

Module RandomClients.

(** The population string of [random.sample]. *)
Definition population : list ascii :=
    list_ascii_of_string "abcdefghijklmnopqrstuvwxyz1234567890".

(** The state of Python's [random] module is a tape of draws: every call
    to the generator consumes one entry (an exhausted tape keeps
    answering 0).  Every outcome [random.sample] can produce is the
    outcome of some tape. *)
Definition rng := list nat.

Definition randbelow (n : nat) (g : rng) : nat * rng :=
    match g with
    | [] => (0, [])
    | x :: g' => (x mod n, g')
    end.

Fixpoint remove_at {A} (i : nat) (l : list A) : list A :=
    match l, i with
    | [], _ => []
    | _ :: l', O => l'
    | x :: l', S i' => x :: remove_at i' l'
    end.

(** [random.sample(pop, k)]: [k] picks without replacement.  A pick at a
    position outside the remaining pool cannot happen ([randbelow] is
    below its length); a pool that runs dry ends the sample (Python raises
    [ValueError] when [k > len(pop)], which the caller below never does:
    4 <= 36). *)
Fixpoint random_sample (pop : list ascii) (k : nat) (g : rng)
    : list ascii * rng :=
    match k with
    | O => ([], g)
    | S k' =>
        let '(i, g1) := randbelow (length pop) g in
        match nth_error pop i with
        | Some c =>
            let '(rest, g2) := random_sample (remove_at i pop) k' g1 in
            (c :: rest, g2)
        | None => ([], g1)
        end
    end.

(** [generate_random_client_ids(num_clients, id_len=4)] *)
Fixpoint generate_random_client_ids (num_clients id_len : nat) (g : rng)
    : list string * rng :=
    match num_clients with
    | O => ([], g)
    | S n =>
        let '(cs, g1) := random_sample population id_len g in
        let '(ids, g2) := generate_random_client_ids n id_len g1 in
        (string_of_list_ascii cs :: ids, g2)
    end.

(** A Python [dict] keeps insertion order; assigning to a key that is
    already present overwrites its value in place. *)
Fixpoint dict_set {V} (k : string) (v : V) (d : list (string * V))
    : list (string * V) :=
    match d with
    | [] => [(k, v)]
    | (k', v') :: d' =>
        if String.eqb k k' then (k, v) :: d' else (k', v') :: dict_set k v d'
    end.

Definition dict_keys {V} (d : list (string * V)) : list string := map fst d.

(** [generate_random_clients(num_clients, Client)]: [Client] is the class
    whose constructor is applied to each id. *)
Definition generate_random_clients {V} (num_clients : nat)
      (Client : string -> V) (g : rng) : list (string * V) * rng :=
    let '(client_ids, g') := generate_random_client_ids num_clients 4 g in
    (fold_left (fun clients id => dict_set id (Client id) clients)
               client_ids [], g').

(** The keys of a dict after one more assignment. *)
Definition add_key (ks : list string) (k : string) : list string :=
    if existsb (String.eqb k) ks then ks else ks ++ [k].

(** [d[k]], when the key is present ([KeyError] otherwise). *)
Fixpoint dict_get {V} (k : string) (d : list (string * V)) : option V :=
    match d with
    | [] => None
    | (k', v) :: d' => if String.eqb k k' then Some v else dict_get k d'
    end.

(** [d.pop(k)]: the value under the key and the dict without it
    ([KeyError] when the key is absent). *)
Fixpoint dict_pop {V} (k : string) (d : list (string * V))
    : option (V * list (string * V)) :=
    match d with
    | [] => None
    | (k', v) :: d' =>
        if String.eqb k k' then Some (v, d')
        else match dict_pop k d' with
             | Some (x, d'') => Some (x, (k', v) :: d'')
             | None => None
             end
    end.

(** The distinct elements of a list in the order of their first
    occurrence. *)
Definition first_occurrences (l : list string) : list string :=
    rev (nodup string_dec (rev l)).

End RandomClients.

(* ===================================================================== *)
(** * Part 2: [ImageClassification_Task/ic_trainer_running.py]           *)
(* ===================================================================== *)

(** ** Exceptions, results, modes and segments *)

Inductive exn : Type :=
| ZeroDivisionError | IndexError | FileNotFoundError | OSError
| RuntimeError | ShapeMismatch | EmptyInput | KeyNotFound
| KeyError | ValueError | AssertionError.

Inductive result (A : Type) : Type :=
| Ok (a : A)
| Err (e : exn).
Arguments Ok {A} a.
Arguments Err {A} e.

Definition is_ok {A} (r : result A) : bool :=
  match r with Ok _ => true | Err _ => false end.

(** ['train'] / ['test'] *)
Inductive mode : Type := train | test.

(** The four ordered sub-networks of the split model. *)
Inductive segment : Type := front | center_front | center_back | back.

Definition mode_eqb (a b : mode) : bool :=
  match a, b with train, train | test, test => true | _, _ => false end.


(** ** The torch side: models, optimizers, tensors

    [torch] and the model module named by [self.import_module] are outside
    the two source files; the trainer uses them through this interface. *)
Class Torch : Type := {
  StateDict : Type;      (* what [state_dict()] returns / [torch.load] reads *)
  Model : Type;          (* an [nn.Module] with its parameters *)
  Optimizer : Type;      (* an [AdamW] instance with its state *)
  Tensor : Type;         (* activations, keys, image batches *)
  ClientAttrs : Type;    (* the attributes of [Client] the trainer never names *)
  ServerAttrs : Type;    (* the same for [ConnectedClient] *)
  state_dict : Model -> StateDict;
  (* [m.load_state_dict(sd)]: the model after the call and whether it raised *)
  load_state_dict : StateDict -> Model -> Model * result unit;
  (* [m.freeze(epoch, pretrained=...)], defined with the model *)
  freeze : Z -> bool -> Model -> Model;
  (* [m.train()] and [m.eval()] *)
  set_training : bool -> Model -> Model;
  (* [m(x)] under [torch.no_grad()] *)
  forward : Model -> Tensor -> Tensor;
  (* [np.argmax(out.numpy(), axis=1)] of one batch of outputs *)
  argmax_rows : Tensor -> list Z;
  (* [model.front()], [model.center_front()], ... moved to the device *)
  new_model : segment -> Model;
  (* what [torch.cat] raises on an empty list of tensors *)
  cat_empty_error : exn;
  (* [a + b] and [a / n] on 0-dim float tensors (the f1 scores), as torch
     computes them in float32: a finite value is a rational, the sum and
     the quotient are the rounded ones *)
  tensor_add : Q -> Q -> Q;
  tensor_div : Q -> nat -> Q
}.

(** ** Participants: [Client] (ic_client.py) and [ConnectedClient]
       (ic_server.py) as the trainer sees them *)
Section Objects.
Context {T : Torch}.

Record Client : Type := {
    train_dataset : nat;        (* [len(client.train_dataset)] *)
    train_DataLoader : nat;     (* [len(client.train_DataLoader)], in batches *)
    test_DataLoader : nat;      (* [len(client.test_DataLoader)] *)
    (* the batches of [main_test_DataLoader]: [batch['image']], [batch['label']] *)
    main_test_DataLoader : list (Tensor * list Z);
    front_model : Model;
    back_model : Model;
    back_optimizer : Optimizer;
    kv_flag : Z;
    kv_test_flag : Z;
    num_iterations : nat;
    num_test_iterations : nat;
    iterator : nat;             (* batches consumed since [iter(...)] *)
    test_iterator : nat;
    remote_activations1 : Tensor;
    remote_activations2 : Tensor;
    key : Tensor;
    test_key : Tensor;
    train_f1 : list Q;
    test_f1 : list Q;
    train_loss : Q;
    test_loss : Q;
    pred : list Tensor;
    y : list Tensor;
    client_attrs : ClientAttrs
  }.

Record ConnectedClient : Type := {
    center_front_model : Model;
    center_back_model : Model;
    center_optimizer : Optimizer;
    sc_kv_flag : Z;
    sc_kv_test_flag : Z;
    sc_remote_activations1 : Tensor;
    sc_remote_activations2 : Tensor;
    batchkeys : Tensor;
    test_batchkeys : Tensor;
    server_attrs : ServerAttrs
  }.

(** [self.clients[c_id]] with [self.sc_clients[c_id]]: the two dicts are
    built over the same keys ([init_clients_server_copy] walks
    [self.client_ids]), so one ordered map holds the pair. *)
Record Participant : Type := {
    client : Client;
    sc_client : ConnectedClient
  }.

(** The methods the trainer invokes on a [Client] ... *)
Inductive client_method : Type :=
  | forward_front_key_value
  | forward_front_key_value_test
  | forward_back
  | calculate_loss (m : mode)
  | loss_backward               (* [client.loss.backward()] *)
  | step_back
  | zero_grad_back
  | calculate_train_metric
  | calculate_test_metric
  | get_main_metric (m : mode).

(** ... and on a [ConnectedClient]. *)
Inductive server_method : Type :=
  | forward_center_front
  | forward_center_front_test
  | forward_center_back
  | backward_center
  | center_optimizer_step       (* [sc.center_optimizer.step()] *)
  | center_optimizer_zero_grad. (* [sc.center_optimizer.zero_grad()] *)

(** What those methods do is code outside the two source files. *)
Class Collaborators : Type := {
    client_call : client_method -> Client -> Client;
    server_call : server_method -> ConnectedClient -> ConnectedClient;
    (* [client.loss.item()] *)
    loss_item : Client -> Q;
    (* the value [calculate_train_metric()] / [calculate_test_metric()] returns *)
    metric_result : mode -> Client -> Q;
    (* the pair [get_main_metric(mode)] returns *)
    main_metric_result : mode -> Client -> Q * Q;
    (* [utils.merge.merge_weights(params, sample_lens)] *)
    merge_weights : list StateDict -> list Z -> result StateDict;
    (* [a + b] and [a / n] on the values of [client.train_loss] and
       [client.test_loss], whose type the code of [Client] fixes *)
    loss_add : Q -> Q -> Q;
    loss_div : Q -> nat -> Q;
    (* [wandb.plot.confusion_matrix(preds=preds, y_true=targets,
       class_names=['0', ..., '9'])]: whether the call raises *)
    confusion_matrix : list Z -> list Z -> result unit
  }.

(** ** What a run shows: prints, [wandb.log] entries and calls *)
Inductive message : Type :=
  | msg_pooling_enabled
  | msg_directory_created
  | msg_error_creating_directory
  | msg_commence_training
  | msg_preparing_kv (rate : Z)
  | msg_generating_train
  | msg_generating_test
  | msg_dictionary_created (m : mode) (c_id : string)
  | msg_personalizing (epoch : Z)
  | msg_merging (epoch : Z)
  | msg_error_collecting (s : segment) (c_id : string) (e : exn)
  | msg_merged_loaded (s : segment) (c_id : string)
  | msg_error_merging (s : segment) (e : exn)
  | msg_training (epoch : Z)
  | msg_inference_score (c_id : string) (accuracy : Q)
  | msg_average_inference (score : Q)
  | msg_best_metrics (train_mean : Q) (max_test : Q).

Inductive wandb_key : Type :=
  | k_epoch
  | k_step_loss                               (* 'train step loss' *)
  | k_f1_iter (m : mode) (c_id : string)
  | k_avg_f1 (m : mode) (c_id : string)
  | k_balanced_acc (m : mode) (c_id : string)
  | k_f1_macro (m : mode) (c_id : string)
  | k_avg_loss (m : mode) (c_id : string)
  | k_avg_f1_all (m : mode)
  | k_avg_bal_acc_all (m : mode)
  | k_avg_f1_macro_all (m : mode)
  | k_avg_loss_all (m : mode)
  | k_inference_score (c_id : string).

Inductive event : Type :=
  | Print (m : message)
  | WandbLog (k : wandb_key) (v : Q)
  | WandbLogPlot (preds y_true : list Z)     (* 'inference cfm' *)
  | ClientCall (c_id : string) (m : client_method)
  | ServerCall (c_id : string) (m : server_method)
  | MergeWeights (s : segment) (params : list StateDict) (sample_lens : list Z)
  | LoadStateDict (c_id : string) (s : segment) (sd : StateDict)
  | TorchLoad (c_id : string) (s : segment)
  | Freeze (c_id : string) (epoch : Z)
  | SetTraining (c_id : string) (s : segment) (training : bool)
  | ClearCache.

(** ** The trainer's own attributes *)
Record Args : Type := {
    epochs : Z;
    args_kv_refresh_rate : Z;
    kv_factor : Z;
    args_personalize : bool;
    p_epoch : Z;
    pretrained : bool;
    dataset : string;           (* [f'{self.args.dataset}'] *)
    split : string              (* [f'{self.args.split}'] *)
  }.

Record Self : Type := {
    args : Args;
    pooling_mode : bool;
    kv_refresh_rate : Z;
    overall_f1_train : list Q;
    overall_f1_test : list Q;
    max_f1_f1 : Q;
    max_f1_epoch : Z;
    personalization_mode : bool;
    num_clients : nat;
    (* [self.save_dir]: the path given to [Path], once it is assigned *)
    save_dir : option string;
    (* the file system at the path of the save directory, which the
       arguments of the run fix: whether [mkdir] succeeds, and the state
       saved there as [client_{c_id}_{model}_{segment}.pth], if any *)
    mkdir_ok : bool;
    saved_models : string -> segment -> option StateDict
  }.

Record Trainer : Type := {
    self : Self;
    participants : list (string * Participant)
  }.

End Objects.

(** ** A state / trace / exception monad for the methods of [ICTrainer]

    A computation over a state [S] returns the state it leaves behind (also
    when it raises: Python keeps every mutation made before the exception),
    the events it produced and its outcome. *)
Section Monad.
Context {T : Torch}.

Definition M (S A : Type) : Type := S -> S * list event * result A.

Definition ret {S A} (a : A) : M S A := fun s => (s, [], Ok a).

Definition bind {S A B} (m : M S A) (k : A -> M S B) : M S B :=
    fun s =>
      match m s with
      | (s1, t1, Ok a) => let '(s2, t2, r) := k a s1 in (s2, t1 ++ t2, r)
      | (s1, t1, Err e) => (s1, t1, Err e)
      end.

Definition get {S} : M S S := fun s => (s, [], Ok s).
Definition gets {S A} (f : S -> A) : M S A := fun s => (s, [], Ok (f s)).
Definition modify {S} (f : S -> S) : M S unit := fun s => (f s, [], Ok tt).
Definition emit {S} (e : event) : M S unit := fun s => (s, [e], Ok tt).
Definition raise {S A} (e : exn) : M S A := fun s => (s, [], Err e).

Definition lift_result {S A} (r : result A) : M S A := fun s => (s, [], r).

(** [try: m  except Exception as e: h e] *)
Definition try_except {S A} (m : M S A) (h : exn -> M S A) : M S A :=
    fun s =>
      match m s with
      | (s1, t1, Ok a) => (s1, t1, Ok a)
      | (s1, t1, Err e) => let '(s2, t2, r) := h e s1 in (s2, t1 ++ t2, r)
      end.

Definition when {S} (b : bool) (m : M S unit) : M S unit :=
    if b then m else ret tt.

(** [for x in xs: body x], and a loop that carries its local variables. *)
Fixpoint for_each {S X} (xs : list X) (body : X -> M S unit) : M S unit :=
    match xs with
    | [] => ret tt
    | x :: xs' => bind (body x) (fun _ => for_each xs' body)
    end.

(** [for it in range(n): body it] *)
Definition for_range {S} (n : nat) (body : nat -> M S unit) : M S unit :=
    for_each (seq 0 n) body.

(** A loop over [self.clients.items()] (or [self.sc_clients.items()], or
    [self.client_ids]): the body works on the trainer's attributes and on
    the participant at hand; [l] carries the loop's local variables. *)
Fixpoint fold_participants {L}
      (body : string -> L -> M (Self * Participant) L)
      (ps : list (string * Participant)) (l : L) (g : Self)
    : (Self * list (string * Participant)) * list event * result L :=
    match ps with
    | [] => ((g, []), [], Ok l)
    | (c_id, p) :: rest =>
        match body c_id l (g, p) with
        | ((g1, p1), t1, Ok l1) =>
            let '((g2, rest2), t2, r) := fold_participants body rest l1 g1 in
            ((g2, (c_id, p1) :: rest2), t1 ++ t2, r)
        | ((g1, p1), t1, Err e) => ((g1, (c_id, p1) :: rest), t1, Err e)
        end
    end.

Definition fold_clients {L}
      (body : string -> L -> M (Self * Participant) L) (l : L) : M Trainer L :=
    fun tr =>
      let '((g, ps), t, r) := fold_participants body (participants tr) l (self tr) in
      ({| self := g; participants := ps |}, t, r).

Definition for_clients (body : string -> M (Self * Participant) unit)
    : M Trainer unit :=
    fold_clients (fun c_id _ => body c_id) tt.

End Monad.

Declare Scope monad_scope.
Delimit Scope monad_scope with monad.
Notation "x <- c1 ;; c2" := (bind c1 (fun x => c2))
  (at level 61, c1 at next level, right associativity) : monad_scope.
Notation "c1 ;; c2" := (bind c1 (fun _ => c2))
  (at level 61, right associativity) : monad_scope.
Local Open Scope monad_scope.

(** ** Python arithmetic and list helpers *)

(** [x / n] for an int [n], with the quotient [div] of the values at
    hand.  When [n] is 0 no score has been added to [x] (no iteration, no
    participant): it is still the int 0 it started as, and Python raises
    [ZeroDivisionError]. *)
Definition py_div (div : Q -> nat -> Q) (x : Q) (n : nat) : result Q :=
  if Nat.eqb n 0 then Err ZeroDivisionError
  else Ok (div x n).

(** [a % b] on ints: Python's remainder has the sign of the divisor, as
    [Z.modulo] has; [ZeroDivisionError] when [b] is 0. *)
Definition py_mod (a b : Z) : result Z :=
  if Z.eqb b 0 then Err ZeroDivisionError else Ok (a mod b)%Z.

(** [l[-1] = f(l[-1])]: [IndexError] on the empty list. *)
Definition update_last (f : Q -> result Q) (l : list Q) : result (list Q) :=
  match rev l with
  | [] => Err IndexError
  | x :: r =>
      match f x with
      | Ok v => Ok (rev (v :: r))
      | Err e => Err e
      end
  end.

(** [l[i]] with Python's negative indices. *)
Definition py_index (l : list Q) (i : Z) : result Q :=
  let n := Z.of_nat (List.length l) in
  let j := if (i <? 0)%Z then (i + n)%Z else i in
  if ((j <? 0) || (n <=? j))%Z then Err IndexError
  else match nth_error l (Z.to_nat j) with
       | Some x => Ok x
       | None => Err IndexError
       end.

Definition Qsum (l : list Q) : Q := fold_left Qplus l 0%Q.

(** [np.array(l).mean()] (for a non-empty [l]; numpy answers [nan] on the
    empty list, which has no counterpart in [Q]). *)
Definition np_mean (l : list Q) : Q :=
  (Qsum l / inject_Z (Z.of_nat (List.length l)))%Q.

(** [range(n)] for an int [n], as the epochs it yields. *)
Definition py_range (n : Z) : list Z := map Z.of_nat (seq 0 (Z.to_nat n)).

Notation "' pat <- c1 ;; c2" :=
  (bind c1 (fun x => match x with pat => c2 end))
  (at level 61, pat pattern, c1 at next level, right associativity) : monad_scope.

(** ** The methods of [ICTrainer]

    The body of every loop over the participants is a definition of its
    own, named after what it does, so that the methods read as the source
    does. *)
Section ICTrainer.
Context {T : Torch} {C : Collaborators}.

(** The state a loop body over the participants works on. *)
Definition Body : Type -> Type := M (Self * Participant).

(** [0 + a1 + ... + ak] on tensors, from the int 0 a list entry starts
    with. *)
Definition tensor_sum (l : list Q) : Q := fold_left tensor_add l 0%Q.

Definition the_self : Body Self := gets fst.
Definition the_client : Body Client := gets (fun s => client (snd s)).
Definition the_server : Body ConnectedClient :=
  gets (fun s => sc_client (snd s)).

Definition on_self (f : Self -> Self) : Body unit :=
  modify (fun s => (f (fst s), snd s)).
Definition on_client (f : Client -> Client) : Body unit :=
  modify (fun s => (fst s, (snd s) <| client ::= f |>)).
Definition on_server (f : ConnectedClient -> ConnectedClient) : Body unit :=
  modify (fun s => (fst s, (snd s) <| sc_client ::= f |>)).

Definition self_do (f : Self -> Self) : M Trainer unit :=
  modify (fun tr => tr <| self ::= f |>).

(** [client.m()] and [self.sc_clients[c_id].m()] *)
Definition call_client (c_id : string) (m : client_method) : Body unit :=
  emit (ClientCall c_id m) ;; on_client (client_call m).
Definition call_server (c_id : string) (m : server_method) : Body unit :=
  emit (ServerCall c_id m) ;; on_server (server_call m).

(** *** [personalize(epoch)] (lines 226-233) *)
Definition freeze_center_back (epoch : Z) (c_id : string) : Body unit :=
  g <- the_self ;;
  emit (Freeze c_id epoch) ;;
  on_server (fun sc =>
    sc <| center_back_model ::= freeze epoch (pretrained (args g)) |>).

Definition personalize (epoch : Z) : M Trainer unit :=
  emit (Print (msg_personalizing epoch)) ;;
  for_clients (freeze_center_back epoch).

(** *** [merge_model_weights(epoch)] (lines 235-294) *)

(** Lines 250-256: the pool of [center_back] states.  Neither
    [state_dict()] nor [len(...)] raises here, so the [except] branch that
    skips a participant is never taken. *)
Definition collect_center_back_of (c_id : string)
    (locals : list StateDict * list Z) : Body (list StateDict * list Z) :=
  let '(params, sample_lens) := locals in
  try_except
    (sc <- the_server ;;
     c <- the_client ;;
     g <- the_self ;;
     ret (params ++ [state_dict (center_back_model sc)],
          sample_lens ++ [(Z.of_nat (train_dataset c) * kv_factor (args g))%Z]))
    (fun e =>
       emit (Print (msg_error_collecting center_back c_id e)) ;;
       ret (params, sample_lens)).

(** Lines 274-280: the pool of [back] states. *)
Definition collect_back_of (c_id : string)
    (locals : list StateDict * list Z) : Body (list StateDict * list Z) :=
  let '(params, sample_lens) := locals in
  try_except
    (c <- the_client ;;
     ret (params ++ [state_dict (back_model c)],
          sample_lens ++ [Z.of_nat (train_dataset c)]))
    (fun e =>
       emit (Print (msg_error_collecting back c_id e)) ;;
       ret (params, sample_lens)).

(** Lines 263-265 and 287-289: one [load_state_dict(w_glob)]. *)
Definition load_center_back (w_glob : StateDict) (c_id : string) : Body unit :=
  sc <- the_server ;;
  emit (LoadStateDict c_id center_back w_glob) ;;
  let '(m, r) := load_state_dict w_glob (center_back_model sc) in
  on_server (fun sc => sc <| center_back_model := m |>) ;;
  lift_result r ;;
  emit (Print (msg_merged_loaded center_back c_id)).

Definition load_back (w_glob_cb : StateDict) (c_id : string) : Body unit :=
  c <- the_client ;;
  emit (LoadStateDict c_id back w_glob_cb) ;;
  let '(m, r) := load_state_dict w_glob_cb (back_model c) in
  on_client (fun c => c <| back_model := m |>) ;;
  lift_result r ;;
  emit (Print (msg_merged_loaded back c_id)).

(** The call [merge_weights(params, sample_lens)], recorded with its
    arguments. *)
Definition call_merge_weights (s : segment) (params : list StateDict)
    (sample_lens : list Z) : M Trainer StateDict :=
  emit (MergeWeights s params sample_lens) ;;
  lift_result (merge_weights params sample_lens).

(** Lines 246-267. *)
Definition merge_center_back : M Trainer unit :=
  ' (params, sample_lens) <- fold_clients collect_center_back_of ([], []) ;;
  try_except
    (w_glob <- call_merge_weights center_back params sample_lens ;;
     for_clients (load_center_back w_glob))
    (fun e => emit (Print (msg_error_merging center_back e))).

(** Lines 270-291. *)
Definition merge_back : M Trainer unit :=
  ' (params, sample_lens) <- fold_clients collect_back_of ([], []) ;;
  try_except
    (w_glob_cb <- call_merge_weights back params sample_lens ;;
     for_clients (load_back w_glob_cb))
    (fun e => emit (Print (msg_error_merging back e))).

Definition merge_model_weights (epoch : Z) : M Trainer unit :=
  emit (Print (msg_merging epoch)) ;;
  merge_center_back ;;
  tr <- get ;;
  when (negb (personalization_mode (self tr))) merge_back.

(** *** [create_iters(dl)] (lines 297-327) *)
Definition append_f1 (dl : mode) (c_id : string) : Body unit :=
  match dl with
  | train => on_client (fun c => c <| train_f1 ::= (fun l => l ++ [0%Q]) |>)
  | test => on_client (fun c => c <| test_f1 ::= (fun l => l ++ [0%Q]) |>)
  end.

Definition create_iters (dl : mode) : M Trainer (list (string * nat)) :=
  tr <- get ;;
  let num_iters := map (fun p => (fst p, O)) (participants tr) in
  for_clients (append_f1 dl) ;;
  ret num_iters.

(** *** [store_forward_mappings_kv(mode)] (lines 330-386) *)

(** Lines 342-346 and 365-369: flags, iteration count, iterator. *)
Definition kv_begin (mode_ : mode) (c_id : string) : Body unit :=
  match mode_ with
  | train =>
      on_client (fun c => c <| kv_flag := 1%Z |>) ;;
      on_server (fun sc => sc <| sc_kv_flag := 1%Z |>) ;;
      on_client (fun c => c <| num_iterations := train_DataLoader c |>) ;;
      on_client (fun c => c <| iterator := O |>)
  | test =>
      on_client (fun c => c <| kv_test_flag := 1%Z |>) ;;
      on_server (fun sc => sc <| sc_kv_test_flag := 1%Z |>) ;;
      on_client (fun c => c <| num_test_iterations := test_DataLoader c |>) ;;
      on_client (fun c => c <| test_iterator := O |>)
  end.

(** Lines 354-357 and 378-381: one forward pass of the frozen pipeline. *)
Definition kv_forward (mode_ : mode) (c_id : string) (it : nat) : Body unit :=
  match mode_ with
  | train =>
      call_client c_id forward_front_key_value ;;
      c <- the_client ;;
      on_server (fun sc =>
        sc <| sc_remote_activations1 := remote_activations1 c |>) ;;
      on_server (fun sc => sc <| batchkeys := key c |>) ;;
      call_server c_id forward_center_front
  | test =>
      call_client c_id forward_front_key_value_test ;;
      c <- the_client ;;
      on_server (fun sc =>
        sc <| sc_remote_activations1 := remote_activations1 c |>) ;;
      on_server (fun sc => sc <| test_batchkeys := test_key c |>) ;;
      call_server c_id forward_center_front_test
  end.

(** Lines 348-361 and 372-386: the passes of one participant. *)
Definition kv_populate (mode_ : mode) (c_id : string) : Body unit :=
  match mode_ with
  | train =>
      c <- the_client ;;
      g <- the_self ;;
      for_range (Z.to_nat (Z.of_nat (num_iterations c) * kv_factor (args g)))
                (kv_forward train c_id) ;;
      emit (Print (msg_dictionary_created train c_id)) ;;
      on_client (fun c => c <| kv_flag := 0%Z |>) ;;
      on_server (fun sc => sc <| sc_kv_flag := 0%Z |>)
  | test =>
      c <- the_client ;;
      for_range (num_test_iterations c) (kv_forward test c_id) ;;
      emit (Print (msg_dictionary_created test c_id)) ;;
      on_client (fun c => c <| kv_test_flag := 0%Z |>) ;;
      on_server (fun sc => sc <| sc_kv_test_flag := 0%Z |>)
  end.

Definition store_forward_mappings_kv (mode_ : mode) : M Trainer unit :=
  for_clients (kv_begin mode_) ;;
  for_clients (kv_populate mode_).

(** *** [populate_key_value_store()] (lines 388-401) *)
Definition populate_key_value_store : M Trainer unit :=
  emit (Print msg_generating_train) ;;
  store_forward_mappings_kv train ;;
  emit (Print msg_generating_test) ;;
  store_forward_mappings_kv test.

(** *** [train_one_epoch(epoch)] (lines 404-498) *)

(** Lines 435-458: one training iteration of one participant. *)
Definition train_iteration (client_id : string) (iteration : nat) : Body unit :=
  call_client client_id forward_front_key_value ;;
  c <- the_client ;;
  on_server (fun sc => sc <| batchkeys := key c |>) ;;
  call_server client_id forward_center_front ;;
  call_server client_id forward_center_back ;;
  sc <- the_server ;;
  on_client (fun c => c <| remote_activations2 := sc_remote_activations2 sc |>) ;;
  call_client client_id forward_back ;;
  call_client client_id (calculate_loss train) ;;
  c <- the_client ;;
  emit (WandbLog k_step_loss (loss_item c)) ;;
  call_client client_id loss_backward ;;
  c <- the_client ;;
  on_server (fun sc => sc <| sc_remote_activations2 := remote_activations2 c |>) ;;
  call_server client_id backward_center ;;
  call_client client_id step_back ;;
  call_client client_id zero_grad_back ;;
  call_server client_id center_optimizer_step ;;
  call_server client_id center_optimizer_zero_grad ;;
  c <- the_client ;;
  let f1 := metric_result train c in
  call_client client_id calculate_train_metric ;;
  c <- the_client ;;
  l <- lift_result (update_last (fun x => Ok (tensor_add x f1)) (train_f1 c)) ;;
  on_client (fun c => c <| train_f1 := l |>) ;;
  emit (WandbLog (k_f1_iter train client_id) f1).

(** Lines 429-458: the iterations of one participant. *)
Definition train_client (client_id : string) : Body unit :=
  on_client (fun c => c <| iterator := O |>) ;;
  c <- the_client ;;
  for_range (num_iterations c) (train_iteration client_id).

(** Lines 463-482: the epoch metrics of one participant; the loop carries
    [bal_accs], [f1_macros] and [avg_loss]. *)
Definition train_epoch_metrics (c_id : string) (locals : list Q * list Q * Q)
  : Body (list Q * list Q * Q) :=
  let '(bal_accs, f1_macros, avg_loss) := locals in
  c <- the_client ;;
  l <- lift_result
         (update_last (fun x => py_div tensor_div x (num_iterations c))
                      (train_f1 c)) ;;
  on_client (fun c => c <| train_f1 := l |>) ;;
  tl <- lift_result (py_div loss_div (train_loss c) (num_iterations c)) ;;
  on_client (fun c => c <| train_loss := tl |>) ;;
  let avg_loss := loss_add avg_loss tl in
  f <- lift_result (py_index l (-1)) ;;
  g <- the_self ;;
  ol <- lift_result
          (update_last (fun x => Ok (tensor_add x f)) (overall_f1_train g)) ;;
  on_self (fun g => g <| overall_f1_train := ol |>) ;;
  c <- the_client ;;
  let '(bal_acc_client, f1_macro_client) := main_metric_result train c in
  call_client c_id (get_main_metric train) ;;
  c <- the_client ;;
  f' <- lift_result (py_index (train_f1 c) (-1)) ;;
  emit (WandbLog (k_avg_f1 train c_id) f') ;;
  emit (WandbLog (k_balanced_acc train c_id) bal_acc_client) ;;
  emit (WandbLog (k_f1_macro train c_id) f1_macro_client) ;;
  emit (WandbLog (k_avg_loss train c_id) (train_loss c)) ;;
  on_client (fun c => c <| train_loss := 0%Q |>) ;;
  ret (bal_accs ++ [bal_acc_client], f1_macros ++ [f1_macro_client], avg_loss).

(** Lines 485-494: the metrics across the participants. *)
Definition train_overall_metrics (locals : list Q * list Q * Q)
  : M Trainer unit :=
  let '(bal_accs, f1_macros, avg_loss) := locals in
  let bal_acc := np_mean bal_accs in
  let f1_macro := np_mean f1_macros in
  tr <- get ;;
  ol <- lift_result
          (update_last (fun x => py_div tensor_div x (num_clients (self tr)))
                       (overall_f1_train (self tr))) ;;
  self_do (fun g => g <| overall_f1_train := ol |>) ;;
  f <- lift_result (py_index ol (-1)) ;;
  emit (WandbLog (k_avg_f1_all train) f) ;;
  emit (WandbLog (k_avg_bal_acc_all train) bal_acc) ;;
  emit (WandbLog (k_avg_f1_macro_all train) f1_macro) ;;
  al <- lift_result (py_div loss_div avg_loss (num_clients (self tr))) ;;
  emit (WandbLog (k_avg_loss_all train) al).

(** Lines 460-494: the epoch metrics. *)
Definition train_metrics : M Trainer unit :=
  locals <- fold_clients train_epoch_metrics ([], [], 0%Q) ;;
  train_overall_metrics locals.

(** Lines 496-498. *)
Definition merge_unless_pooling (epoch : Z) : M Trainer unit :=
  tr <- get ;;
  when (negb (pooling_mode (self tr))) (merge_model_weights epoch).

Definition train_one_epoch (epoch : Z) : M Trainer unit :=
  emit (Print (msg_training epoch)) ;;
  num_iters <- create_iters train ;;
  self_do (fun g => g <| overall_f1_train ::= (fun l => l ++ [0%Q]) |>) ;;
  for_clients train_client ;;
  train_metrics ;;
  merge_unless_pooling epoch.

(** *** [test_one_epoch(epoch)] (lines 501-589) *)

(** Lines 518-520. *)
Definition reset_predictions (c_id : string) : Body unit :=
  on_client (fun c => c <| pred := [] |>) ;;
  on_client (fun c => c <| y := [] |>).

(** Lines 533-559: one testing iteration of one participant. *)
Definition test_iteration (client_id : string) (iteration : nat) : Body unit :=
  call_client client_id forward_front_key_value_test ;;
  c <- the_client ;;
  on_server (fun sc => sc <| test_batchkeys := test_key c |>) ;;
  call_server client_id forward_center_front_test ;;
  call_server client_id forward_center_back ;;
  sc <- the_server ;;
  on_client (fun c => c <| remote_activations2 := sc_remote_activations2 sc |>) ;;
  call_client client_id forward_back ;;
  call_client client_id (calculate_loss test) ;;
  c <- the_client ;;
  emit (WandbLog k_step_loss (loss_item c)) ;;
  c <- the_client ;;
  let f1 := metric_result test c in
  call_client client_id calculate_test_metric ;;
  c <- the_client ;;
  l <- lift_result (update_last (fun x => Ok (tensor_add x f1)) (test_f1 c)) ;;
  on_client (fun c => c <| test_f1 := l |>) ;;
  emit (WandbLog (k_f1_iter test client_id) f1).

(** Lines 525-559: the iterations of one participant. *)
Definition test_client (client_id : string) : Body unit :=
  on_client (fun c => c <| num_test_iterations := test_DataLoader c |>) ;;
  on_client (fun c => c <| test_iterator := O |>) ;;
  c <- the_client ;;
  for_range (num_test_iterations c) (test_iteration client_id).

(** Lines 564-578. *)
Definition test_epoch_metrics (c_id : string) (locals : list Q * list Q * Q)
  : Body (list Q * list Q * Q) :=
  let '(bal_accs, f1_macros, avg_loss) := locals in
  c <- the_client ;;
  l <- lift_result
         (update_last (fun x => py_div tensor_div x (test_DataLoader c))
                      (test_f1 c)) ;;
  on_client (fun c => c <| test_f1 := l |>) ;;
  tl <- lift_result (py_div loss_div (test_loss c) (test_DataLoader c)) ;;
  on_client (fun c => c <| test_loss := tl |>) ;;
  let avg_loss := loss_add avg_loss tl in
  c <- the_client ;;
  let '(bal_acc_client, f1_macro_client) := main_metric_result test c in
  call_client c_id (get_main_metric test) ;;
  c <- the_client ;;
  f <- lift_result (py_index (test_f1 c) (-1)) ;;
  g <- the_self ;;
  ol <- lift_result
          (update_last (fun x => Ok (tensor_add x f)) (overall_f1_test g)) ;;
  on_self (fun g => g <| overall_f1_test := ol |>) ;;
  emit (WandbLog (k_avg_f1 test c_id) f) ;;
  emit (WandbLog (k_balanced_acc test c_id) bal_acc_client) ;;
  emit (WandbLog (k_f1_macro test c_id) f1_macro_client) ;;
  emit (WandbLog (k_avg_loss test c_id) (test_loss c)) ;;
  on_client (fun c => c <| test_loss := 0%Q |>) ;;
  ret (bal_accs ++ [bal_acc_client], f1_macros ++ [f1_macro_client], avg_loss).

(** Lines 580-589. *)
Definition test_overall_metrics (locals : list Q * list Q * Q)
  : M Trainer unit :=
  let '(bal_accs, f1_macros, avg_loss) := locals in
  let bal_acc := np_mean bal_accs in
  let f1_macro := np_mean f1_macros in
  tr <- get ;;
  ol <- lift_result
          (update_last (fun x => py_div tensor_div x (num_clients (self tr)))
                       (overall_f1_test (self tr))) ;;
  self_do (fun g => g <| overall_f1_test := ol |>) ;;
  f <- lift_result (py_index ol (-1)) ;;
  emit (WandbLog (k_avg_f1_all test) f) ;;
  emit (WandbLog (k_avg_bal_acc_all test) bal_acc) ;;
  (* line 588 logs [bal_acc] under the f1-macro key *)
  emit (WandbLog (k_avg_f1_macro_all test) bal_acc) ;;
  al <- lift_result (py_div loss_div avg_loss (num_clients (self tr))) ;;
  emit (WandbLog (k_avg_loss_all test) al).

(** Lines 561-589: the epoch metrics. *)
Definition test_metrics : M Trainer unit :=
  locals <- fold_clients test_epoch_metrics ([], [], 0%Q) ;;
  test_overall_metrics locals.

Definition test_one_epoch (epoch : Z) : M Trainer unit :=
  num_iters <- create_iters test ;;
  self_do (fun g => g <| overall_f1_test ::= (fun l => l ++ [0%Q]) |>) ;;
  for_clients reset_predictions ;;
  for_clients test_client ;;
  test_metrics.

(** *** [load_best_models()] (lines 680-705) *)

(** [m = model.<segment>().to(device)], [sd = torch.load(path)],
    [m.load_state_dict(sd)], for the file of the segment in the save
    directory of the run. *)
Definition load_segment (c_id : string) (s : segment) : Body Model :=
  g <- the_self ;;
  emit (TorchLoad c_id s) ;;
  match saved_models g c_id s with
  | None => raise FileNotFoundError
  | Some sd =>
      emit (LoadStateDict c_id s sd) ;;
      let '(m, r) := load_state_dict sd (new_model s) in
      lift_result r ;;
      ret m
  end.

Definition load_best_model (c_id : string) : Body unit :=
  front_m <- load_segment c_id front ;;
  center_front_m <- load_segment c_id center_front ;;
  center_back_m <- load_segment c_id center_back ;;
  back_m <- load_segment c_id back ;;
  on_client (fun c => c <| front_model := front_m |>) ;;
  on_client (fun c => c <| back_model := back_m |>) ;;
  on_server (fun sc => sc <| center_front_model := center_front_m |>) ;;
  on_server (fun sc => sc <| center_back_model := center_back_m |>).

Definition load_best_models : M Trainer unit :=
  for_clients load_best_model.

(** *** [inference()] (lines 708-756) *)

(** [np.sum(preds == targets)] *)
Fixpoint count_correct (preds targets : list Z) : Z :=
  match preds, targets with
  | p :: ps, t :: ts => ((if Z.eqb p t then 1 else 0) + count_correct ps ts)%Z
  | _, _ => 0%Z
  end.

(** Lines 720-739: [preds] and [targets] of one participant.  [torch.cat]
    raises on no batch. *)
Definition inference_outputs (p : Participant) : result (list Z * list Z) :=
  let outs :=
    map (fun batch : Tensor * list Z =>
           let x1 := forward (front_model (client p)) (fst batch) in
           let x2 := forward (center_front_model (sc_client p)) x1 in
           let x3 := forward (center_back_model (sc_client p)) x2 in
           let x4 := forward (back_model (client p)) x3 in
           (x4, snd batch))
        (main_test_DataLoader (client p)) in
  match outs with
  | [] => Err cat_empty_error
  | _ => Ok (flat_map (fun o => argmax_rows (fst o)) outs, flat_map snd outs)
  end.

(** Lines 740-742: [correct / total]; a [DataLoader] yields no empty
    batch, so [total] is positive. *)
Definition accuracy_of (preds targets : list Z) : Q :=
  (inject_Z (count_correct preds targets)
   / inject_Z (Z.of_nat (List.length targets)))%Q.


(** Lines 718-755: one participant; the loop carries [avg_acc]. *)
Definition inference_client (c_id : string) (avg_acc : Q) : Body Q :=
  p <- gets snd ;;
  ' (preds, targets) <- lift_result (inference_outputs p) ;;
  let accuracy := accuracy_of preds targets in
  lift_result (confusion_matrix preds targets) ;;
  emit (WandbLogPlot preds targets) ;;
  emit (Print (msg_inference_score c_id accuracy)) ;;
  emit (WandbLog (k_inference_score c_id) accuracy) ;;
  ret (avg_acc + accuracy)%Q.

Definition inference : M Trainer unit :=
  avg_acc <- fold_clients inference_client 0%Q ;;
  emit (Print (msg_average_inference (avg_acc / 10)%Q)).

(** *** [fit()] (lines 764-825) *)

(** [f'./saved_models/{self.args.dataset}/key_value_mode/model_split{self.args.split}'] *)
Definition save_dir_path (a : Args) : string :=
  "./saved_models/" ++ dataset a ++ "/key_value_mode/model_split" ++ split a.

(** Lines 199-205: [self.save_dir] is assigned before [mkdir] is tried. *)
Definition _create_save_dir : M Trainer unit :=
  self_do (fun g => g <| save_dir := Some (save_dir_path (args g)) |>) ;;
  tr <- get ;;
  if mkdir_ok (self tr) then emit (Print msg_directory_created)
  else (emit (Print msg_error_creating_directory) ;; raise OSError).

(** [gc.collect(); torch.cuda.empty_cache()] *)
Definition clear_cache : M Trainer unit := emit ClearCache.

(** Lines 803-805 ([.train()]) and 810-812 ([.eval()]). *)
Definition set_training_pair (training : bool) (c_id : string) : Body unit :=
  emit (SetTraining c_id back training) ;;
  on_client (fun c => c <| back_model ::= set_training training |>) ;;
  emit (SetTraining c_id center_back training) ;;
  on_server (fun sc => sc <| center_back_model ::= set_training training |>).

Definition set_training_all (training : bool) : M Trainer unit :=
  for_clients (set_training_pair training).

(** Lines 789-793. *)
Definition refresh_key_value_store (epoch : Z) : M Trainer unit :=
  tr <- get ;;
  when (negb (args_kv_refresh_rate (args (self tr)) =? 0)%Z)
    (r <- lift_result (py_mod epoch (kv_refresh_rate (self tr))) ;;
     when (r =? 0)%Z
       (emit (Print (msg_preparing_kv (kv_refresh_rate (self tr)))) ;;
        populate_key_value_store ;;
        clear_cache)).

(** Lines 795-799. *)
Definition enter_personalization (epoch : Z) : M Trainer unit :=
  tr <- get ;;
  when (args_personalize (args (self tr)))
    (when (epoch =? p_epoch (args (self tr)))%Z
       (self_do (fun g => g <| personalization_mode := true |>) ;;
        load_best_models ;;
        personalize epoch)).

(** The body of the epoch loop (lines 786-820). *)
Definition fit_epoch (epoch : Z) : M Trainer unit :=
  refresh_key_value_store epoch ;;
  enter_personalization epoch ;;
  emit (WandbLog k_epoch (inject_Z epoch)) ;;
  set_training_all true ;;
  train_one_epoch epoch ;;
  clear_cache ;;
  set_training_all false ;;
  test_one_epoch epoch ;;
  clear_cache ;;
  inference.

Definition fit : M Trainer unit :=
  tr <- get ;;
  when (pooling_mode (self tr)) (emit (Print msg_pooling_enabled)) ;;
  _create_save_dir ;;
  when (args_kv_refresh_rate (args (self tr)) =? 0)%Z
    (populate_key_value_store ;; clear_cache) ;;
  emit (Print msg_commence_training) ;;
  for_each (py_range (epochs (args (self tr)))) fit_epoch ;;
  tr <- get ;;
  mean_f1 <- lift_result
               (py_index (overall_f1_train (self tr)) (max_f1_epoch (self tr))) ;;
  emit (Print (msg_best_metrics mean_f1 (max_f1_f1 (self tr)))).

End ICTrainer.

(** *** [save_models()] (lines 662-678)

    [torch.save(sd, self.save_dir / f'client_{c_id}_{model}_{segment}.pth')]
    replaces what the file system holds under that name; [self.save_dir] is
    the directory [_create_save_dir] has made, and the write is taken to
    succeed. *)
Section Checkpoints.
Context {T : Torch}.




End Checkpoints.

(** *** [init_clients_with_data()] (lines 72-101)

    The part of [__init__] that builds [self.clients] and [self.client_ids].
    The class [Client], the dataset builder and [create_DataLoader] are
    outside the two source files: [Client] is the constructor, and
    [with_data idx pool client] is the client after the body of the loop of
    lines 91-101 (the datasets of split [idx] assigned, the loaders
    created). *)
Module InitClients.
Import RandomClients.

Inductive exn : Type :=
| AssertionError     (* [assert self.args.number_of_clients <= 10] *)
| IndexError         (* [list(self.clients.keys())[0]] on no key *)
| KeyError.          (* [self.clients.pop(key)] on an absent key *)

(** [enumerate(l)] *)
Fixpoint enumerate_from {A} (i : nat) (l : list A) : list (nat * A) :=
  match l with
  | [] => []
  | x :: l' => (i, x) :: enumerate_from (S i) l'
  end.

Definition enumerate {A} (l : list A) : list (nat * A) := enumerate_from 0 l.

Section Init.
Variable V : Type.
Variable Client : string -> V.
Variable with_data : nat -> bool -> V -> V.

(** What the method assigns. *)
Record Clients : Type := {
  num_clients : Z;
  clients : list (string * V);
  client_ids : list string
}.

(** Lines 83-85: in pooling mode the first (and only) client is moved
    under the key ['pooled_client']. *)
Definition pool_clients (pooling_mode : bool) (cl : list (string * V))
  : exn + list (string * V) :=
  if pooling_mode then
    match dict_keys cl with
    | [] => inl IndexError
    | key :: _ =>
        match dict_pop key cl with
        | None => inl KeyError
        | Some (v, cl') => inr (dict_set "pooled_client" v cl')
        end
    end
  else inr cl.

Definition init_clients_with_data (number_of_clients : Z)
    (pooling_mode : bool) (g : rng) : (exn + Clients) * rng :=
  if (10 <? number_of_clients)%Z then (inl AssertionError, g)
  else
    let n := if pooling_mode then 1%Z else number_of_clients in
    let '(cl, g') := generate_random_clients (Z.to_nat n) Client g in
    match pool_clients pooling_mode cl with
    | inl e => (inl e, g')
    | inr cl1 =>
        (inr {| num_clients := n;
                clients :=
                  map (fun ic => (fst (snd ic),
                                  with_data (fst ic) pooling_mode (snd (snd ic))))
                      (enumerate cl1);
                client_ids := dict_keys cl1 |}, g')
    end.

End Init.

End InitClients.

(** ** Observing a run *)
Section Observations.
Context {T : Torch}.

Definition final_state {S A} (m : M S A) (s : S) : S := fst (fst (m s)).
Definition trace {S A} (m : M S A) (s : S) : list event := snd (fst (m s)).
Definition outcome {S A} (m : M S A) (s : S) : result A := snd (m s).

Definition client_method_eqb (a b : client_method) : bool :=
    match a, b with
    | forward_front_key_value, forward_front_key_value
    | forward_front_key_value_test, forward_front_key_value_test
    | forward_back, forward_back
    | loss_backward, loss_backward
    | step_back, step_back
    | zero_grad_back, zero_grad_back
    | calculate_train_metric, calculate_train_metric
    | calculate_test_metric, calculate_test_metric => true
    | calculate_loss m, calculate_loss m' => mode_eqb m m'
    | get_main_metric m, get_main_metric m' => mode_eqb m m'
    | _, _ => false
    end.

Definition server_method_eqb (a b : server_method) : bool :=
    match a, b with
    | forward_center_front, forward_center_front
    | forward_center_front_test, forward_center_front_test
    | forward_center_back, forward_center_back
    | backward_center, backward_center
    | center_optimizer_step, center_optimizer_step
    | center_optimizer_zero_grad, center_optimizer_zero_grad => true
    | _, _ => false
    end.

Definition wandb_key_eqb (a b : wandb_key) : bool :=
    match a, b with
    | k_epoch, k_epoch | k_step_loss, k_step_loss => true
    | k_f1_iter m c, k_f1_iter m' c'
    | k_avg_f1 m c, k_avg_f1 m' c'
    | k_balanced_acc m c, k_balanced_acc m' c'
    | k_f1_macro m c, k_f1_macro m' c'
    | k_avg_loss m c, k_avg_loss m' c' => mode_eqb m m' && String.eqb c c'
    | k_avg_f1_all m, k_avg_f1_all m'
    | k_avg_bal_acc_all m, k_avg_bal_acc_all m'
    | k_avg_f1_macro_all m, k_avg_f1_macro_all m'
    | k_avg_loss_all m, k_avg_loss_all m' => mode_eqb m m'
    | k_inference_score c, k_inference_score c' => String.eqb c c'
    | _, _ => false
    end.

(** How many events of a trace satisfy [P]. *)
Definition count (P : event -> bool) (t : list event) : nat :=
    List.length (filter P t).

Definition is_client_call (c_id : string) (m : client_method) (ev : event)
    : bool :=
    match ev with
    | ClientCall c m' => client_method_eqb m' m && String.eqb c c_id
    | _ => false
    end.

Definition is_server_call (c_id : string) (m : server_method) (ev : event)
    : bool :=
    match ev with
    | ServerCall c m' => server_method_eqb m' m && String.eqb c c_id
    | _ => false
    end.

(** The values logged to wandb under key [k], in order. *)
Definition logged (k : wandb_key) (t : list event) : list Q :=
    flat_map (fun ev => match ev with
                        | WandbLog k' v => if wandb_key_eqb k k' then [v] else []
                        | _ => []
                        end) t.

(** The calls to [merge_weights]. *)
Definition is_merge_call (ev : event) : bool :=
    match ev with MergeWeights _ _ _ => true | _ => false end.

(** A call of a method of [Client] or [ConnectedClient] in the pipeline:
    any but [get_main_metric]. *)
Definition is_pipeline_call (ev : event) : bool :=
    match ev with
    | ClientCall _ (get_main_metric _) => false
    | ClientCall _ _ | ServerCall _ _ => true
    | _ => false
    end.

(** The start of a population of the key-value store (the first print of
    [populate_key_value_store]) and the [wandb.log({'epoch': epoch})] that
    opens the training of an epoch. *)
Definition is_schedule_event (ev : event) : bool :=
    match ev with
    | Print msg_generating_train => true
    | WandbLog k_epoch _ => true
    | _ => false
    end.

(** Anything that could change trainable state: gradients, optimizer
    steps, fusion, loading or freezing of parameters. *)
Definition is_update_event (ev : event) : bool :=
    match ev with
    | ClientCall _ loss_backward | ClientCall _ step_back
    | ClientCall _ zero_grad_back => true
    | ServerCall _ backward_center | ServerCall _ center_optimizer_step
    | ServerCall _ center_optimizer_zero_grad => true
    | MergeWeights _ _ _ | LoadStateDict _ _ _ | TorchLoad _ _
    | Freeze _ _ | SetTraining _ _ _ => true
    | _ => false
    end.

Definition is_freeze (ev : event) : bool :=
    match ev with Freeze _ _ => true | _ => false end.

Definition is_load (ev : event) : bool :=
    match ev with LoadStateDict _ _ _ | TorchLoad _ _ => true | _ => false end.

(** What [inference] prints. *)
Definition printed_scores (t : list event) : list Q :=
    flat_map (fun ev => match ev with
                        | Print (msg_inference_score _ a) => [a]
                        | _ => []
                        end) t.

Definition printed_averages (t : list event) : list Q :=
    flat_map (fun ev => match ev with
                        | Print (msg_average_inference a) => [a]
                        | _ => []
                        end) t.

Definition ids (tr : Trainer) : list string := map fst (participants tr).

End Observations.

(** ** Vocabulary of the properties *)
Section Vocabulary.
Context {T : Torch} {C : Collaborators}.

(** [m] produces no event that [P] selects and relates the state it
    starts in to the state it leaves by [R], whether it returns or
    raises. *)
Definition sound {S A} (P : event -> bool) (R : S -> S -> Prop)
      (m : M S A) : Prop :=
    forall s, filter P (trace m s) = [] /\ R s (final_state m s).

Definition no_event (ev : event) : bool := false.
Definition any_change {S} (a b : S) : Prop := True.

(** A relation on the trainer's attributes and one on a participant, for
    a loop body and for the whole trainer. *)
Definition on_pair (Rg : Self -> Self -> Prop)
      (Rp : Participant -> Participant -> Prop)
      (a b : Self * Participant) : Prop :=
    Rg (fst a) (fst b) /\ Rp (snd a) (snd b).

Definition on_trainer (Rg : Self -> Self -> Prop)
      (Rp : Participant -> Participant -> Prop) (a b : Trainer) : Prop :=
    Rg (self a) (self b) /\
    Forall2 (fun x y => fst x = fst y /\ Rp (snd x) (snd y))
            (participants a) (participants b).

(** The six models and optimizers of a participant are the same. *)
Definition same_models (p p' : Participant) : Prop :=
    front_model (client p') = front_model (client p) /\
    back_model (client p') = back_model (client p) /\
    back_optimizer (client p') = back_optimizer (client p) /\
    center_front_model (sc_client p') = center_front_model (sc_client p) /\
    center_back_model (sc_client p') = center_back_model (sc_client p) /\
    center_optimizer (sc_client p') = center_optimizer (sc_client p).

(** The client half of it. *)
Definition same_back (p p' : Participant) : Prop :=
    back_model (client p') = back_model (client p) /\
    back_optimizer (client p') = back_optimizer (client p).

(** The configuration of the run is the same. *)
Definition same_config (g g' : Self) : Prop :=
    args g' = args g /\ kv_refresh_rate g' = kv_refresh_rate g /\
    pooling_mode g' = pooling_mode g /\ num_clients g' = num_clients g /\
    mkdir_ok g' = mkdir_ok g /\ saved_models g' = saved_models g /\
    max_f1_epoch g' = max_f1_epoch g.

(** Personalization, once entered, stays. *)
Definition stays_personalized (g g' : Self) : Prop :=
    personalization_mode g = true -> personalization_mode g' = true.

(** The methods a testing epoch invokes. *)
Definition evaluation_method (m : client_method) : bool :=
    match m with
    | forward_front_key_value_test | forward_back | calculate_loss test
    | calculate_test_metric | get_main_metric test => true
    | _ => false
    end.

Definition evaluation_server_method (m : server_method) : bool :=
    match m with
    | forward_center_front_test | forward_center_back => true
    | _ => false
    end.

(** What the trainer relies on from the forward and metric methods of
    [Client] and [ConnectedClient] (§4.2 and §4.3 of the specification:
    a forward pass and a loss or metric computation mutate no trainable
    weight): they assign neither a model nor an optimizer. *)
Definition forward_frame : Prop :=
    (forall m c, evaluation_method m = true ->
       front_model (client_call m c) = front_model c /\
       back_model (client_call m c) = back_model c /\
       back_optimizer (client_call m c) = back_optimizer c) /\
    (forall m sc, evaluation_server_method m = true ->
       center_front_model (server_call m sc) = center_front_model sc /\
       center_back_model (server_call m sc) = center_back_model sc /\
       center_optimizer (server_call m sc) = center_optimizer sc).

(** The metric lists and the iteration counts are attributes that only
    the trainer assigns. *)
Definition metrics_frame : Prop :=
    forall m c,
      train_f1 (client_call m c) = train_f1 c /\
      test_f1 (client_call m c) = test_f1 c /\
      num_iterations (client_call m c) = num_iterations c /\
      test_DataLoader (client_call m c) = test_DataLoader c.

(** [m] returns, whatever the state. *)
Definition never_raises {S A} (m : M S A) : Prop :=
    forall s, is_ok (outcome m s) = true.

(** A loop over the participants that ran to its end: [Post c_id p p' t]
    relates each participant before and after its turn to the events of
    that turn. *)
Inductive runs (Post : string -> Participant -> Participant -> list event -> Prop)
    : list (string * Participant) -> list (string * Participant)
      -> list event -> Prop :=
  | runs_nil : runs Post [] [] []
  | runs_cons c_id p p1 t1 ps ps1 t :
      Post c_id p p1 t1 -> runs Post ps ps1 t ->
      runs Post ((c_id, p) :: ps) ((c_id, p1) :: ps1) (t1 ++ t).

(** The two fusion pools and their weights, as [merge_model_weights]
    collects them. *)
Definition center_back_pool (tr : Trainer) : list StateDict :=
    map (fun x => state_dict (center_back_model (sc_client (snd x))))
        (participants tr).

Definition center_back_sample_lens (tr : Trainer) : list Z :=
    map (fun x => (Z.of_nat (train_dataset (client (snd x)))
                   * kv_factor (args (self tr)))%Z)
        (participants tr).

Definition back_pool (tr : Trainer) : list StateDict :=
    map (fun x => state_dict (back_model (client (snd x)))) (participants tr).

Definition back_sample_lens (tr : Trainer) : list Z :=
    map (fun x => Z.of_nat (train_dataset (client (snd x)))) (participants tr).

(** The model [load_best_models] builds for a segment of participant
    [c_id]: the saved state loaded into a fresh model, when the file exists
    and loads. *)
Definition loaded_model (g : Self) (c_id : string) (s : segment)
  : option Model :=
  match saved_models g c_id s with
  | None => None
  | Some sd =>
      match load_state_dict sd (new_model s) with
      | (m, Ok _) => Some m
      | (_, Err _) => None
      end
  end.

(** A participant after [load_best_models] and [personalize(epoch)]. *)
Definition personalized (g : Self) (epoch : Z) (c_id : string)
    (p' : Participant) : Prop :=
  loaded_model g c_id front = Some (front_model (client p')) /\
  loaded_model g c_id center_front = Some (center_front_model (sc_client p')) /\
  loaded_model g c_id back = Some (back_model (client p')) /\
  exists m, loaded_model g c_id center_back = Some m /\
            center_back_model (sc_client p')
            = freeze epoch (pretrained (args g)) m.

(** The schedule the run is to follow.  A population of the key-value
    store is marked by its first print, an epoch by the
    [wandb.log({'epoch': epoch})] that precedes its training.  With a refresh
    rate of zero: one population, then the epochs.  Otherwise: a population
    at the head of the epochs divisible by the rate (epoch 0, the start of
    the run, among them) and of no other. *)
Definition populate_mark : event := Print msg_generating_train.
Definition epoch_mark (epoch : Z) : event := WandbLog k_epoch (inject_Z epoch).

Definition expected_schedule (a : Args) : list event :=
  let rate := args_kv_refresh_rate a in
  if (rate =? 0)%Z
  then populate_mark :: map epoch_mark (py_range (epochs a))
  else flat_map (fun epoch =>
                   (if (epoch mod rate =? 0)%Z then [populate_mark] else [])
                   ++ [epoch_mark epoch])
                (py_range (epochs a)).

(** The loaders of a participant keep their numbers of batches: the
    methods of [Client] do not assign [train_DataLoader] (nor
    [test_DataLoader], by [metrics_frame]). *)
Definition loaders_frame : Prop :=
  forall m c, train_DataLoader (client_call m c) = train_DataLoader c.

Definition same_loaders (p p' : Participant) : Prop :=
  train_DataLoader (client p') = train_DataLoader (client p) /\
  test_DataLoader (client p') = test_DataLoader (client p).

(** The attributes [metrics_frame] protects are the same. *)
Definition same_metrics (p p' : Participant) : Prop :=
  train_f1 (client p') = train_f1 (client p) /\
  test_f1 (client p') = test_f1 (client p) /\
  num_iterations (client p') = num_iterations (client p) /\
  test_DataLoader (client p') = test_DataLoader (client p).

(** [client.train_f1] / [client.test_f1], the number of iterations of an
    epoch, and [self.overall_f1[mode]]. *)
Definition f1_list (m : mode) (p : Participant) : list Q :=
  match m with
  | train => train_f1 (client p)
  | test => test_f1 (client p)
  end.

Definition iterations (m : mode) (p : Participant) : nat :=
  match m with
  | train => num_iterations (client p)
  | test => test_DataLoader (client p)
  end.

Definition overall_f1 (m : mode) (g : Self) : list Q :=
  match m with
  | train => overall_f1_train g
  | test => overall_f1_test g
  end.

Definition other_mode (m : mode) : mode :=
  match m with train => test | test => train end.

(** The events of one forward pass of the frozen pipeline, of the [n]
    passes of one participant, and of one population of the key-value
    store. *)
Definition forward_front_of (m : mode) : client_method :=
  match m with
  | train => forward_front_key_value
  | test => forward_front_key_value_test
  end.

Definition forward_center_front_of (m : mode) : server_method :=
  match m with
  | train => forward_center_front
  | test => forward_center_front_test
  end.

Definition kv_events (m : mode) (c_id : string) (n : nat) : list event :=
  flat_map (fun _ => [ClientCall c_id (forward_front_of m);
                      ServerCall c_id (forward_center_front_of m)])
           (seq 0 n)
  ++ [Print (msg_dictionary_created m c_id)].

Definition kv_train_passes (g : Self) (p : Participant) : nat :=
  Z.to_nat (Z.of_nat (train_DataLoader (client p)) * kv_factor (args g)).

Definition populate_events (tr : Trainer) : list event :=
  Print msg_generating_train
  :: flat_map (fun x => kv_events train (fst x) (kv_train_passes (self tr) (snd x)))
              (participants tr)
  ++ Print msg_generating_test
  :: flat_map (fun x => kv_events test (fst x) (test_DataLoader (client (snd x))))
              (participants tr).

(** The events of one training iteration, of one testing iteration and of
    the epoch metrics of one participant; [loss] and [f1] are the values
    logged. *)
Definition train_iteration_events (c_id : string) (loss f1 : Q) : list event :=
  [ClientCall c_id forward_front_key_value;
   ServerCall c_id forward_center_front;
   ServerCall c_id forward_center_back;
   ClientCall c_id forward_back;
   ClientCall c_id (calculate_loss train);
   WandbLog k_step_loss loss;
   ClientCall c_id loss_backward;
   ServerCall c_id backward_center;
   ClientCall c_id step_back;
   ClientCall c_id zero_grad_back;
   ServerCall c_id center_optimizer_step;
   ServerCall c_id center_optimizer_zero_grad;
   ClientCall c_id calculate_train_metric;
   WandbLog (k_f1_iter train c_id) f1].

Definition test_iteration_events (c_id : string) (loss f1 : Q) : list event :=
  [ClientCall c_id forward_front_key_value_test;
   ServerCall c_id forward_center_front_test;
   ServerCall c_id forward_center_back;
   ClientCall c_id forward_back;
   ClientCall c_id (calculate_loss test);
   WandbLog k_step_loss loss;
   ClientCall c_id calculate_test_metric;
   WandbLog (k_f1_iter test c_id) f1].

Definition iteration_events (m : mode) (c_id : string) (obs : list (Q * Q))
  : list event :=
  flat_map (fun o => match m with
                     | train => train_iteration_events c_id (fst o) (snd o)
                     | test => test_iteration_events c_id (fst o) (snd o)
                     end) obs.

Definition epoch_metrics_events (m : mode) (c_id : string)
    (avg_f1 bal_acc f1_macro avg_loss : Q) : list event :=
  [ClientCall c_id (get_main_metric m);
   WandbLog (k_avg_f1 m c_id) avg_f1;
   WandbLog (k_balanced_acc m c_id) bal_acc;
   WandbLog (k_f1_macro m c_id) f1_macro;
   WandbLog (k_avg_loss m c_id) avg_loss].

(** What the iterations of an epoch do to one participant, from before
    [create_iters] to after its last iteration: [obs] holds the loss and
    the score logged at each iteration; the sum of the scores is appended
    to the participant's list. *)
Definition epoch_loop (m : mode) (c_id : string) (p p1 : Participant)
    (t1 : list event) : Prop :=
  exists obs : list (Q * Q),
    t1 = iteration_events m c_id obs /\
    List.length obs = iterations m p /\
    f1_list m p1 = f1_list m p ++ [tensor_sum (map snd obs)] /\
    f1_list (other_mode m) p1 = f1_list (other_mode m) p /\
    iterations train p1 = iterations train p /\
    iterations test p1 = iterations test p.

(** Every population that starts in the trace [t] is there in full: its
    first print is followed by all the events of a population of the
    participants of [tr] ([populate_events]: for each participant
    [kv_factor * len(train_DataLoader)] forward passes on training batches,
    then [len(test_DataLoader)] on test batches). *)
Definition is_populate_mark (ev : event) : bool :=
  match ev with Print msg_generating_train => true | _ => false end.

Definition populations_complete (tr : Trainer) (t : list event) : Prop :=
  forall t1 t2,
    t = t1 ++ populate_mark :: t2 ->
    exists t3, populate_mark :: t2 = populate_events tr ++ t3.

(** From any state the run of [tr0] can reach (same configuration, same
    ids, same loaders), the populations of [m] are complete, and [m] leaves
    such a state. *)
Definition populates_in_full {A} (tr0 : Trainer) (m : M Trainer A) : Prop :=
  forall tr,
    on_trainer same_config same_loaders tr0 tr ->
    populations_complete tr0 (trace m tr) /\
    on_trainer same_config same_loaders tr0 (final_state m tr).

(** The trainer is configured as [__init__] leaves it (line 854):
    [self.kv_refresh_rate = self.args.kv_refresh_rate]. *)
Definition configured (a : Args) (tr : Trainer) : Prop :=
  args (self tr) = a /\ kv_refresh_rate (self tr) = args_kv_refresh_rate a.

(** From a configured trainer [m] leaves a configured trainer, and its
    schedule events are a prefix of [expected], all of it when [m]
    returns. *)
Definition follows {A} (a : Args) (m : M Trainer A) (expected : list event)
    (tr : Trainer) : Prop :=
  configured a (final_state m tr) /\
  exists rest,
    filter is_schedule_event (trace m tr) ++ rest = expected /\
    (is_ok (outcome m tr) = true -> rest = []).

Definition refresh_due (rate epoch : Z) : bool :=
  negb (rate =? 0)%Z && (epoch mod rate =? 0)%Z.

(** The training or the testing epoch, and the two stages of its metrics
    (lines 460-494 and 561-589). *)
Definition one_epoch (m : mode) (epoch : Z) : M Trainer unit :=
  match m with
  | train => train_one_epoch epoch
  | test => test_one_epoch epoch
  end.

Definition epoch_metrics (m : mode)
  : string -> list Q * list Q * Q -> Body (list Q * list Q * Q) :=
  match m with
  | train => train_epoch_metrics
  | test => test_epoch_metrics
  end.




(** What the metrics stage does to one participant: the last entry [s] of
    its list is divided by its number of iterations, and logged. *)
Definition metrics_post (m : mode) (c_id : string) (p p1 : Participant)
    (t1 : list event) : Prop :=
  exists l s bal_acc f1_macro avg_loss,
    let v := tensor_div s (iterations m p) in
    f1_list m p = l ++ [s] /\
    f1_list m p1 = l ++ [v] /\
    f1_list (other_mode m) p1 = f1_list (other_mode m) p /\
    t1 = epoch_metrics_events m c_id v bal_acc f1_macro avg_loss.

(** Why the evaluation of a participant in [inference] stops with [e]:
    it has no evaluation batch for [torch.cat], or the confusion matrix of
    its predictions and labels raises. *)
Definition inference_error (p : Participant) (e : exn) : Prop :=
  (main_test_DataLoader (client p) = [] /\ e = cat_empty_error) \/
  exists preds targets,
    inference_outputs p = Ok (preds, targets) /\
    confusion_matrix preds targets = Err e.

(** The evaluation of a participant in [inference] goes through: it has
    an evaluation batch, and the confusion matrix of its predictions and
    labels is made. *)
Definition plotted (p : Participant) : Prop :=
  exists preds targets,
    inference_outputs p = Ok (preds, targets) /\
    confusion_matrix preds targets = Ok tt.

(** [self.overall_f1] is the same. *)
Definition same_overall (g g' : Self) : Prop :=
  overall_f1_train g' = overall_f1_train g /\
  overall_f1_test g' = overall_f1_test g.

End Vocabulary.

(** ** Vocabulary of the further properties *)
Section FurtherVocabulary.
Context {T : Torch} {C : Collaborators}.

(** [fit] up to the end of its epoch loop (lines 770-820), for the
    attributes [g] it reads at its start, and its final report (lines
    822-825). *)
Definition fit_epochs (g : Self) : M Trainer unit :=
  when (pooling_mode g) (emit (Print msg_pooling_enabled)) ;;
  _create_save_dir ;;
  when (args_kv_refresh_rate (args g) =? 0)%Z
    (populate_key_value_store ;; clear_cache) ;;
  emit (Print msg_commence_training) ;;
  for_each (py_range (epochs (args g))) fit_epoch.

Definition fit_report : M Trainer unit :=
  tr <- get ;;
  mean_f1 <- lift_result
               (py_index (overall_f1_train (self tr)) (max_f1_epoch (self tr))) ;;
  emit (Print (msg_best_metrics mean_f1 (max_f1_f1 (self tr)))).

(** The configuration, the checkpoints on disk and the best score on
    record are the same. *)
Definition keeps_records (g g' : Self) : Prop :=
  same_config g g' /\ max_f1_f1 g' = max_f1_f1 g.

(** No checkpoint is on disk. *)
Definition no_checkpoint (g : Self) : Prop :=
  forall c_id s, saved_models g c_id s = None.

(** A run that starts with the arguments [a], no checkpoint on disk and
    at least one participant. *)
Definition unsaved (a : Args) (tr : Trainer) : Prop :=
  args (self tr) = a /\ no_checkpoint (self tr) /\ participants tr <> [].

(** The client side of a participant is the same. *)
Definition same_client (p p' : Participant) : Prop := client p' = client p.


(** A participant whose four models [load_best_models] has replaced. *)
Definition reloaded (g : Self) (c_id : string) (p p' : Participant) : Prop :=
  exists mf mcf mcb mb,
    loaded_model g c_id front = Some mf /\
    loaded_model g c_id center_front = Some mcf /\
    loaded_model g c_id center_back = Some mcb /\
    loaded_model g c_id back = Some mb /\
    p' = p <| client ::= (fun c => c <| front_model := mf |>) |>
           <| client ::= (fun c => c <| back_model := mb |>) |>
           <| sc_client ::= (fun sc => sc <| center_front_model := mcf |>) |>
           <| sc_client ::= (fun sc => sc <| center_back_model := mcb |>) |>.

(** A participant after [load_state_dict(w)] on its [center_back], on its
    [back] model. *)
Definition with_center_back (w : StateDict) (p : Participant) : Participant :=
  p <| sc_client ::=
         (fun sc => sc <| center_back_model :=
                            fst (load_state_dict w (center_back_model sc)) |>) |>.

Definition with_back (w : StateDict) (p : Participant) : Participant :=
  p <| client ::=
         (fun c => c <| back_model :=
                          fst (load_state_dict w (back_model c)) |>) |>.

(** An accuracy is a fraction. *)
Definition is_fraction (v : Q) : Prop := (0 <= v)%Q /\ (v <= 1)%Q.




End FurtherVocabulary.

(** ** A small concrete instance

    One scalar weight per model; the optimizer counts its steps; a step
    moves the weight of a model that is not frozen.  It is used to run the
    trainer on concrete inputs. *)
Module Toy.

Record toy_model : Type := {
    weight : Z;
    frozen : bool;
    training : bool
  }.

#[export] Instance toy_torch : Torch := {|
    StateDict := Z;
    Model := toy_model;
    Optimizer := nat;
    Tensor := Z;
    ClientAttrs := unit;
    ServerAttrs := unit;
    state_dict := weight;
    load_state_dict := fun sd m => (m <| weight := sd |>, Ok tt);
    freeze := fun _ _ m => m <| frozen := true |>;
    set_training := fun b m => m <| training := b |>;
    forward := fun m x => (x + weight m)%Z;
    argmax_rows := fun x => [(x mod 10)%Z];
    new_model := fun _ => {| weight := 0; frozen := false; training := true |};
    cat_empty_error := ValueError;
    tensor_add := Qplus;
    tensor_div := fun x n => (x / inject_Z (Z.of_nat n))%Q
  |}.

Definition toy_step (m : toy_model) : toy_model :=
    if frozen m then m else m <| weight ::= Z.succ |>.

Definition toy_client_call (m : client_method) (c : Client) : Client :=
    match m with
    | forward_front_key_value =>
        c <| iterator ::= S |>
          <| key := Z.of_nat (iterator c) |>
          <| remote_activations1 := forward (front_model c) (Z.of_nat (iterator c)) |>
    | forward_front_key_value_test =>
        c <| test_iterator ::= S |>
          <| test_key := Z.of_nat (test_iterator c) |>
          <| remote_activations1 := forward (front_model c) (Z.of_nat (test_iterator c)) |>
    | forward_back =>
        c <| remote_activations2 ::= forward (back_model c) |>
    | calculate_loss train => c <| train_loss ::= Qplus 1 |>
    | calculate_loss test => c <| test_loss ::= Qplus 1 |>
    | step_back =>
        c <| back_model ::= toy_step |> <| back_optimizer ::= S |>
    | _ => c
    end.

Definition toy_server_call (m : server_method) (sc : ConnectedClient)
    : ConnectedClient :=
    match m with
    | forward_center_front | forward_center_front_test =>
        sc <| sc_remote_activations1 ::= forward (center_front_model sc) |>
    | forward_center_back =>
        sc <| sc_remote_activations2 :=
                forward (center_back_model sc) (sc_remote_activations1 sc) |>
    | center_optimizer_step =>
        sc <| center_back_model ::= toy_step |> <| center_optimizer ::= S |>
    | _ => sc
    end.

(** The weighted average of §4.4 of the specification on scalar states:
    [EmptyInput] on no state or on weights that sum to zero,
    [ShapeMismatch] when the two lists differ in length. *)
Definition toy_merge_weights (params : list Z) (sample_lens : list Z)
    : result Z :=
    if negb (Nat.eqb (List.length params) (List.length sample_lens))
    then Err ShapeMismatch
    else
      let total := fold_left Z.add sample_lens 0%Z in
      if (total =? 0)%Z then Err EmptyInput
      else Ok (fold_left Z.add (map (fun pw => fst pw * snd pw)%Z
                                    (combine params sample_lens)) 0
               / total)%Z.

(** The confusion matrix over the 10 class names: an index above 10 fails
    an assertion of the library, a label or prediction that is not one of
    0..9 is missing from its table of classes. *)
Definition toy_confusion_matrix (preds y_true : list Z) : result unit :=
    if negb (Nat.eqb (List.length preds) (List.length y_true))
    then Err AssertionError
    else if existsb (fun v => (10 <? v)%Z) (preds ++ y_true)
    then Err AssertionError
    else if forallb (fun v => (0 <=? v)%Z && (v <? 10)%Z) (preds ++ y_true)
    then Ok tt
    else Err KeyError.

#[export] Instance toy_collaborators : Collaborators := {|
    client_call := toy_client_call;
    server_call := toy_server_call;
    loss_item := fun c => train_loss c;
    metric_result := fun m c =>
      match m with
      | train => (inject_Z (Z.of_nat (iterator c)) / 4)%Q
      | test => (inject_Z (Z.of_nat (test_iterator c)) / 2)%Q
      end;
    main_metric_result := fun _ _ => ((1 # 2)%Q, (1 # 4)%Q);
    merge_weights := toy_merge_weights;
    loss_add := Qplus;
    loss_div := fun x n => (x / inject_Z (Z.of_nat n))%Q;
    confusion_matrix := toy_confusion_matrix
  |}.

Definition mk_model (w : Z) : toy_model :=
    {| weight := w; frozen := false; training := true |}.

(** A participant with [n] training samples in [b] batches, [tb] test
    batches, the evaluation batches [ev] and the four weights. *)
Definition mk_participant (n b tb : nat) (ev : list (Z * list Z))
      (wf wcf wcb wb : Z) : Participant :=
    {| client := {|
         train_dataset := n; train_DataLoader := b; test_DataLoader := tb;
         main_test_DataLoader := ev;
         front_model := mk_model wf; back_model := mk_model wb;
         back_optimizer := O;
         kv_flag := 0; kv_test_flag := 0;
         num_iterations := O; num_test_iterations := O;
         iterator := O; test_iterator := O;
         remote_activations1 := 0%Z; remote_activations2 := 0%Z;
         key := 0%Z; test_key := 0%Z;
         train_f1 := []; test_f1 := [];
         train_loss := 0%Q; test_loss := 0%Q;
         pred := []; y := [];
         client_attrs := tt |};
       sc_client := {|
         center_front_model := mk_model wcf;
         center_back_model := mk_model wcb;
         center_optimizer := O;
         sc_kv_flag := 0; sc_kv_test_flag := 0;
         sc_remote_activations1 := 0%Z; sc_remote_activations2 := 0%Z;
         batchkeys := 0%Z; test_batchkeys := 0%Z;
         server_attrs := tt |} |}.

Definition mk_args (n_epochs rate factor : Z) (pers : bool) (p : Z) : Args :=
    {| epochs := n_epochs; args_kv_refresh_rate := rate; kv_factor := factor;
       args_personalize := pers; p_epoch := p; pretrained := false;
       dataset := "cifar10"; split := "1" |}.

(** The trainer as [__init__] leaves it. *)
Definition mk_trainer (a : Args) (saved : string -> segment -> option Z)
      (ps : list (string * Participant)) : Trainer :=
    {| self := {|
         args := a; pooling_mode := false;
         kv_refresh_rate := args_kv_refresh_rate a;
         overall_f1_train := []; overall_f1_test := [];
         max_f1_f1 := 0%Q; max_f1_epoch := (-1)%Z;
         personalization_mode := false;
         num_clients := List.length ps;
         save_dir := None;
         mkdir_ok := true;
         saved_models := saved |};
       participants := ps |}.

Definition two_participants : list (string * Participant) :=
    [("abcd", mk_participant 10 2 1 [(0%Z, [3%Z])] 1 2 3 4);
     ("wxyz", mk_participant 30 3 2 [(1%Z, [7%Z])] 5 6 7 8)].



Definition no_files : string -> segment -> option Z := fun _ _ => None.

(** Two epochs, a refresh at every epoch, [kv_factor] 2, personalization
    at epoch 1; and one epoch with [kv_factor] 0, which makes every
    [center_back] weight zero. *)
Definition run_args : Args := mk_args 2 1 2 true 1.
Definition zero_factor_args : Args := mk_args 1 0 0 false 0.

Definition all_files : string -> segment -> option Z :=
    fun _ s => Some (match s with
                     | front => 11 | center_front => 12
                     | center_back => 13 | back => 14
                     end)%Z.

(** A run with [run_args] and checkpoints on disk, at its start, and the
    run with [zero_factor_args]. *)
Definition started : Trainer := mk_trainer run_args all_files two_participants.
Definition zero_factor : Trainer :=
  mk_trainer zero_factor_args no_files two_participants.

(** The run after its first population of the key-value store (which
    sets the numbers of iterations: 2 and 3), and after it has then
    entered personalization. *)
Definition populated : Trainer :=
  Eval vm_compute in final_state populate_key_value_store started.

Definition personalizing : Trainer :=
  Eval vm_compute in final_state (enter_personalization 1) populated.

(** The same run when the save directory cannot be made, with no epoch
    to run, and with no checkpoint on disk. *)
Definition no_save_dir : Trainer :=
  started <| self ::= (fun g => g <| mkdir_ok := false |>) |>.
Definition no_epochs : Trainer :=
  mk_trainer (mk_args 0 1 2 false 0) all_files two_participants.
Definition unsaved_run : Trainer :=
  mk_trainer run_args no_files two_participants.


(** A run in which the second participant has no test batch. *)
Definition idle_tester : Trainer :=
  mk_trainer run_args all_files
    [("abcd", mk_participant 10 2 1 [(0%Z, [3%Z])] 1 2 3 4);
     ("wxyz", mk_participant 30 3 0 [(1%Z, [7%Z])] 5 6 7 8)].

End Toy.

(** ** An instance with models of different shapes

    A model is a shape and a weight; a state dict loads into a model of its
    own shape only, as a strict [load_state_dict] does.  The fused state
    takes the shape of the first state of the pool. *)
Module Shapes.

#[export] Instance shape_torch : Torch := {|
    StateDict := nat * Z;
    Model := nat * Z;
    Optimizer := unit;
    Tensor := unit;
    ClientAttrs := unit;
    ServerAttrs := unit;
    state_dict := fun m => m;
    load_state_dict := fun sd m =>
      if Nat.eqb (fst sd) (fst m) then (sd, Ok tt) else (m, Err RuntimeError);
    freeze := fun _ _ m => m;
    set_training := fun _ m => m;
    forward := fun _ x => x;
    argmax_rows := fun _ => [0%Z];
    new_model := fun _ => (1, 0%Z);
    cat_empty_error := ValueError;
    tensor_add := Qplus;
    tensor_div := fun x n => (x / inject_Z (Z.of_nat n))%Q
  |}.

#[export] Instance shape_collaborators : Collaborators := {|
    client_call := fun _ c => c;
    server_call := fun _ sc => sc;
    loss_item := fun _ => 0%Q;
    metric_result := fun _ _ => 0%Q;
    main_metric_result := fun _ _ => (0%Q, 0%Q);
    merge_weights := fun params _ =>
      match params with
      | [] => Err EmptyInput
      | sd :: _ => Ok (fst sd, 100%Z)
      end;
    loss_add := Qplus;
    loss_div := fun x n => (x / inject_Z (Z.of_nat n))%Q;
    confusion_matrix := fun _ _ => Ok tt
  |}.

(** A participant whose [center_back] has the given shape and weight. *)
Definition mk_participant (shape : nat) (w : Z) : Participant :=
    {| client := {|
         train_dataset := 10; train_DataLoader := 1; test_DataLoader := 1;
         main_test_DataLoader := [];
         front_model := (1, 0%Z); back_model := (1, 0%Z);
         back_optimizer := tt;
         kv_flag := 0; kv_test_flag := 0;
         num_iterations := O; num_test_iterations := O;
         iterator := O; test_iterator := O;
         remote_activations1 := tt; remote_activations2 := tt;
         key := tt; test_key := tt;
         train_f1 := []; test_f1 := [];
         train_loss := 0%Q; test_loss := 0%Q;
         pred := []; y := [];
         client_attrs := tt |};
       sc_client := {|
         center_front_model := (1, 0%Z);
         center_back_model := (shape, w);
         center_optimizer := tt;
         sc_kv_flag := 0; sc_kv_test_flag := 0;
         sc_remote_activations1 := tt; sc_remote_activations2 := tt;
         batchkeys := tt; test_batchkeys := tt;
         server_attrs := tt |} |}.

(** Two participants whose [center_back] models differ in shape. *)
Definition mismatched : Trainer :=
    {| self := {|
         args := {| epochs := 1; args_kv_refresh_rate := 0; kv_factor := 1;
                    args_personalize := false; p_epoch := 0;
                    pretrained := false;
                    dataset := "cifar10"; split := "1" |};
         pooling_mode := false;
         kv_refresh_rate := 0;
         overall_f1_train := []; overall_f1_test := [];
         max_f1_f1 := 0%Q; max_f1_epoch := (-1)%Z;
         personalization_mode := false;
         num_clients := 2;
         save_dir := None;
         mkdir_ok := true;
         saved_models := fun _ _ => None |};
       participants := [("abcd", mk_participant 1 3); ("wxyz", mk_participant 2 7)] |}.

End Shapes.

(* ===================================================================== *)
(** * Part 3: properties                                                 *)
(* ===================================================================== *)

(** ** Participant ids *)
Module RandomClientsFacts.
Import RandomClients.

Lemma In_remove_at {A} (x : A) i l : In x (remove_at i l) -> In x l.
Proof.
    revert i; induction l as [|a l IH]; intros [|i]; simpl; auto.
    intros [->|H]; eauto.
Qed.

Lemma NoDup_remove_at {A} i (l : list A) : NoDup l -> NoDup (remove_at i l).
Proof.
    intros H; revert i; induction H as [|a l Hin Hnd IH]; intros [|i]; simpl;
      try constructor; auto.
    intros Hc; apply Hin; eapply In_remove_at; eauto.
Qed.

Lemma picked_not_left {A} i (l : list A) c :
    NoDup l -> nth_error l i = Some c -> ~ In c (remove_at i l).
Proof.
    intros H; revert i; induction H as [|a l Hin Hnd IH]; intros [|i]; simpl;
      try discriminate.
    - intros [= ->]; assumption.
    - intros Hn [->|Hc].
      + apply Hin; eapply nth_error_In; eauto.
      + eapply IH; eauto.
Qed.

Lemma length_remove_at {A} i (l : list A) :
    i < List.length l -> List.length (remove_at i l) = Nat.pred (List.length l).
Proof.
    revert i; induction l as [|a l IH]; intros [|i]; simpl; try lia.
    intros H; rewrite IH by lia; destruct l; simpl in *; lia.
Qed.

Lemma randbelow_lt n g : 0 < n -> fst (randbelow n g) < n.
Proof.
    intros Hn; destruct g as [|x g]; simpl; [assumption|].
    apply Nat.mod_upper_bound; lia.
Qed.

(** A sample is drawn without replacement from the population. *)
Lemma random_sample_spec pop k g :
    NoDup pop -> k <= List.length pop ->
    let cs := fst (random_sample pop k g) in
    List.length cs = k /\ NoDup cs /\ (forall c, In c cs -> In c pop).
Proof.
    revert pop g; induction k as [|k IH]; intros pop g Hnd Hk; simpl.
    - repeat split; [constructor | contradiction].
    - pose proof (randbelow_lt (List.length pop) g ltac:(lia)) as Hlt.
      destruct (randbelow (List.length pop) g) as [i g1]; simpl in Hlt.
      destruct (nth_error pop i) as [c|] eqn:Hc.
      2:{ apply nth_error_None in Hc; lia. }
      specialize (IH (remove_at i pop) g1 (NoDup_remove_at i pop Hnd)).
      rewrite length_remove_at in IH by assumption.
      specialize (IH ltac:(lia)).
      destruct (random_sample (remove_at i pop) k g1) as [rest g2]; simpl in *.
      destruct IH as (Hlen & Hnd' & Hin).
      repeat split.
      + now rewrite Hlen.
      + constructor; [|assumption].
        intros Hc'; eapply picked_not_left; eauto.
      + intros c' [<-|Hc']; [eapply nth_error_In; eauto|].
        eapply In_remove_at; eauto.
Qed.

Lemma population_NoDup : NoDup population.
Proof.
    unfold population; simpl.
    repeat (constructor; [simpl; intuition discriminate|]).
    constructor.
Qed.

Lemma generate_random_client_ids_spec n g :
    let ids := fst (generate_random_client_ids n 4 g) in
    List.length ids = n /\
    forall id, In id ids ->
      String.length id = 4 /\ NoDup (list_ascii_of_string id) /\
      forall c, In c (list_ascii_of_string id) -> In c population.
Proof.
    revert g; induction n as [|n IH]; intros g.
    - split; [reflexivity | contradiction].
    - pose proof (random_sample_spec population 4 g population_NoDup) as Hs.
      specialize (Hs ltac:(unfold population; simpl; lia)).
      cbn [generate_random_client_ids].
      destruct (random_sample population 4 g) as [cs g1]; cbn [fst] in Hs.
      specialize (IH g1).
      destruct (generate_random_client_ids n 4 g1) as [ids g2]; cbn [fst] in *.
      destruct IH as [Hlen Hall]; destruct Hs as (Hl & Hnd & Hin).
      split; [cbn [List.length]; congruence|].
      intros id [<-|Hid]; [|now apply Hall].
      rewrite list_ascii_of_string_of_list_ascii.
      repeat split; try assumption.
      rewrite <- Hl; clear; induction cs; simpl; congruence.
Qed.

Lemma dict_keys_set {V} k (v : V) d :
    dict_keys (dict_set k v d) = add_key (dict_keys d) k.
Proof.
    unfold add_key, dict_keys; induction d as [|[k' v'] d IH]; simpl; auto.
    destruct (String.eqb k k') eqn:E; simpl.
    - apply String.eqb_eq in E; now subst.
    - rewrite IH; destruct (existsb (String.eqb k) (map fst d)); reflexivity.
Qed.

Lemma dict_keys_fold {V} (Client : string -> V) l d :
    dict_keys (fold_left (fun clients id => dict_set id (Client id) clients) l d)
    = fold_left add_key l (dict_keys d).
Proof.
    revert d; induction l as [|k l IH]; intros d; simpl; auto.
    now rewrite IH, dict_keys_set.
Qed.

Lemma existsb_eqb_In k ks : existsb (String.eqb k) ks = true <-> In k ks.
Proof.
    rewrite existsb_exists; split.
    - intros (x & Hx & E); apply String.eqb_eq in E; now subst.
    - intros H; exists k; split; [assumption | apply String.eqb_refl].
Qed.

Lemma add_keys_spec l acc :
    NoDup acc ->
    let ks := fold_left add_key l acc in
    NoDup ks /\ (forall k, In k ks <-> In k acc \/ In k l) /\
    List.length ks <= List.length acc + List.length l /\
    (List.length ks = List.length acc + List.length l <-> NoDup (acc ++ l)).
Proof.
    revert acc; induction l as [|k l IH]; intros acc Hnd; cbv zeta.
    - simpl; rewrite app_nil_r; repeat split; auto; try lia; tauto.
    - change (fold_left add_key (k :: l) acc)
        with (fold_left add_key l (add_key acc k)).
      cbn [List.length In].
      assert (Ha : add_key acc k
                   = if existsb (String.eqb k) acc then acc else acc ++ [k])
        by reflexivity.
      destruct (existsb (String.eqb k) acc) eqn:E; rewrite Ha; clear Ha.
      + apply existsb_eqb_In in E.
        destruct (IH acc Hnd) as (H1 & H2 & H3 & H4).
        repeat split; auto; try lia.
        * intros H; apply H2 in H; tauto.
        * intros [H|[<-|H]]; apply H2; tauto.
        * intros H; exfalso.
          apply NoDup_remove_2 in H; apply H, in_or_app; now left.
      + assert (Hk : ~ In k acc).
        { intros H; apply existsb_eqb_In in H; congruence. }
        assert (Hnd' : NoDup (acc ++ [k])).
        { apply NoDup_app; repeat split; auto.
          - repeat constructor; simpl; tauto.
          - intros x Hx [<-|[]]; auto. }
        destruct (IH _ Hnd') as (H1 & H2 & H3 & H4).
        rewrite length_app in *; simpl in *.
        rewrite <- app_assoc in H4; simpl in H4.
        repeat split; auto; try lia.
        * intros H; apply H2 in H; rewrite in_app_iff in H; simpl in H; tauto.
        * intros H; apply H2; rewrite in_app_iff; simpl; tauto.
        * intros H; apply H4; lia.
        * intros H; apply H4 in H; lia.
Qed.

(** C8, as the code has it: every id is four distinct characters of the
    population, but two participants may draw the same id; the mapping
    holds the distinct ids only, so it has the requested number of
    entries exactly when the drawn ids are pairwise distinct. *)
Theorem generate_random_clients_keys :
    forall (V : Type) (Client : string -> V) (num_clients : nat) (g : rng),
      let client_ids := fst (generate_random_client_ids num_clients 4 g) in
      let clients := fst (generate_random_clients num_clients Client g) in
      List.length client_ids = num_clients /\
      (forall id, In id client_ids ->
         String.length id = 4 /\ NoDup (list_ascii_of_string id) /\
         forall c, In c (list_ascii_of_string id) -> In c population) /\
      NoDup (dict_keys clients) /\
      (forall id, In id (dict_keys clients) <-> In id client_ids) /\
      List.length clients <= num_clients /\
      (List.length clients = num_clients <-> NoDup client_ids).
Proof.
    intros V Client n g; unfold generate_random_clients.
    pose proof (generate_random_client_ids_spec n g) as Hids.
    destruct (generate_random_client_ids n 4 g) as [l g']; cbn [fst] in *.
    destruct Hids as [Hlen Hall].
    pose proof (dict_keys_fold Client l []) as Hk.
    change (dict_keys (@nil (string * V))) with (@nil string) in Hk.
    destruct (add_keys_spec l [] (NoDup_nil string)) as (H1 & H2 & H3 & H4).
    cbn [List.length app Nat.add In] in H2, H3, H4; rewrite <- Hk in *.
    set (d := fold_left _ l []) in *.
    assert (Hl : List.length d = List.length (dict_keys d)).
    { unfold dict_keys; now rewrite length_map. }
    rewrite <- Hl in *.
    repeat split; auto; try lia.
    all: try (intros H; apply H2 in H; tauto).
    all: try (intros H; apply H2; tauto).
    all: try (intros H; apply H4; lia).
    all: try (intros H; apply H4 in H; lia).
    all: try (intros c Hc; eapply Hall; eauto).
    all: try (eapply Hall; eauto).
Qed.

(** C8, as stated, fails: the generator that answers the same draws twice
    gives two participants the id "abcd", and the mapping holds one entry
    for two requested participants. *)
Lemma generate_random_clients_collision :
    ~ (NoDup (fst (generate_random_client_ids 2 4 [])) /\
       List.length (fst (generate_random_clients 2 (fun id => id) [])) = 2).
Proof.
    vm_compute; intros [_ H]; discriminate H.
Qed.

End RandomClientsFacts.

(** ** Running the monad *)
Section MonadFacts.
Context {T : Torch}.

Lemma run_eta {S A} (m : M S A) s :
    m s = (final_state m s, trace m s, outcome m s).
Proof. unfold final_state, trace, outcome; now destruct (m s) as [[? ?] ?]. Qed.

Lemma bind_ok {S A B} (m : M S A) (k : A -> M S B) s s1 t1 a :
    m s = (s1, t1, Ok a) ->
    bind m k s = (final_state (k a) s1, t1 ++ trace (k a) s1, outcome (k a) s1).
Proof.
    intros H; unfold bind; rewrite H, (run_eta (k a) s1); reflexivity.
Qed.

Lemma bind_err {S A B} (m : M S A) (k : A -> M S B) s s1 t1 e :
    m s = (s1, t1, Err e) -> bind m k s = (s1, t1, Err e).
Proof. intros H; unfold bind; now rewrite H. Qed.

(** *** [sound]: closure under the constructs of the monad *)
Section Sound.
Context {S : Type} (P : event -> bool) (R : S -> S -> Prop).
Context {HR : PreOrder R}.

Lemma sound_ret {A} (a : A) : sound P R (ret a).
Proof. intros s; split; [reflexivity | apply HR]. Qed.

Lemma sound_get : sound P R get.
Proof. intros s; split; [reflexivity | apply HR]. Qed.

Lemma sound_gets {A} (f : S -> A) : sound P R (gets f).
Proof. intros s; split; [reflexivity | apply HR]. Qed.

Lemma sound_raise {A} e : sound P R (@raise _ S A e).
Proof. intros s; split; [reflexivity | apply HR]. Qed.

Lemma sound_lift_result {A} (r : result A) : sound P R (lift_result r).
Proof. intros s; split; [reflexivity | apply HR]. Qed.

Lemma sound_emit e : P e = false -> sound P R (emit e).
Proof.
      intros H s; split; [|apply HR].
      unfold trace, emit; simpl; now rewrite H.
Qed.

Lemma sound_modify f : (forall s, R s (f s)) -> sound P R (modify f).
Proof. intros H s; split; [reflexivity | apply H]. Qed.

Lemma sound_bind {A B} (m : M S A) (k : A -> M S B) :
      sound P R m -> (forall a, sound P R (k a)) -> sound P R (bind m k).
Proof.
      intros Hm Hk s; destruct (Hm s) as [Ht Hs].
      unfold trace, final_state in *; unfold bind.
      destruct (m s) as [[s1 t1] [a|e]]; simpl in *; [|now split].
      destruct (Hk a s1) as [Ht' Hs'].
      unfold trace, final_state in *.
      destruct (k a s1) as [[s2 t2] r]; simpl in *.
      split; [rewrite filter_app, Ht, Ht'; reflexivity|].
      etransitivity; eauto.
Qed.

Lemma sound_try_except {A} (m : M S A) h :
      sound P R m -> (forall e, sound P R (h e)) -> sound P R (try_except m h).
Proof.
      intros Hm Hh s; destruct (Hm s) as [Ht Hs].
      unfold trace, final_state in *; unfold try_except.
      destruct (m s) as [[s1 t1] [a|e]]; simpl in *; [now split|].
      destruct (Hh e s1) as [Ht' Hs'].
      unfold trace, final_state in *.
      destruct (h e s1) as [[s2 t2] r]; simpl in *.
      split; [rewrite filter_app, Ht, Ht'; reflexivity|].
      etransitivity; eauto.
Qed.

Lemma sound_when b (m : M S unit) : sound P R m -> sound P R (when b m).
Proof. destruct b; simpl; auto using sound_ret. Qed.

Lemma sound_for_each {X} (xs : list X) (body : X -> M S unit) :
      (forall x, sound P R (body x)) -> sound P R (for_each xs body).
Proof.
      intros H; induction xs as [|x xs IH]; simpl.
      - apply sound_ret.
      - apply sound_bind; auto.
Qed.

Lemma sound_for_range n (body : nat -> M S unit) :
      (forall x, sound P R (body x)) -> sound P R (for_range n body).
Proof. apply sound_for_each. Qed.

End Sound.

(** *** Relations on a loop body and on the trainer *)
Section Relations.
Context (Rg : Self -> Self -> Prop) (Rp : Participant -> Participant -> Prop).
Context {HRg : PreOrder Rg} {HRp : PreOrder Rp}.

#[export] Instance on_pair_preorder : PreOrder (on_pair Rg Rp).
Proof.
      split.
      - intros [g p]; split; simpl; reflexivity.
      - intros a b c [H1 H2] [H3 H4]; split; etransitivity; eauto.
Qed.

Lemma participants_refl ps :
      Forall2 (fun x y : string * Participant =>
                 fst x = fst y /\ Rp (snd x) (snd y)) ps ps.
Proof. induction ps; constructor; auto; split; reflexivity. Qed.

#[export] Instance on_trainer_preorder : PreOrder (on_trainer Rg Rp).
Proof.
      split.
      - intros [g ps]; split; simpl; [reflexivity | apply participants_refl].
      - intros a b c [H1 H2] [H3 H4]; split; [etransitivity; eauto|].
        revert H4; generalize (participants c).
        induction H2 as [|x y l l' [Hk Hxy] _ IH]; intros l2 H4;
          inversion H4 as [|? z ? l2' [Hk' Hyz] H4']; subst; constructor.
        + split; [congruence | etransitivity; eauto].
        + auto.
Qed.

Lemma sound_fold_participants {L} P
        (body : string -> L -> M (Self * Participant) L) :
      (forall c_id l, sound P (on_pair Rg Rp) (body c_id l)) ->
      forall ps l g,
        let '((g', ps'), t, _) := fold_participants body ps l g in
        filter P t = [] /\ Rg g g' /\
        Forall2 (fun x y => fst x = fst y /\ Rp (snd x) (snd y)) ps ps'.
Proof.
      intros Hb; induction ps as [|[c_id p] ps IH]; intros l g; simpl.
      - repeat split; [reflexivity | constructor].
      - destruct (Hb c_id l (g, p)) as [Ht [Hg Hp]].
        unfold trace, final_state in *.
        destruct (body c_id l (g, p)) as [[[g1 p1] t1] [l1|e]]; simpl in *.
        + specialize (IH l1 g1).
          destruct (fold_participants body ps l1 g1) as [[[g2 ps2] t2] r].
          destruct IH as (Ht2 & Hg2 & Hps).
          repeat split.
          * now rewrite filter_app, Ht, Ht2.
          * etransitivity; eauto.
          * constructor; auto.
        + repeat split; auto.
          constructor; auto using participants_refl.
Qed.

Lemma sound_fold_clients {L} P
        (body : string -> L -> M (Self * Participant) L) l :
      (forall c_id l, sound P (on_pair Rg Rp) (body c_id l)) ->
      sound P (on_trainer Rg Rp) (fold_clients body l).
Proof.
      intros Hb tr; unfold trace, final_state, fold_clients.
      pose proof (sound_fold_participants P body Hb (participants tr) l (self tr)) as H.
      destruct (fold_participants body (participants tr) l (self tr))
        as [[[g ps] t] r]; simpl.
      destruct H as (Ht & Hg & Hps); repeat split; auto.
Qed.

Lemma sound_for_clients P (body : string -> M (Self * Participant) unit) :
      (forall c_id, sound P (on_pair Rg Rp) (body c_id)) ->
      sound P (on_trainer Rg Rp) (for_clients body).
Proof. intros H; apply sound_fold_clients; auto. Qed.

Context {C : Collaborators}.

Lemma sound_on_self P f :
      (forall g, Rg g (f g)) -> sound P (on_pair Rg Rp) (on_self f).
Proof.
      intros H; apply sound_modify; intros [g p]; split; simpl;
        [apply H | reflexivity].
Qed.

Lemma sound_on_client P f :
      (forall p, Rp p (p <| client ::= f |>)) ->
      sound P (on_pair Rg Rp) (on_client f).
Proof.
      intros H; apply sound_modify; intros [g p]; split; simpl;
        [reflexivity | apply H].
Qed.

Lemma sound_on_server P f :
      (forall p, Rp p (p <| sc_client ::= f |>)) ->
      sound P (on_pair Rg Rp) (on_server f).
Proof.
      intros H; apply sound_modify; intros [g p]; split; simpl;
        [reflexivity | apply H].
Qed.

Lemma sound_call_client P c_id m :
      P (ClientCall c_id m) = false ->
      (forall p, Rp p (p <| client ::= client_call m |>)) ->
      sound P (on_pair Rg Rp) (call_client c_id m).
Proof.
      intros HP H; apply sound_bind; [typeclasses eauto | |intros _].
      - now apply sound_emit; [typeclasses eauto|].
      - now apply sound_on_client.
Qed.

Lemma sound_call_server P c_id m :
      P (ServerCall c_id m) = false ->
      (forall p, Rp p (p <| sc_client ::= server_call m |>)) ->
      sound P (on_pair Rg Rp) (call_server c_id m).
Proof.
      intros HP H; apply sound_bind; [typeclasses eauto | |intros _].
      - now apply sound_emit; [typeclasses eauto|].
      - now apply sound_on_server.
Qed.

Lemma sound_self_do P f :
      (forall g, Rg g (f g)) -> sound P (on_trainer Rg Rp) (self_do f).
Proof.
      intros H; apply sound_modify; intros [g ps]; split; simpl;
        [apply H | apply participants_refl].
Qed.

End Relations.
End MonadFacts.

#[export] Instance any_change_preorder {S} : PreOrder (@any_change S).
Proof. split; repeat intro; exact I. Qed.

#[export] Instance same_config_preorder {T : Torch} : PreOrder same_config.
Proof.
  split.
  - intros g; repeat split.
  - intros a b c H1 H2; unfold same_config in *.
    decompose [and] H1; decompose [and] H2; repeat split; congruence.
Qed.

(** One step of a proof of [sound]: [side] settles what a step leaves
    about the relation. *)
Ltac sound_step side :=
  lazymatch goal with
  | |- sound _ _ (bind _ _) => apply sound_bind; [typeclasses eauto | | intros ?]
  | |- sound _ _ (ret _) => apply sound_ret; typeclasses eauto
  | |- sound _ _ get => apply sound_get; typeclasses eauto
  | |- sound _ _ (gets _) => apply sound_gets; typeclasses eauto
  | |- sound _ _ the_self => apply sound_gets; typeclasses eauto
  | |- sound _ _ the_client => apply sound_gets; typeclasses eauto
  | |- sound _ _ the_server => apply sound_gets; typeclasses eauto
  | |- sound _ _ (raise _) => apply sound_raise; typeclasses eauto
  | |- sound _ _ (lift_result _) => apply sound_lift_result; typeclasses eauto
  | |- sound _ _ (emit _) => apply sound_emit; [typeclasses eauto | reflexivity]
  | |- sound _ _ (try_except _ _) =>
      apply sound_try_except; [typeclasses eauto | | intros ?]
  | |- sound _ _ (when _ _) => apply sound_when; [typeclasses eauto |]
  | |- sound _ _ (for_range _ _) => apply sound_for_range; [typeclasses eauto | intros ?]
  | |- sound _ _ (for_each _ _) => apply sound_for_each; [typeclasses eauto | intros ?]
  | |- sound _ _ (for_clients _) => apply sound_for_clients; [typeclasses eauto .. | intros ?]
  | |- sound _ _ (fold_clients _ _) =>
      apply sound_fold_clients; [typeclasses eauto .. | intros ? ?]
  | |- sound _ _ (on_self _) => apply sound_on_self; [typeclasses eauto .. | side]
  | |- sound _ _ (on_client _) => apply sound_on_client; [typeclasses eauto .. | side]
  | |- sound _ _ (on_server _) => apply sound_on_server; [typeclasses eauto .. | side]
  | |- sound _ _ (call_client _ _) =>
      apply sound_call_client; [typeclasses eauto .. | reflexivity | side]
  | |- sound _ _ (call_server _ _) =>
      apply sound_call_server; [typeclasses eauto .. | reflexivity | side]
  | |- sound _ _ (self_do _) => apply sound_self_do; [typeclasses eauto .. | side]
  | |- sound _ _ (match ?x with _ => _ end) => destruct x
  end.

Ltac sound_by side := repeat sound_step side.

(** ** Loops that run to their end *)

(** Symbolic execution of straight-line code. *)
Ltac mrun :=
  lazy beta iota zeta delta
    [bind ret get gets modify emit raise lift_result try_except when
     call_client call_server on_client on_server on_self self_do
     the_self the_client the_server fst snd final_state trace outcome];
  cbn [app].

(** A getter applied to an update of another field, or of its own. *)
Ltac proj_step :=
  match goal with
  | |- context [?g (@apply_update ?R ?E (@mk_update _ _ ?g' ?st ?f) ?r)] =>
      first
        [ change (g (@apply_update R E (@mk_update _ _ g' st f) r)) with (g r)
        | change (g (@apply_update R E (@mk_update _ _ g' st f) r)) with (f (g r));
          cbv beta ]
  end.

Section Loops.
Context {T : Torch}.

Lemma bind_run {S A B} (m : M S A) (k : A -> M S B) s s1 t1 a s2 t2 r :
  m s = (s1, t1, Ok a) -> k a s1 = (s2, t2, r) ->
  bind m k s = (s2, t1 ++ t2, r).
Proof. intros H1 H2; unfold bind; now rewrite H1, H2. Qed.

Lemma trainer_eta (tr : Trainer) :
  {| self := self tr; participants := participants tr |} = tr.
Proof. now destruct tr. Qed.

Lemma for_range_invariant {S} (I : nat -> S -> list event -> Prop)
    (body : nat -> M S unit) (N : nat) (s0 : S) :
  I 0 s0 [] ->
  (forall n it s t, n < N -> I n s t ->
     exists s' t', body it s = (s', t', Ok tt) /\ I (Datatypes.S n) s' (t ++ t')) ->
  exists s' t, for_range N body s0 = (s', t, Ok tt) /\ I N s' t.
Proof.
  unfold for_range; intros H0 Hstep.
  assert (G : forall xs k s t0,
             k + List.length xs = N -> I k s t0 ->
             exists s' t, for_each xs body s = (s', t, Ok tt) /\ I N s' (t0 ++ t)).
  { induction xs as [|x xs IH]; intros k s t0 Hk Hi; simpl in *.
    - exists s, []; rewrite app_nil_r; split; [reflexivity|].
      now replace N with k by lia.
    - destruct (Hstep k x s t0 ltac:(lia) Hi) as (s1 & t1 & Hb & Hi1).
      destruct (IH (Datatypes.S k) s1 (t0 ++ t1) ltac:(lia) Hi1)
        as (s2 & t2 & Hl & Hi2).
      exists s2, (t1 ++ t2); split.
      + eapply bind_run; eauto.
      + now rewrite app_assoc. }
  destruct (G (seq 0 N) 0 s0 [] ltac:(now rewrite length_seq) H0)
    as (s' & t & H1 & H2).
  now exists s', t.
Qed.

(** A loop over the participants whose body returns for every participant
    and leaves the trainer's attributes and the local variable alone; the
    participants may come out of an earlier pass [F]. *)
Lemma fold_participants_runs {L} Post (F : string -> Participant -> Participant)
    (body : string -> L -> M (Self * Participant) L) ps l g :
  (forall c_id p, In (c_id, p) ps ->
     exists p1 t1, body c_id l (g, F c_id p) = ((g, p1), t1, Ok l)
                   /\ Post c_id p p1 t1) ->
  exists ps1 t,
    fold_participants body (map (fun x => (fst x, F (fst x) (snd x))) ps) l g
    = ((g, ps1), t, Ok l)
    /\ runs Post ps ps1 t.
Proof.
  induction ps as [|[c_id p] ps IH]; intros H; simpl.
  - exists [], []; split; [reflexivity | constructor].
  - destruct (H c_id p (or_introl eq_refl)) as (p1 & t1 & Hb & Hp).
    destruct IH as (ps1 & t & Hf & Hr); [intros; apply H; now right|].
    rewrite Hb, Hf.
    exists ((c_id, p1) :: ps1), (t1 ++ t); split; [reflexivity|].
    now constructor.
Qed.

Lemma map_participants_id (ps : list (string * Participant)) :
  map (fun x => (fst x, snd x)) ps = ps.
Proof. induction ps as [|[c p] ps IH]; simpl; congruence. Qed.

Lemma for_clients_runs Post (body : string -> M (Self * Participant) unit) tr :
  (forall c_id p, In (c_id, p) (participants tr) ->
     exists p1 t1, body c_id (self tr, p) = ((self tr, p1), t1, Ok tt)
                   /\ Post c_id p p1 t1) ->
  exists ps1 t,
    for_clients body tr = ({| self := self tr; participants := ps1 |}, t, Ok tt)
    /\ runs Post (participants tr) ps1 t.
Proof.
  intros H; unfold for_clients, fold_clients.
  destruct (fold_participants_runs Post (fun _ p => p)
              (fun c_id (_ : unit) => body c_id)
              (participants tr) tt (self tr) H) as (ps1 & t & Hf & Hr).
  rewrite map_participants_id in Hf.
  rewrite Hf; now exists ps1, t.
Qed.

(** A loop whose body is a function of the participant. *)
Lemma for_clients_pure (F : string -> Participant -> Participant)
    (body : string -> M (Self * Participant) unit) tr :
  (forall c_id g p, body c_id (g, p) = ((g, F c_id p), [], Ok tt)) ->
  for_clients body tr
  = ({| self := self tr;
        participants := map (fun x => (fst x, F (fst x) (snd x))) (participants tr) |},
     [], Ok tt).
Proof.
  intros H; unfold for_clients, fold_clients.
  assert (G : forall ps g,
             fold_participants (fun c_id (_ : unit) => body c_id) ps tt g
             = ((g, map (fun x => (fst x, F (fst x) (snd x))) ps), [], Ok tt)).
  { induction ps as [|[c p] ps IH]; intros g; simpl; [reflexivity|].
    now rewrite H, IH. }
  now rewrite G.
Qed.


Lemma runs_weaken (Post Post' : string -> Participant -> Participant -> list event -> Prop)
    ps ps1 t :
  (forall c_id p p1 t1, In (c_id, p) ps -> Post c_id p p1 t1 -> Post' c_id p p1 t1) ->
  runs Post ps ps1 t -> runs Post' ps ps1 t.
Proof.
  intros H R; induction R; constructor.
  - apply H; [now left | assumption].
  - apply IHR; intros; eapply H; eauto; now right.
Qed.

Lemma runs_Forall2 Post ps ps1 t :
  runs Post ps ps1 t ->
  Forall2 (fun x y => fst x = fst y /\ exists t1, Post (fst x) (snd x) (snd y) t1)
          ps ps1.
Proof. induction 1; constructor; eauto. Qed.

Lemma runs_filter P Post ps ps1 t (f : string -> Participant -> list event) :
  (forall c_id p p1 t1, Post c_id p p1 t1 -> filter P t1 = f c_id p) ->
  runs Post ps ps1 t ->
  filter P t = flat_map (fun x => f (fst x) (snd x)) ps.
Proof.
  intros H; induction 1; simpl; [reflexivity|].
  rewrite filter_app; f_equal; eauto.
Qed.

Lemma runs_map Post (F : string -> Participant -> Participant) ps ps1 t :
  (forall c_id p p1 t1, Post c_id p p1 t1 -> p1 = F c_id p) ->
  runs Post ps ps1 t -> ps1 = map (fun x => (fst x, F (fst x) (snd x))) ps.
Proof.
  intros H; induction 1; simpl; [reflexivity|].
  f_equal; [f_equal; eauto | assumption].
Qed.

(** In a completed loop, what the participant under a key went through,
    seen through a projection of traces that only its own turn affects. *)
Lemma runs_at_key {X} (proj : list event -> list X) Post ps ps1 t c p :
  (forall a b, proj (a ++ b) = proj a ++ proj b) -> proj [] = [] ->
  NoDup (map fst ps) -> In (c, p) ps -> runs Post ps ps1 t ->
  (forall c' p' p1 t1, c' <> c -> Post c' p' p1 t1 -> proj t1 = []) ->
  exists p1 t1, In (c, p1) ps1 /\ Post c p p1 t1 /\ proj t = proj t1.
Proof.
  intros Happ Hnil Hnd Hin Hr Hoff.
  assert (Hrest : forall qs qs1 t', runs Post qs qs1 t' ->
                    ~ In c (map fst qs) -> proj t' = []).
  { induction 1 as [|c' p' p1 t1 qs qs1 t' HP _ IH]; intros Hc; [assumption|].
    simpl in Hc; rewrite Happ.
    rewrite (Hoff c' p' p1 t1); [|intros ->; tauto | exact HP].
    rewrite IH; [reflexivity | tauto]. }
  induction Hr as [|c' p' p1 t1 ps ps1 t HP Hr IH]; [contradiction|].
  simpl in Hnd; inversion Hnd as [|? ? Hnotin Hnd']; subst.
  destruct Hin as [[= -> ->]|Hin].
  - exists p1, t1; repeat split; [now left | assumption |].
    now rewrite Happ, (Hrest _ _ _ Hr Hnotin), app_nil_r.
  - destruct (IH Hnd' Hin) as (q & tq & Hq & HPq & Ht).
    exists q, tq; repeat split; [now right | assumption |].
    rewrite Happ, (Hoff c' p' p1 t1), Ht; [reflexivity | | exact HP].
    intros ->; apply Hnotin.
    change c with (fst (c, p)); now apply in_map.
Qed.

End Loops.

(** ** The final inference pass *)
Section Inference.
Context {T : Torch} {C : Collaborators}.

Lemma inference_client_run c_id avg g p preds targets :
  inference_outputs p = Ok (preds, targets) ->
  confusion_matrix preds targets = Ok tt ->
  inference_client c_id avg (g, p)
  = ((g, p),
     [WandbLogPlot preds targets;
      Print (msg_inference_score c_id (accuracy_of preds targets));
      WandbLog (k_inference_score c_id) (accuracy_of preds targets)],
     Ok (avg + accuracy_of preds targets)%Q).
Proof.
  intros Ho Hc; unfold inference_client; mrun; rewrite Ho; mrun.
  rewrite Hc; reflexivity.
Qed.





End Inference.


(** ** Traces, states and outcomes of composed computations *)
Section Pieces.
Context {T : Torch}.

Lemma trace_bind {S A B} (m : M S A) (k : A -> M S B) s :
  trace (bind m k) s
  = trace m s ++ match outcome m s with
                 | Ok a => trace (k a) (final_state m s)
                 | Err _ => []
                 end.
Proof.
  unfold trace, outcome, final_state, bind.
  destruct (m s) as [[s1 t1] [a|e]]; simpl; [|now rewrite app_nil_r].
  now destruct (k a s1) as [[s2 t2] r].
Qed.

Lemma final_state_bind {S A B} (m : M S A) (k : A -> M S B) s :
  final_state (bind m k) s
  = match outcome m s with
    | Ok a => final_state (k a) (final_state m s)
    | Err _ => final_state m s
    end.
Proof.
  unfold trace, outcome, final_state, bind.
  destruct (m s) as [[s1 t1] [a|e]]; simpl; [|reflexivity].
  now destruct (k a s1) as [[s2 t2] r].
Qed.

Lemma outcome_bind {S A B} (m : M S A) (k : A -> M S B) s :
  outcome (bind m k) s
  = match outcome m s with
    | Ok a => outcome (k a) (final_state m s)
    | Err e => Err e
    end.
Proof.
  unfold trace, outcome, final_state, bind.
  destruct (m s) as [[s1 t1] [a|e]]; simpl; [|reflexivity].
  now destruct (k a s1) as [[s2 t2] r].
Qed.

Lemma trace_try_except {S A} (m : M S A) h s :
  trace (try_except m h) s
  = trace m s ++ match outcome m s with
                 | Ok _ => []
                 | Err e => trace (h e) (final_state m s)
                 end.
Proof.
  unfold trace, outcome, final_state, try_except.
  destruct (m s) as [[s1 t1] [a|e]]; simpl; [now rewrite app_nil_r|].
  now destruct (h e s1) as [[s2 t2] r].
Qed.

Lemma run_parts {S A} (m : M S A) s s1 t1 r :
  m s = (s1, t1, r) ->
  final_state m s = s1 /\ trace m s = t1 /\ outcome m s = r.
Proof. unfold final_state, trace, outcome; intros ->; auto. Qed.

Lemma sound_trace {S A} P R (m : M S A) s :
  sound P R m -> filter P (trace m s) = [].
Proof. intros H; apply H. Qed.

Lemma sound_state {S A} P (R : S -> S -> Prop) (m : M S A) s :
  sound P R m -> R s (final_state m s).
Proof. intros H; apply H. Qed.

(** *** [never_raises]: closure under the constructs of the monad *)
Lemma never_raises_ret {S A} (a : A) : never_raises (@ret _ S A a).
Proof. intros s; reflexivity. Qed.

Lemma never_raises_get {S} : never_raises (@get _ S).
Proof. intros s; reflexivity. Qed.

Lemma never_raises_gets {S A} (f : S -> A) : never_raises (gets f).
Proof. intros s; reflexivity. Qed.

Lemma never_raises_emit {S} e : never_raises (@emit _ S e).
Proof. intros s; reflexivity. Qed.

Lemma never_raises_modify {S} (f : S -> S) : never_raises (modify f).
Proof. intros s; reflexivity. Qed.

Lemma never_raises_bind {S A B} (m : M S A) (k : A -> M S B) :
  never_raises m -> (forall a, never_raises (k a)) -> never_raises (bind m k).
Proof.
  intros Hm Hk s; rewrite outcome_bind.
  specialize (Hm s); destruct (outcome m s); [apply Hk | discriminate].
Qed.

Lemma never_raises_try_except {S A} (m : M S A) h :
  (forall e, never_raises (h e)) -> never_raises (try_except m h).
Proof.
  intros Hh s; unfold outcome, try_except.
  destruct (m s) as [[s1 t1] [a|e]]; [reflexivity|].
  specialize (Hh e s1); unfold outcome in Hh.
  now destruct (h e s1) as [[s2 t2] r].
Qed.

Lemma never_raises_when {S} b (m : M S unit) :
  never_raises m -> never_raises (when b m).
Proof. destruct b; simpl; [auto | intros _; apply never_raises_ret]. Qed.

Lemma never_raises_fold_clients {L}
    (body : string -> L -> M (Self * Participant) L) l :
  (forall c_id l, never_raises (body c_id l)) ->
  never_raises (fold_clients body l).
Proof.
  intros Hb tr; unfold outcome, fold_clients.
  generalize (self tr); revert l.
  induction (participants tr) as [|[c_id p] ps IH]; intros l g; simpl;
    [reflexivity|].
  specialize (Hb c_id l (g, p)); unfold outcome in Hb.
  destruct (body c_id l (g, p)) as [[[g1 p1] t1] [l1|e]]; [|discriminate].
  specialize (IH l1 g1).
  now destruct (fold_participants body ps l1 g1) as [[[g2 ps2] t2] r].
Qed.

End Pieces.

Ltac never_raises_step :=
  lazymatch goal with
  | |- never_raises (bind _ _) => apply never_raises_bind; [| intros ?]
  | |- never_raises (ret _) => apply never_raises_ret
  | |- never_raises get => apply never_raises_get
  | |- never_raises (gets _) => apply never_raises_gets
  | |- never_raises the_self => apply never_raises_gets
  | |- never_raises the_client => apply never_raises_gets
  | |- never_raises the_server => apply never_raises_gets
  | |- never_raises (emit _) => apply never_raises_emit
  | |- never_raises (modify _) => apply never_raises_modify
  | |- never_raises (try_except _ _) => apply never_raises_try_except; intros ?
  | |- never_raises (when _ _) => apply never_raises_when
  | |- never_raises (fold_clients _ _) =>
      apply never_raises_fold_clients; intros ? ?
  | |- never_raises (match ?x with _ => _ end) => destruct x
  end.

#[export] Instance stays_personalized_preorder {T : Torch} :
  PreOrder stays_personalized.
Proof. split; unfold stays_personalized; repeat intro; auto. Qed.

#[export] Instance same_back_preorder {T : Torch} : PreOrder same_back.
Proof.
  split; unfold same_back.
  - intros p; split; reflexivity.
  - intros a b c [H1 H2] [H3 H4]; split; congruence.
Qed.

#[export] Instance same_models_preorder {T : Torch} : PreOrder same_models.
Proof.
  split; unfold same_models.
  - intros p; repeat split; reflexivity.
  - intros a b c H1 H2; decompose [and] H1; decompose [and] H2;
      repeat split; congruence.
Qed.

(** Every definition of the trainer, for proofs that walk through all of
    them. *)
Ltac unfold_trainer :=
  unfold fit_epoch, refresh_key_value_store, enter_personalization,
    populate_key_value_store, store_forward_mappings_kv, kv_begin,
    kv_populate, kv_forward, set_training_all, set_training_pair,
    clear_cache, load_best_models, load_best_model, load_segment,
    personalize, freeze_center_back,
    train_one_epoch, train_metrics, merge_unless_pooling, train_client, train_iteration, train_epoch_metrics,
    train_overall_metrics,
    test_one_epoch, test_metrics, test_client, test_iteration, test_epoch_metrics,
    test_overall_metrics, reset_predictions, create_iters, append_f1,
    merge_model_weights, merge_center_back, merge_back,
    collect_center_back_of, collect_back_of, call_merge_weights,
    load_center_back, load_back, inference, inference_client.

(** ** The weight-merge step *)
Section Merge.
Context {T : Torch} {C : Collaborators}.

Lemma collect_center_back_fold ps : forall a b g,
  fold_participants collect_center_back_of ps (a, b) g
  = ((g, ps), [],
     Ok (a ++ map (fun x => state_dict (center_back_model (sc_client (snd x)))) ps,
         b ++ map (fun x => (Z.of_nat (train_dataset (client (snd x)))
                             * kv_factor (args g))%Z) ps)).
Proof.
  induction ps as [|[c_id p] ps IH]; intros a b g; cbn [fold_participants].
  - cbn [map]; now rewrite !app_nil_r.
  - assert (Hb : collect_center_back_of c_id (a, b) (g, p)
                 = ((g, p), [],
                    Ok (a ++ [state_dict (center_back_model (sc_client p))],
                        b ++ [(Z.of_nat (train_dataset (client p))
                               * kv_factor (args g))%Z])))
      by reflexivity.
    rewrite Hb, IH; cbn [map fst snd app]; now rewrite <- !app_assoc.
Qed.

Lemma collect_back_fold ps : forall a b g,
  fold_participants collect_back_of ps (a, b) g
  = ((g, ps), [],
     Ok (a ++ map (fun x => state_dict (back_model (client (snd x)))) ps,
         b ++ map (fun x => Z.of_nat (train_dataset (client (snd x)))) ps)).
Proof.
  induction ps as [|[c_id p] ps IH]; intros a b g; cbn [fold_participants].
  - cbn [map]; now rewrite !app_nil_r.
  - assert (Hb : collect_back_of c_id (a, b) (g, p)
                 = ((g, p), [],
                    Ok (a ++ [state_dict (back_model (client p))],
                        b ++ [Z.of_nat (train_dataset (client p))])))
      by reflexivity.
    rewrite Hb, IH; cbn [map fst snd app]; now rewrite <- !app_assoc.
Qed.

Lemma collect_center_back_run tr :
  fold_clients collect_center_back_of ([], []) tr
  = (tr, [], Ok (center_back_pool tr, center_back_sample_lens tr)).
Proof.
  unfold fold_clients; rewrite collect_center_back_fold, trainer_eta.
  reflexivity.
Qed.

Lemma collect_back_run tr :
  fold_clients collect_back_of ([], []) tr
  = (tr, [], Ok (back_pool tr, back_sample_lens tr)).
Proof.
  unfold fold_clients; rewrite collect_back_fold, trainer_eta.
  reflexivity.
Qed.

Lemma merge_model_weights_never_raises epoch :
  never_raises (merge_model_weights epoch).
Proof. unfold_trainer; repeat never_raises_step. Qed.

Lemma merge_center_back_failure tr x :
  merge_weights (center_back_pool tr) (center_back_sample_lens tr) = Err x ->
  merge_center_back tr
  = (tr, [MergeWeights center_back (center_back_pool tr)
                       (center_back_sample_lens tr);
          Print (msg_error_merging center_back x)], Ok tt).
Proof.
  intros H; unfold merge_center_back, bind at 1.
  rewrite collect_center_back_run.
  unfold call_merge_weights; mrun; rewrite H; reflexivity.
Qed.

Lemma merge_back_failure tr x :
  merge_weights (back_pool tr) (back_sample_lens tr) = Err x ->
  merge_back tr
  = (tr, [MergeWeights back (back_pool tr) (back_sample_lens tr);
          Print (msg_error_merging back x)], Ok tt).
Proof.
  intros H; unfold merge_back, bind at 1.
  rewrite collect_back_run.
  unfold call_merge_weights; mrun; rewrite H; reflexivity.
Qed.

End Merge.

Section MergePersonalized.
Context {T : Torch} {C : Collaborators}.

Lemma merge_center_back_sound :
  sound no_event (on_trainer eq same_back) merge_center_back.
Proof.
  unfold_trainer.
  sound_by ltac:(intros; split; reflexivity).
Qed.

Lemma call_merge_weights_run s params sample_lens (tr : Trainer) :
  call_merge_weights s params sample_lens tr
  = (tr, [MergeWeights s params sample_lens], merge_weights params sample_lens).
Proof. reflexivity. Qed.

Lemma merge_center_back_calls tr :
  filter is_merge_call (trace merge_center_back tr)
  = [MergeWeights center_back (center_back_pool tr) (center_back_sample_lens tr)].
Proof.
  unfold merge_center_back.
  destruct (run_parts _ _ _ _ _ (collect_center_back_run tr)) as (E1 & E2 & E3).
  rewrite trace_bind, E1, E2, E3; cbn [app].
  assert (Hload : forall w,
            filter is_merge_call (trace (for_clients (load_center_back w)) tr) = []).
  { intros w; eapply sound_trace.
    apply (sound_for_clients eq same_back).
    intros c_id; unfold load_center_back.
    sound_by ltac:(intros; split; reflexivity). }
  destruct (run_parts _ _ _ _ _
              (call_merge_weights_run center_back (center_back_pool tr)
                 (center_back_sample_lens tr) tr)) as (F1 & F2 & F3).
  rewrite trace_try_except, outcome_bind, trace_bind, F1, F2, F3, !filter_app.
  destruct (merge_weights (center_back_pool tr) (center_back_sample_lens tr))
    as [w|x]; [rewrite Hload|].
  - destruct (outcome (for_clients (load_center_back w)) tr); reflexivity.
  - reflexivity.
Qed.

Lemma merge_when_personalized tr epoch :
  personalization_mode (self tr) = true ->
  filter is_merge_call (trace (merge_model_weights epoch) tr)
  = [MergeWeights center_back (center_back_pool tr) (center_back_sample_lens tr)]
  /\ on_trainer eq same_back tr (final_state (merge_model_weights epoch) tr).
Proof.
  intros Hp.
  pose proof (sound_state _ _ _ tr merge_center_back_sound) as [Hself Hps].
  pose proof (merge_center_back_calls tr) as Hc.
  assert (Hok : outcome merge_center_back tr = Ok tt).
  { assert (H : never_raises merge_center_back)
      by (unfold_trainer; repeat never_raises_step).
    specialize (H tr); destruct (outcome merge_center_back tr) as [[]|];
      [reflexivity | discriminate]. }
  unfold merge_model_weights.
  rewrite trace_bind, final_state_bind.
  change (outcome (emit (Print (msg_merging epoch))) tr) with (@Ok unit tt).
  change (final_state (emit (Print (msg_merging epoch))) tr) with tr.
  change (trace (emit (Print (msg_merging epoch))) tr)
    with [Print (msg_merging epoch)].
  cbv iota; rewrite trace_bind, final_state_bind, Hok.
  set (tr1 := final_state merge_center_back tr) in *.
  assert (Hrest : (tr0 <- get ;;
                   when (negb (personalization_mode (self tr0))) merge_back) tr1
                  = (tr1, [], Ok tt)).
  { unfold bind, get; cbn [when].
    rewrite <- Hself, Hp; reflexivity. }
  destruct (run_parts _ _ _ _ _ Hrest) as (G1 & G2 & _).
  rewrite G1, G2, app_nil_r; cbn [app filter is_merge_call].
  split; [exact Hc | split; assumption].
Qed.

Lemma enter_personalization_sets_mode tr epoch :
  args_personalize (args (self tr)) = true ->
  epoch = p_epoch (args (self tr)) ->
  personalization_mode (self (final_state (enter_personalization epoch) tr)) = true.
Proof.
  intros Ha ->; unfold enter_personalization.
  rewrite final_state_bind.
  change (outcome get tr) with (Ok tr); change (final_state get tr) with tr.
  cbv iota beta; rewrite Ha, Z.eqb_refl; cbn [when].
  rewrite final_state_bind.
  set (f := fun g : Self => g <| personalization_mode := true |>).
  change (outcome (self_do f) tr) with (@Ok unit tt).
  change (final_state (self_do f) tr) with (tr <| self ::= f |>).
  cbv iota.
  assert (H : sound no_event (on_trainer stays_personalized any_change)
                (load_best_models ;; personalize (p_epoch (args (self tr))))).
  { unfold_trainer.
    sound_by ltac:(first [intros; exact I | intros g Hg; exact Hg]). }
  apply (sound_state _ _ _ (tr <| self ::= f |>) H); reflexivity.
Qed.

Lemma fit_epoch_stays_personalized epoch :
  sound no_event (on_trainer stays_personalized any_change) (fit_epoch epoch).
Proof.
  unfold_trainer.
  sound_by ltac:(first [intros; exact I
                       | intros g Hg; exact Hg
                       | intros g Hg; reflexivity ]).
Qed.

(** C1, as the code has it: once the run is in personalization mode it
    stays there, and every weight-merge step still fuses the [center_back]
    states of all participants (one call of [merge_weights], on the full
    pool, weighted by [len(train_dataset) * kv_factor]); what stops is the
    fusion of [back]: no call of [merge_weights] on the [back] pool, and no
    [back] model or optimizer changes. *)
Theorem personalization_stops_back_fusion tr epoch :
  (args_personalize (args (self tr)) = true ->
   epoch = p_epoch (args (self tr)) ->
   personalization_mode (self (final_state (enter_personalization epoch) tr))
   = true) /\
  (personalization_mode (self tr) = true ->
   personalization_mode (self (final_state (fit_epoch epoch) tr)) = true /\
   filter is_merge_call (trace (merge_model_weights epoch) tr)
   = [MergeWeights center_back (center_back_pool tr)
                   (center_back_sample_lens tr)] /\
   on_trainer eq same_back tr (final_state (merge_model_weights epoch) tr)).
Proof.
  split.
  - apply enter_personalization_sets_mode.
  - intros Hp; split.
    + apply (sound_state _ _ _ tr (fit_epoch_stays_personalized epoch)), Hp.
    + now apply merge_when_personalized.
Qed.

End MergePersonalized.


(** ** Counting events *)
Section Counting.
Context {T : Torch}.

Lemma count_app P (l l' : list event) :
  count P (l ++ l') = count P l + count P l'.
Proof. unfold count; now rewrite filter_app, length_app. Qed.

Lemma count_repeat P (l : list event) n :
  count P (flat_map (fun _ : nat => l) (seq 0 n)) = n * count P l.
Proof.
  generalize 0; induction n as [|n IH]; intros k; simpl; [reflexivity|].
  now rewrite count_app, IH.
Qed.

Lemma flat_map_off_key {A} (f : string -> Participant -> list A)
    (ps : list (string * Participant)) c :
  ~ In c (map fst ps) ->
  (forall c' p', c' <> c -> f c' p' = []) ->
  flat_map (fun x => f (fst x) (snd x)) ps = [].
Proof.
  intros Hnotin Hother; induction ps as [|[c' p'] ps IH]; [reflexivity|].
  simpl in *; rewrite Hother, IH; [reflexivity | tauto |].
  intros ->; tauto.
Qed.

Lemma flat_map_at_key {A} (f : string -> Participant -> list A)
    (ps : list (string * Participant)) c p :
  NoDup (map fst ps) -> In (c, p) ps ->
  (forall c' p', c' <> c -> f c' p' = []) ->
  flat_map (fun x => f (fst x) (snd x)) ps = f c p.
Proof.
  intros Hnd Hin Hother; induction ps as [|[c' p'] ps IH]; [contradiction|].
  simpl in *; inversion Hnd as [|? ? Hnotin Hnd']; subst.
  destruct Hin as [[= -> ->]|Hin].
  - rewrite (flat_map_off_key f ps c Hnotin Hother); apply app_nil_r.
  - rewrite Hother, IH; auto.
    intros ->; apply Hnotin.
    change c with (fst (c, p)); now apply in_map.
Qed.

Lemma count_flat_map_at_key P (f : string -> Participant -> list event)
    (ps : list (string * Participant)) c p :
  NoDup (map fst ps) -> In (c, p) ps ->
  (forall c' p', c' <> c -> count P (f c' p') = 0) ->
  count P (flat_map (fun x => f (fst x) (snd x)) ps) = count P (f c p).
Proof.
  intros Hnd Hin Hother; unfold count in *.
  assert (E : forall l, filter P (flat_map (fun x => f (fst x) (snd x)) l)
                        = flat_map (fun x => filter P (f (fst x) (snd x))) l).
  { induction l; simpl; [reflexivity | now rewrite filter_app, IHl]. }
  rewrite E, (flat_map_at_key (fun c p => filter P (f c p)) ps c p); auto.
  intros c' p' Hc; specialize (Hother c' p' Hc).
  now destruct (filter P (f c' p')).
Qed.

Lemma flat_map_Forall2 {A B X} (f : A -> list X) (g : B -> list X) l l' :
  Forall2 (fun x y => f x = g y) l l' -> flat_map f l = flat_map g l'.
Proof. induction 1; simpl; congruence. Qed.

Lemma Forall2_In_l {A B} (R : A -> B -> Prop) l l' x :
  Forall2 R l l' -> In x l -> exists y, In y l' /\ R x y.
Proof.
  induction 1; intros Hin; [contradiction|].
  destruct Hin as [<-|Hin]; [eexists; split; [now left | eassumption]|].
  destruct (IHForall2 Hin) as (y' & ? & ?); exists y'; split; auto; now right.
Qed.

Lemma Forall2_In_r {A B} (R : A -> B -> Prop) l l' y :
  Forall2 R l l' -> In y l' -> exists x, In x l /\ R x y.
Proof.
  induction 1; intros Hin; [contradiction|].
  destruct Hin as [<-|Hin]; [eexists; split; [now left | eassumption]|].
  destruct (IHForall2 Hin) as (x' & ? & ?); exists x'; split; auto; now right.
Qed.

Lemma Forall2_keys {B} (R : Participant -> B -> Prop)
    (l : list (string * Participant)) (l' : list (string * B)) :
  Forall2 (fun x y => fst x = fst y /\ R (snd x) (snd y)) l l' ->
  map fst l' = map fst l.
Proof. induction 1 as [|x y l l' [H _] _ IH]; simpl; congruence. Qed.

End Counting.

#[export] Instance same_metrics_preorder {T : Torch} : PreOrder same_metrics.
Proof.
  split; unfold same_metrics.
  - intros p; repeat split; reflexivity.
  - intros a b c H1 H2; decompose [and] H1; decompose [and] H2;
      repeat split; congruence.
Qed.

(** ** Populating the key-value store *)
Section Populate.
Context {T : Torch} {C : Collaborators}.
Hypothesis HF : metrics_frame.

Lemma frame_train_f1 m c : train_f1 (client_call m c) = train_f1 c.
Proof. apply HF. Qed.
Lemma frame_test_f1 m c : test_f1 (client_call m c) = test_f1 c.
Proof. apply HF. Qed.
Lemma frame_num_iterations m c :
  num_iterations (client_call m c) = num_iterations c.
Proof. apply HF. Qed.
Lemma frame_test_DataLoader m c :
  test_DataLoader (client_call m c) = test_DataLoader c.
Proof. apply HF. Qed.

Lemma call_client_same_metrics m p :
  same_metrics p (p <| client ::= client_call m |>).
Proof.
  unfold same_metrics; cbn.
  now rewrite frame_train_f1, frame_test_f1, frame_num_iterations,
    frame_test_DataLoader.
Qed.

Lemma kv_forward_run m c_id it g p :
  exists p1,
    kv_forward m c_id it (g, p)
    = ((g, p1), [ClientCall c_id (forward_front_of m);
                 ServerCall c_id (forward_center_front_of m)], Ok tt)
    /\ same_metrics p p1.
Proof.
  destruct m; (eexists; split; [reflexivity|]);
    unfold same_metrics; cbn;
    now rewrite frame_train_f1, frame_test_f1, frame_num_iterations,
      frame_test_DataLoader.
Qed.

Lemma kv_passes_run m c_id n g p :
  exists p1,
    for_range n (kv_forward m c_id) (g, p)
    = ((g, p1),
       flat_map (fun _ => [ClientCall c_id (forward_front_of m);
                           ServerCall c_id (forward_center_front_of m)])
                (seq 0 n), Ok tt)
    /\ same_metrics p p1.
Proof.
  destruct (for_range_invariant
              (fun k s t =>
                 fst s = g /\ same_metrics p (snd s) /\
                 t = flat_map (fun _ => [ClientCall c_id (forward_front_of m);
                                         ServerCall c_id (forward_center_front_of m)])
                              (seq 0 k))
              (kv_forward m c_id) n (g, p)) as (s' & t & Hrun & Hg & Hm & Ht).
  - repeat split; reflexivity.
  - intros k it [g' p'] t _ (Hg & Hm & Ht); simpl in Hg; subst g'.
    destruct (kv_forward_run m c_id it g p') as (p1 & Hrun & Hm1).
    exists (g, p1); eexists; split; [exact Hrun|].
    split; [reflexivity|]; split; [etransitivity; eauto|].
    rewrite seq_S, flat_map_app, Ht; reflexivity.
  - destruct s' as [g' p1]; simpl in *; subst; eauto.
Qed.

Lemma kv_begin_run m c_id g p :
  exists p1,
    kv_begin m c_id (g, p) = ((g, p1), [], Ok tt) /\
    train_f1 (client p1) = train_f1 (client p) /\
    test_f1 (client p1) = test_f1 (client p) /\
    train_DataLoader (client p1) = train_DataLoader (client p) /\
    test_DataLoader (client p1) = test_DataLoader (client p) /\
    match m with
    | train => num_iterations (client p1) = train_DataLoader (client p)
    | test => num_test_iterations (client p1) = test_DataLoader (client p)
              /\ num_iterations (client p1) = num_iterations (client p)
    end.
Proof. destruct m; eexists; repeat split. Qed.

Lemma kv_populate_run m c_id g p :
  exists p1,
    kv_populate m c_id (g, p)
    = ((g, p1),
       kv_events m c_id
         match m with
         | train => Z.to_nat (Z.of_nat (num_iterations (client p))
                              * kv_factor (args g))
         | test => num_test_iterations (client p)
         end, Ok tt)
    /\ same_metrics p p1.
Proof.
  destruct m.
  - destruct (kv_passes_run train c_id
                (Z.to_nat (Z.of_nat (num_iterations (client p)) * kv_factor (args g)))
                g p) as (p1 & Hrun & Hm).
    eexists; split.
    + unfold kv_populate, bind at 1 2 3, the_client, the_self, gets.
      cbn [fst snd]; rewrite Hrun; reflexivity.
    + exact Hm.
  - destruct (kv_passes_run test c_id (num_test_iterations (client p)) g p)
      as (p1 & Hrun & Hm).
    eexists; split.
    + unfold kv_populate, bind at 1 2, the_client, gets.
      cbn [fst snd]; rewrite Hrun; reflexivity.
    + exact Hm.
Qed.

(** One call of [store_forward_mappings_kv]: its events, and what it
    leaves in each participant. *)
Lemma store_forward_mappings_kv_run m tr :
  exists ps1,
    store_forward_mappings_kv m tr
    = ({| self := self tr; participants := ps1 |},
       flat_map (fun x => kv_events m (fst x)
                   match m with
                   | train => kv_train_passes (self tr) (snd x)
                   | test => test_DataLoader (client (snd x))
                   end) (participants tr), Ok tt)
    /\ Forall2 (fun x y =>
                 fst x = fst y /\
                 train_f1 (client (snd y)) = train_f1 (client (snd x)) /\
                 test_f1 (client (snd y)) = test_f1 (client (snd x)) /\
                 test_DataLoader (client (snd y)) = test_DataLoader (client (snd x)) /\
                 match m with
                 | train => num_iterations (client (snd y))
                            = train_DataLoader (client (snd x))
                 | test => num_iterations (client (snd y))
                           = num_iterations (client (snd x))
                 end)
              (participants tr) ps1.
Proof.
  destruct (for_clients_runs
              (fun c_id p p1 t1 =>
                 t1 = [] /\
                 train_f1 (client p1) = train_f1 (client p) /\
                 test_f1 (client p1) = test_f1 (client p) /\
                 train_DataLoader (client p1) = train_DataLoader (client p) /\
                 test_DataLoader (client p1) = test_DataLoader (client p) /\
                 match m with
                 | train => num_iterations (client p1) = train_DataLoader (client p)
                 | test => num_test_iterations (client p1) = test_DataLoader (client p)
                           /\ num_iterations (client p1) = num_iterations (client p)
                 end)
              (kv_begin m) tr) as (ps1 & t1 & Hrun1 & Hr1).
  { intros c_id p _; destruct (kv_begin_run m c_id (self tr) p) as (p1 & H & H').
    exists p1, []; auto. }
  set (tr1 := {| self := self tr; participants := ps1 |}) in *.
  destruct (for_clients_runs
              (fun c_id p p1 t1 =>
                 t1 = kv_events m c_id
                        match m with
                        | train => Z.to_nat (Z.of_nat (num_iterations (client p))
                                             * kv_factor (args (self tr)))
                        | test => num_test_iterations (client p)
                        end /\
                 same_metrics p p1)
              (kv_populate m) tr1) as (ps2 & t2 & Hrun2 & Hr2).
  { intros c_id p _; destruct (kv_populate_run m c_id (self tr) p) as (p1 & H & H').
    exists p1; eexists; split; [exact H | split; [reflexivity | exact H']]. }
  exists ps2; split.
  - unfold store_forward_mappings_kv.
    assert (Ht1 : t1 = []).
    { clear - Hr1; induction Hr1 as [|? ? ? ? ? ? ? (-> & _) _ IH];
        [reflexivity | now rewrite IH]. }
    subst t1.
    unfold bind; rewrite Hrun1; cbv beta iota; rewrite Hrun2; cbn [app self].
    f_equal; f_equal.
    clear - Hr1 Hr2; subst tr1; cbn [participants] in Hr2.
    revert ps2 t2 Hr2; induction Hr1 as [|c p p1 t1 ps ps1 t H1 _ IH];
      intros ps2 t2 Hr2; inversion Hr2 as [|? ? p2 ta ? ps2' tb H2 Hr2']; subst;
      [reflexivity|].
    cbn [flat_map fst snd]; rewrite (IH _ _ Hr2').
    destruct H2 as [-> _]; f_equal; f_equal.
    destruct m; unfold kv_train_passes; intuition congruence.
  - clear - Hr1 Hr2; subst tr1; cbn [participants] in Hr2.
    revert ps2 t2 Hr2; induction Hr1 as [|c p p1 t1 ps ps1 t H1 _ IH];
      intros ps2 t2 Hr2; inversion Hr2 as [|? ? p2 ta ? ps2' tb H2 Hr2']; subst;
      constructor; eauto.
    cbn [fst snd]; destruct H2 as [_ (? & ? & ? & ?)].
    destruct m; intuition congruence.
Qed.

Lemma populate_key_value_store_run tr :
  exists ps2,
    populate_key_value_store tr
    = ({| self := self tr; participants := ps2 |}, populate_events tr, Ok tt)
    /\ Forall2 (fun x y =>
                 fst x = fst y /\
                 train_f1 (client (snd y)) = train_f1 (client (snd x)) /\
                 test_f1 (client (snd y)) = test_f1 (client (snd x)) /\
                 test_DataLoader (client (snd y)) = test_DataLoader (client (snd x)) /\
                 num_iterations (client (snd y)) = train_DataLoader (client (snd x)))
              (participants tr) ps2.
Proof.
  destruct (store_forward_mappings_kv_run train tr) as (ps1 & Hrun1 & H1).
  set (tr1 := {| self := self tr; participants := ps1 |}) in *.
  destruct (store_forward_mappings_kv_run test tr1) as (ps2 & Hrun2 & H2).
  cbn [self participants] in Hrun2, H2.
  exists ps2; split.
  - unfold populate_key_value_store, bind, emit.
    rewrite Hrun1; cbv beta iota; rewrite Hrun2; cbn [app].
    unfold populate_events; do 5 f_equal.
    cbn [participants tr1].
    symmetry; apply flat_map_Forall2.
    eapply Forall2_impl; [|exact H1].
    intros [c p] [c' p'] (Hk & _ & _ & Ht & _); simpl in *; congruence.
  - clear - H1 H2; revert ps2 H2.
    induction H1 as [|x y l l' Hxy _ IH]; intros ps2 H2;
      inversion H2 as [|? z ? l2 Hyz H2']; subst; constructor; auto.
    intuition congruence.
Qed.

Lemma count_kv_events_client c m0 m c' n :
  count (is_client_call c m0) (kv_events m c' n)
  = if client_method_eqb (forward_front_of m) m0 && String.eqb c' c
    then n else 0.
Proof.
  unfold kv_events; rewrite count_app, count_repeat.
  unfold count; cbn [filter is_client_call List.length].
  destruct (client_method_eqb (forward_front_of m) m0 && String.eqb c' c);
    simpl; lia.
Qed.

Lemma count_kv_events_server c m0 m c' n :
  count (is_server_call c m0) (kv_events m c' n)
  = if server_method_eqb (forward_center_front_of m) m0 && String.eqb c' c
    then n else 0.
Proof.
  unfold kv_events; rewrite count_app, count_repeat.
  unfold count; cbn [filter is_server_call List.length].
  destruct (server_method_eqb (forward_center_front_of m) m0 && String.eqb c' c);
    simpl; lia.
Qed.

(** C5, as the code has it: a population of the key-value store is, for
    each participant in turn, [kv_factor * len(train_DataLoader)] forward
    passes of the frozen pipeline on training batches, and then, for each
    participant, [len(test_DataLoader)] forward passes on test batches
    (the test passes are not multiplied by [kv_factor]); it returns
    normally and calls nothing else. *)
Theorem populate_forward_passes tr c_id p :
  NoDup (ids tr) -> In (c_id, p) (participants tr) ->
  let t := trace populate_key_value_store tr in
  t = populate_events tr /\
  outcome populate_key_value_store tr = Ok tt /\
  count (is_client_call c_id forward_front_key_value) t
  = Z.to_nat (Z.of_nat (train_DataLoader (client p)) * kv_factor (args (self tr))) /\
  count (is_server_call c_id forward_center_front) t
  = Z.to_nat (Z.of_nat (train_DataLoader (client p)) * kv_factor (args (self tr))) /\
  count (is_client_call c_id forward_front_key_value_test) t
  = test_DataLoader (client p) /\
  count (is_server_call c_id forward_center_front_test) t
  = test_DataLoader (client p).
Proof.
  intros Hnd Hin t; subst t.
  destruct (populate_key_value_store_run tr) as (ps2 & Hrun & _).
  destruct (run_parts _ _ _ _ _ Hrun) as (_ & Ht & Ho).
  rewrite Ht; split; [reflexivity|]; split; [exact Ho|].
  unfold populate_events.
  change (Print msg_generating_train :: ?a) with ([Print msg_generating_train] ++ a).
  assert (Hoff_c : forall m0 m n c', c' <> c_id ->
            count (is_client_call c_id m0) (kv_events m c' n) = 0).
  { intros m0 m n c' Hc; rewrite count_kv_events_client.
    apply String.eqb_neq in Hc; rewrite Hc, andb_false_r; reflexivity. }
  assert (Hoff_s : forall m0 m n c', c' <> c_id ->
            count (is_server_call c_id m0) (kv_events m c' n) = 0).
  { intros m0 m n c' Hc; rewrite count_kv_events_server.
    apply String.eqb_neq in Hc; rewrite Hc, andb_false_r; reflexivity. }
  repeat split.
  all: rewrite count_app;
    change (Print msg_generating_test :: ?a) with ([Print msg_generating_test] ++ a);
    rewrite !count_app.
  all: rewrite
         (count_flat_map_at_key _
            (fun c q => kv_events train c (kv_train_passes (self tr) q))
            (participants tr) c_id p Hnd Hin),
         (count_flat_map_at_key _
            (fun c q => kv_events test c (test_DataLoader (client q)))
            (participants tr) c_id p Hnd Hin);
    try (intros c' p' Hc; first [now apply Hoff_c | now apply Hoff_s]).
  all: rewrite ?count_kv_events_client, ?count_kv_events_server, String.eqb_refl;
    unfold count, kv_train_passes; simpl; lia.
Qed.

End Populate.

(** ** Python helpers *)
Lemma update_last_snoc f l x :
  update_last f (l ++ [x])
  = match f x with Ok v => Ok (l ++ [v]) | Err e => Err e end.
Proof.
  unfold update_last; rewrite rev_app_distr; cbn [rev app].
  destruct (f x); [|reflexivity].
  cbn [rev]; now rewrite rev_involutive.
Qed.

Lemma py_index_last l x : py_index (l ++ [x]) (-1) = Ok x.
Proof.
  unfold py_index; rewrite length_app; cbn [List.length].
  set (n := List.length l).
  change (-1 <? 0)%Z with true; cbv iota.
  replace (-1 + Z.of_nat (n + 1))%Z with (Z.of_nat n) by lia.
  destruct (Z.ltb_spec (Z.of_nat n) 0); [lia|].
  destruct (Z.leb_spec (Z.of_nat (n + 1)) (Z.of_nat n)); [lia|].
  cbn [orb]; rewrite Nat2Z.id, nth_error_app2 by (subst n; lia).
  subst n; rewrite Nat.sub_diag; reflexivity.
Qed.

Lemma py_div_pos div x k : 0 < k -> py_div div x k = Ok (div x k).
Proof. unfold py_div; destruct k; [lia | reflexivity]. Qed.

(** ** The iterations of an epoch *)
Section Iterations.
Context {T : Torch} {C : Collaborators}.
Hypothesis HF : metrics_frame.

Ltac peel :=
  repeat first
    [ rewrite (frame_train_f1 HF) | rewrite (frame_test_f1 HF)
    | rewrite (frame_num_iterations HF) | rewrite (frame_test_DataLoader HF)
    | proj_step ].

Lemma train_iteration_run c_id it g p l x :
  train_f1 (client p) = l ++ [x] ->
  exists p1 loss f1,
    train_iteration c_id it (g, p)
    = ((g, p1), train_iteration_events c_id loss f1, Ok tt) /\
    train_f1 (client p1) = l ++ [tensor_add x f1] /\
    test_f1 (client p1) = test_f1 (client p) /\
    num_iterations (client p1) = num_iterations (client p) /\
    test_DataLoader (client p1) = test_DataLoader (client p).
Proof.
  intros H; unfold train_iteration; mrun.
  match goal with
  | |- context [update_last _ (train_f1 ?c)] =>
      assert (E : train_f1 c = l ++ [x]) by (peel; exact H)
  end.
  rewrite E, update_last_snoc; mrun.
  do 3 eexists; split; [reflexivity|].
  repeat split; peel; reflexivity.
Qed.

Lemma test_iteration_run c_id it g p l x :
  test_f1 (client p) = l ++ [x] ->
  exists p1 loss f1,
    test_iteration c_id it (g, p)
    = ((g, p1), test_iteration_events c_id loss f1, Ok tt) /\
    test_f1 (client p1) = l ++ [tensor_add x f1] /\
    train_f1 (client p1) = train_f1 (client p) /\
    num_iterations (client p1) = num_iterations (client p) /\
    test_DataLoader (client p1) = test_DataLoader (client p).
Proof.
  intros H; unfold test_iteration; mrun.
  match goal with
  | |- context [update_last _ (test_f1 ?c)] =>
      assert (E : test_f1 c = l ++ [x]) by (peel; exact H)
  end.
  rewrite E, update_last_snoc; mrun.
  do 3 eexists; split; [reflexivity|].
  repeat split; peel; reflexivity.
Qed.

Lemma iteration_events_app m c_id obs obs' :
  iteration_events m c_id (obs ++ obs')
  = iteration_events m c_id obs ++ iteration_events m c_id obs'.
Proof. unfold iteration_events; apply flat_map_app. Qed.

(** The iterations of one participant, for either mode: from a list that
    ends in [x], [n] iterations add the [n] scores to [x]. *)
Lemma iterations_run m c_id n g p l x :
  f1_list m p = l ++ [x] ->
  exists p1 obs,
    for_range n (match m with
                 | train => train_iteration c_id
                 | test => test_iteration c_id
                 end) (g, p)
    = ((g, p1), iteration_events m c_id obs, Ok tt) /\
    List.length obs = n /\
    f1_list m p1 = l ++ [fold_left tensor_add (map snd obs) x] /\
    f1_list (other_mode m) p1 = f1_list (other_mode m) p /\
    iterations train p1 = iterations train p /\
    iterations test p1 = iterations test p.
Proof.
  intros H.
  destruct (for_range_invariant
              (fun k s t =>
                 fst s = g /\
                 exists obs,
                   List.length obs = k /\ t = iteration_events m c_id obs /\
                   f1_list m (snd s) = l ++ [fold_left tensor_add (map snd obs) x] /\
                   f1_list (other_mode m) (snd s) = f1_list (other_mode m) p /\
                   iterations train (snd s) = iterations train p /\
                   iterations test (snd s) = iterations test p)
              (match m with
               | train => train_iteration c_id
               | test => test_iteration c_id
               end) n (g, p)) as (s' & t & Hrun & Hg & obs & Hinv).
  - split; [reflexivity|]; exists []; repeat split; assumption.
  - intros k it [g' p'] t _ (Hg & obs & Hlen & Ht & Hf & Ho & Hn & Hd).
    simpl in Hg; subst g'; cbn [snd] in *.
    destruct m; cbn [f1_list other_mode iterations] in *.
    + destruct (train_iteration_run c_id it g p' l _ Hf)
        as (p1 & loss & f1 & Hrun & H1 & H2 & H3 & H4).
      exists (g, p1); eexists; split; [exact Hrun|].
      split; [reflexivity|]; exists (obs ++ [(loss, f1)]); cbn [snd].
      rewrite length_app, iteration_events_app, map_app, fold_left_app, Ht.
      cbn [List.length map snd fold_left].
      repeat split; try congruence; try lia.
    + destruct (test_iteration_run c_id it g p' l _ Hf)
        as (p1 & loss & f1 & Hrun & H1 & H2 & H3 & H4).
      exists (g, p1); eexists; split; [exact Hrun|].
      split; [reflexivity|]; exists (obs ++ [(loss, f1)]); cbn [snd].
      rewrite length_app, iteration_events_app, map_app, fold_left_app, Ht.
      cbn [List.length map snd fold_left].
      repeat split; try congruence; try lia.
  - destruct s' as [g' p1]; simpl in Hg; subst g'; cbn [snd] in *.
    destruct Hinv as (Hlen & Ht & Hrest); subst t.
    exists p1, obs; auto.
Qed.

(** [create_iters] and the loop of one participant, together. *)
Lemma train_client_run c_id g p :
  exists p1 t1,
    train_client c_id
      (g, p <| client ::= (fun c => c <| train_f1 ::= (fun l => l ++ [0%Q]) |>) |>)
    = ((g, p1), t1, Ok tt) /\ epoch_loop train c_id p p1 t1.
Proof.
  set (p0 := p <| client ::= (fun c => c <| train_f1 ::= (fun l => l ++ [0%Q]) |>) |>
               <| client ::= (fun c => c <| iterator := O |>) |>).
  destruct (iterations_run train c_id (num_iterations (client p)) g p0
              (train_f1 (client p)) 0%Q eq_refl)
    as (p1 & obs & Hrun & Hlen & H1 & H2 & H3 & H4).
  exists p1; eexists; split.
  - unfold train_client, bind at 1 2, on_client, modify, the_client, gets.
    cbn [fst snd app]; fold p0.
    change (num_iterations (client p0)) with (num_iterations (client p)).
    rewrite Hrun; reflexivity.
  - exists obs; repeat split; assumption.
Qed.

Lemma test_client_run c_id g p :
  exists p1 t1,
    test_client c_id
      (g, p <| client ::= (fun c => c <| test_f1 ::= (fun l => l ++ [0%Q]) |>) |>
            <| client ::= (fun c => c <| pred := [] |>) |>
            <| client ::= (fun c => c <| y := [] |>) |>)
    = ((g, p1), t1, Ok tt) /\ epoch_loop test c_id p p1 t1.
Proof.
  set (p0 := p <| client ::= (fun c => c <| test_f1 ::= (fun l => l ++ [0%Q]) |>) |>
               <| client ::= (fun c => c <| pred := [] |>) |>
               <| client ::= (fun c => c <| y := [] |>) |>
               <| client ::= (fun c => c <| num_test_iterations := test_DataLoader c |>) |>
               <| client ::= (fun c => c <| test_iterator := O |>) |>).
  destruct (iterations_run test c_id (test_DataLoader (client p)) g p0
              (test_f1 (client p)) 0%Q eq_refl)
    as (p1 & obs & Hrun & Hlen & H1 & H2 & H3 & H4).
  exists p1; eexists; split.
  - unfold test_client, bind at 1 2 3, on_client, modify, the_client, gets.
    cbn [fst snd app]; fold p0.
    change (num_test_iterations (client p0)) with (test_DataLoader (client p)).
    rewrite Hrun; reflexivity.
  - exists obs; repeat split; assumption.
Qed.

End Iterations.

Section Epochs.
Context {T : Torch} {C : Collaborators}.
Hypothesis HF : metrics_frame.

Lemma parts_bind_ok {S A B} (m : M S A) (k : A -> M S B) s s1 t1 a :
  m s = (s1, t1, Ok a) ->
  final_state (bind m k) s = final_state (k a) s1 /\
  trace (bind m k) s = t1 ++ trace (k a) s1 /\
  outcome (bind m k) s = outcome (k a) s1.
Proof.
  intros H; destruct (run_parts _ _ _ _ _ H) as (E1 & E2 & E3).
  now rewrite final_state_bind, trace_bind, outcome_bind, E1, E2, E3.
Qed.

Lemma create_iters_run m tr :
  create_iters m tr
  = ({| self := self tr;
        participants :=
          map (fun x =>
                 (fst x,
                  match m with
                  | train => (snd x) <| client ::=
                               (fun c => c <| train_f1 ::= (fun l => l ++ [0%Q]) |>) |>
                  | test => (snd x) <| client ::=
                              (fun c => c <| test_f1 ::= (fun l => l ++ [0%Q]) |>) |>
                  end)) (participants tr) |},
     [], Ok (map (fun p => (fst p, O)) (participants tr))).
Proof.
  unfold create_iters, bind at 1 2, get.
  rewrite (for_clients_pure
             (fun _ p => match m with
                         | train => p <| client ::=
                                      (fun c => c <| train_f1 ::= (fun l => l ++ [0%Q]) |>) |>
                         | test => p <| client ::=
                                     (fun c => c <| test_f1 ::= (fun l => l ++ [0%Q]) |>) |>
                         end)).
  - reflexivity.
  - intros c_id g p; destruct m; reflexivity.
Qed.

(** A training epoch up to its last iteration: [t] holds the events of
    the iterations, and the epoch goes on with the metrics and the
    merge. *)
Lemma train_one_epoch_loop epoch tr :
  exists ps2 t,
    let rest := train_metrics ;; merge_unless_pooling epoch in
    let tr2 := {| self := (self tr) <| overall_f1_train ::= (fun l => l ++ [0%Q]) |>;
                  participants := ps2 |} in
    runs (epoch_loop train) (participants tr) ps2 t /\
    final_state (train_one_epoch epoch) tr = final_state rest tr2 /\
    trace (train_one_epoch epoch) tr
    = Print (msg_training epoch) :: t ++ trace rest tr2 /\
    outcome (train_one_epoch epoch) tr = outcome rest tr2.
Proof.
  set (g2 := (self tr) <| overall_f1_train ::= (fun l => l ++ [0%Q]) |>).
  destruct (fold_participants_runs (epoch_loop train)
              (fun _ p => p <| client ::=
                            (fun c => c <| train_f1 ::= (fun l => l ++ [0%Q]) |>) |>)
              (fun c_id (_ : unit) => train_client c_id)
              (participants tr) tt g2) as (ps2 & t & Hloop & Hruns).
  { intros c_id p _; apply train_client_run, HF. }
  exists ps2, t; cbv zeta; split; [exact Hruns|].
  unfold train_one_epoch.
  destruct (parts_bind_ok (emit (Print (msg_training epoch)))
              (fun _ => num_iters <- create_iters train ;;
                        self_do (fun g => g <| overall_f1_train ::= (fun l => l ++ [0%Q]) |>) ;;
                        for_clients train_client ;;
                        train_metrics ;; merge_unless_pooling epoch)
              tr tr [Print (msg_training epoch)] tt eq_refl) as (E1 & E2 & E3).
  rewrite E1, E2, E3; clear E1 E2 E3.
  destruct (parts_bind_ok (create_iters train)
              (fun _ => self_do (fun g => g <| overall_f1_train ::= (fun l => l ++ [0%Q]) |>) ;;
                        for_clients train_client ;;
                        train_metrics ;; merge_unless_pooling epoch)
              tr _ _ _ (create_iters_run train tr)) as (E1 & E2 & E3).
  rewrite E1, E2, E3; clear E1 E2 E3.
  set (tr1 := {| self := self tr; participants := _ |}).
  destruct (parts_bind_ok
              (self_do (fun g => g <| overall_f1_train ::= (fun l => l ++ [0%Q]) |>))
              (fun _ => for_clients train_client ;;
                        train_metrics ;; merge_unless_pooling epoch)
              tr1 _ [] tt eq_refl) as (E1 & E2 & E3).
  rewrite E1, E2, E3; clear E1 E2 E3.
  assert (Hfor : for_clients train_client
                   (tr1 <| self ::= (fun g => g <| overall_f1_train ::= (fun l => l ++ [0%Q]) |>) |>)
                 = ({| self := g2; participants := ps2 |}, t, Ok tt)).
  { transitivity
      (let '((g, ps), t', r) :=
         fold_participants (fun c_id (_ : unit) => train_client c_id)
           (map (fun x => (fst x,
                           (snd x) <| client ::=
                             (fun c => c <| train_f1 ::= (fun l => l ++ [0%Q]) |>) |>))
                (participants tr)) tt g2 in
       ({| self := g; participants := ps |}, t', r));
      [reflexivity | rewrite Hloop; reflexivity]. }
  destruct (parts_bind_ok (for_clients train_client)
              (fun _ => train_metrics ;; merge_unless_pooling epoch)
              _ _ _ _ Hfor) as (E1 & E2 & E3).
  rewrite E1, E2, E3; cbn [app]; auto.
Qed.

Lemma server_calls_off_key c m md c' obs :
  c' <> c -> filter (is_server_call c m) (iteration_events md c' obs) = [].
Proof.
  intros Hc; apply String.eqb_neq in Hc.
  unfold iteration_events; induction obs as [|o obs IH]; [reflexivity|].
  cbn [flat_map]; rewrite filter_app, IH, app_nil_r.
  destruct md; cbn [filter is_server_call train_iteration_events
                      test_iteration_events];
    rewrite Hc, !andb_false_r; reflexivity.
Qed.

Lemma center_optimizer_calls c obs :
  count (is_server_call c center_optimizer_step) (iteration_events train c obs)
  = List.length obs /\
  count (is_server_call c center_optimizer_zero_grad)
        (iteration_events train c obs)
  = List.length obs.
Proof.
  unfold iteration_events, count; induction obs as [|o obs [IH1 IH2]];
    [split; reflexivity|].
  cbn [flat_map]; rewrite !filter_app, !length_app, IH1, IH2.
  cbn [filter is_server_call train_iteration_events server_method_eqb andb].
  rewrite String.eqb_refl; split; reflexivity.
Qed.

Lemma train_rest_no_server_call c m epoch :
  sound (is_server_call c m) (on_trainer any_change any_change)
        (train_metrics ;; merge_unless_pooling epoch).
Proof. unfold_trainer; sound_by ltac:(intros; exact I). Qed.

(** C3, as the code has it: a training epoch calls
    [center_optimizer.step()] and [center_optimizer.zero_grad()] once in
    every iteration of every participant, whatever the personalization
    mode of the trainer and whatever has been frozen: the trainer tests no
    flag before either call. *)
Theorem center_optimizer_called_every_iteration tr epoch c_id p :
  NoDup (ids tr) -> In (c_id, p) (participants tr) ->
  let t := trace (train_one_epoch epoch) tr in
  count (is_server_call c_id center_optimizer_step) t
  = num_iterations (client p) /\
  count (is_server_call c_id center_optimizer_zero_grad) t
  = num_iterations (client p).
Proof.
  intros Hnd Hin t; subst t.
  destruct (train_one_epoch_loop epoch tr) as (ps2 & t & Hruns & _ & Ht & _).
  rewrite Ht; clear Ht.
  assert (Hcount : forall m,
            count (is_server_call c_id m)
                  (Print (msg_training epoch)
                   :: t ++ trace (train_metrics ;; merge_unless_pooling epoch)
                             {| self := (self tr) <| overall_f1_train ::=
                                                       (fun l => l ++ [0%Q]) |>;
                                participants := ps2 |})
            = count (is_server_call c_id m) t).
  { intros m; unfold count; cbn [filter is_server_call].
    rewrite filter_app, (sound_trace _ _ _ _ (train_rest_no_server_call c_id m epoch)).
    now rewrite app_nil_r. }
  rewrite !Hcount.
  assert (Hkey : forall m,
            exists obs, List.length obs = num_iterations (client p) /\
                        filter (is_server_call c_id m) t
                        = filter (is_server_call c_id m)
                                 (iteration_events train c_id obs)).
  { intros m.
    destruct (runs_at_key (filter (is_server_call c_id m)) (epoch_loop train)
                (participants tr) ps2 t c_id p)
      as (p1 & t1 & _ & (obs & -> & Hlen & _) & E); auto.
    - intros a b; apply filter_app.
    - intros c' p' p1 t1 Hc (obs & -> & _).
      now apply server_calls_off_key.
    - exists obs; auto. }
  unfold count.
  destruct (Hkey center_optimizer_step) as (obs & Hlen & ->).
  destruct (Hkey center_optimizer_zero_grad) as (obs' & Hlen' & ->).
  destruct (center_optimizer_calls c_id obs) as [E1 _].
  destruct (center_optimizer_calls c_id obs') as [_ E2].
  unfold count in E1, E2; rewrite E1, E2; auto.
Qed.

End Epochs.

(** ** A testing epoch *)
Section Testing.
Context {T : Torch} {C : Collaborators}.
Hypothesis HFwd : forward_frame.

Lemma evaluation_call_same_models m p :
  evaluation_method m = true ->
  same_models p (p <| client ::= client_call m |>).
Proof.
  intros Hm; destruct (proj1 HFwd m (client p) Hm) as (H1 & H2 & H3).
  unfold same_models; cbn; repeat split; assumption.
Qed.

Lemma evaluation_server_call_same_models m p :
  evaluation_server_method m = true ->
  same_models p (p <| sc_client ::= server_call m |>).
Proof.
  intros Hm; destruct (proj2 HFwd m (sc_client p) Hm) as (H1 & H2 & H3).
  unfold same_models; cbn; repeat split; assumption.
Qed.

(** A testing epoch does nothing that updates, and keeps the six models
    and optimizers of every participant, whether it returns or raises. *)
Lemma test_one_epoch_updates_nothing epoch :
  sound is_update_event (on_trainer any_change same_models)
        (test_one_epoch epoch).
Proof.
  unfold_trainer.
  sound_by ltac:(first
    [ intros; exact I
    | intros p; apply evaluation_call_same_models; reflexivity
    | intros p; apply evaluation_server_call_same_models; reflexivity
    | intros p; unfold same_models; cbn; repeat split; reflexivity ]).
Qed.

End Testing.

(** ** Entering personalization *)
Section Personalization.
Context {T : Torch} {C : Collaborators}.

Lemma load_segment_run c_id s g p m :
  loaded_model g c_id s = Some m ->
  exists sd,
    load_segment c_id s (g, p)
    = ((g, p), [TorchLoad c_id s; LoadStateDict c_id s sd], Ok m).
Proof.
  unfold loaded_model, load_segment; intros H; mrun.
  destruct (saved_models g c_id s) as [sd|]; [|discriminate].
  exists sd.
  destruct (load_state_dict sd (new_model s)) as [m' [[]|e]]; [|discriminate].
  injection H as ->; reflexivity.
Qed.

Lemma load_best_model_run c_id g p mf mcf mcb mb :
  loaded_model g c_id front = Some mf ->
  loaded_model g c_id center_front = Some mcf ->
  loaded_model g c_id center_back = Some mcb ->
  loaded_model g c_id back = Some mb ->
  exists t,
    load_best_model c_id (g, p)
    = ((g, p <| client ::= (fun c => c <| front_model := mf |>) |>
             <| client ::= (fun c => c <| back_model := mb |>) |>
             <| sc_client ::= (fun sc => sc <| center_front_model := mcf |>) |>
             <| sc_client ::= (fun sc => sc <| center_back_model := mcb |>) |>),
       t, Ok tt).
Proof.
  intros H1 H2 H3 H4.
  destruct (load_segment_run c_id front g p mf H1) as (sd1 & E1).
  destruct (load_segment_run c_id center_front g p mcf H2) as (sd2 & E2).
  destruct (load_segment_run c_id center_back g p mcb H3) as (sd3 & E3).
  destruct (load_segment_run c_id back g p mb H4) as (sd4 & E4).
  eexists; unfold load_best_model, bind at 1; rewrite E1.
  unfold bind at 1; rewrite E2.
  unfold bind at 1; rewrite E3.
  unfold bind at 1; rewrite E4.
  reflexivity.
Qed.

Lemma load_and_freeze_sound P epoch :
  (forall c s sd, P (LoadStateDict c s sd) = false) ->
  (forall c s, P (TorchLoad c s) = false) ->
  (forall c e, P (Freeze c e) = false) ->
  P (Print (msg_personalizing epoch)) = false ->
  sound P (on_trainer any_change any_change)
        (load_best_models ;; personalize epoch).
Proof.
  intros H1 H2 H3 H4; unfold_trainer.
  repeat first
    [ apply sound_emit; [typeclasses eauto | solve [auto]]
    | sound_step ltac:(intros; exact I) ].
Qed.

(** C10: at the epoch where personalization triggers, with the four
    checkpoints of every participant on disk and loading, every
    participant's four models are replaced by fresh models into which the
    saved states are loaded, whatever the models in memory were; only then
    is [center_back] frozen.  Every load precedes every freeze. *)
Theorem personalization_reloads_models tr epoch :
  args_personalize (args (self tr)) = true ->
  epoch = p_epoch (args (self tr)) ->
  (forall c_id p, In (c_id, p) (participants tr) ->
     forall s, exists m, loaded_model (self tr) c_id s = Some m) ->
  outcome (enter_personalization epoch) tr = Ok tt /\
  Forall2 (fun x y => fst x = fst y
                      /\ personalized (self tr) epoch (fst x) (snd y))
          (participants tr)
          (participants (final_state (enter_personalization epoch) tr)) /\
  exists t_load t_freeze,
    trace (enter_personalization epoch) tr
    = t_load ++ Print (msg_personalizing epoch) :: t_freeze /\
    filter is_freeze t_load = [] /\ filter is_load t_freeze = [].
Proof.
  intros Ha -> Hfiles.
  set (epoch := p_epoch (args (self tr))).
  set (g1 := (self tr) <| personalization_mode := true |>).
  set (tr1 := tr <| self ::= (fun g => g <| personalization_mode := true |>) |>).
  (* the loads *)
  destruct (for_clients_runs
              (fun c_id p p1 t1 =>
                 filter is_freeze t1 = [] /\
                 exists mf mcf mcb mb,
                   loaded_model (self tr) c_id front = Some mf /\
                   loaded_model (self tr) c_id center_front = Some mcf /\
                   loaded_model (self tr) c_id center_back = Some mcb /\
                   loaded_model (self tr) c_id back = Some mb /\
                   p1 = p <| client ::= (fun c => c <| front_model := mf |>) |>
                          <| client ::= (fun c => c <| back_model := mb |>) |>
                          <| sc_client ::= (fun sc => sc <| center_front_model := mcf |>) |>
                          <| sc_client ::= (fun sc => sc <| center_back_model := mcb |>) |>)
              load_best_model tr1) as (ps1 & t1 & Hload & Hr1).
  { intros c_id p Hin.
    destruct (Hfiles c_id p Hin front) as (mf & H1).
    destruct (Hfiles c_id p Hin center_front) as (mcf & H2).
    destruct (Hfiles c_id p Hin center_back) as (mcb & H3).
    destruct (Hfiles c_id p Hin back) as (mb & H4).
    destruct (load_best_model_run c_id (self tr1) p mf mcf mcb mb H1 H2 H3 H4)
      as (t & Hrun).
    eexists; exists t; split; [exact Hrun|]; split.
    - assert (Hs : sound is_freeze (on_pair any_change any_change)
                     (load_best_model c_id)).
      { unfold_trainer; sound_by ltac:(intros; exact I). }
      pose proof (sound_trace _ _ _ (self tr1, p) Hs) as Ht.
      unfold trace in Ht; rewrite Hrun in Ht; exact Ht.
    - exists mf, mcf, mcb, mb; auto. }
  (* the freezes *)
  set (tr2 := {| self := self tr1; participants := ps1 |}) in *.
  destruct (for_clients_runs
              (fun c_id p p1 t1 =>
                 t1 = [Freeze c_id epoch] /\
                 p1 = p <| sc_client ::=
                            (fun sc => sc <| center_back_model ::=
                                              freeze epoch (pretrained (args (self tr))) |>) |>)
              (freeze_center_back epoch) tr2) as (ps2 & t2 & Hfreeze & Hr2).
  { intros c_id p _; do 2 eexists; split; [reflexivity | split; reflexivity]. }
  assert (Hrun : enter_personalization epoch tr
                 = ({| self := self tr1; participants := ps2 |},
                    t1 ++ Print (msg_personalizing epoch) :: t2, Ok tt)).
  { unfold enter_personalization, bind at 1, get.
    rewrite Ha; subst epoch; rewrite Z.eqb_refl; cbn [when].
    unfold load_best_models, bind at 1, self_do, modify.
    fold tr1; unfold bind at 1; rewrite Hload.
    unfold personalize, bind at 1, emit.
    fold tr2; rewrite Hfreeze; reflexivity. }
  destruct (run_parts _ _ _ _ _ Hrun) as (E1 & E2 & E3).
  rewrite E1, E2, E3; cbn [participants].
  split; [reflexivity|]; split.
  - change (participants tr1) with (participants tr) in Hr1.
    change (participants tr2) with ps1 in Hr2.
    clear - Hr1 Hr2.
    generalize dependent (participants tr); intros ps0 Hr1.
    revert ps2 t2 Hr2.
    induction Hr1 as [|c p p1 ta ps ps1 t [_ (mf & mcf & mcb & mb & H1 & H2 & H3 & H4 & ->)] _ IH];
      intros ps2 t2 Hr2; inversion Hr2 as [|? ? p2 tb ? ps2' t' [_ ->] Hr2']; subst;
      constructor; eauto.
    split; [reflexivity|]; unfold personalized; cbn.
    repeat split; try assumption.
    exists mcb; split; [assumption | reflexivity].
  - exists t1, t2; split; [reflexivity|]; split.
    + clear - Hr1; induction Hr1 as [|? ? ? ? ? ? ? [H _] _ IH]; [reflexivity|].
      now rewrite filter_app, H, IH.
    + clear - Hr2; induction Hr2 as [|? ? ? ? ? ? ? [-> _] _ IH]; [reflexivity|].
      exact IH.
Qed.

End Personalization.

(** ** The refresh schedule of the key-value store *)
Section Schedule.
Context {T : Torch} {C : Collaborators}.

Lemma same_config_configured a tr tr' :
  on_trainer same_config any_change tr tr' ->
  configured a tr -> configured a tr'.
Proof.
  intros [(Ha & Hr & _) _] [H1 H2]; split; congruence.
Qed.

Lemma follows_sound {A} a (m : M Trainer A) tr :
  sound is_schedule_event (on_trainer same_config any_change) m ->
  configured a tr -> follows a m [] tr.
Proof.
  intros Hs Hc; destruct (Hs tr) as [Ht Hf]; split.
  - eapply same_config_configured; eauto.
  - exists []; rewrite Ht; auto.
Qed.

Lemma follows_bind {A B} a (m : M Trainer A) (k : A -> M Trainer B) e1 e2 tr :
  follows a m e1 tr ->
  (forall x tr1, configured a tr1 -> follows a (k x) e2 tr1) ->
  follows a (bind m k) (e1 ++ e2) tr.
Proof.
  intros [Hc (r1 & H1 & Hok1)] Hk.
  unfold follows; rewrite trace_bind, final_state_bind, outcome_bind.
  destruct (outcome m tr) as [x|e].
  - destruct (Hk x _ Hc) as [Hc2 (r2 & H2 & Hok2)].
    rewrite (Hok1 eq_refl), app_nil_r in H1.
    split; [exact Hc2|].
    exists r2; rewrite filter_app, <- app_assoc, H1, H2; auto.
  - split; [exact Hc|].
    exists (r1 ++ e2); rewrite app_nil_r, app_assoc, H1.
    split; [reflexivity | discriminate].
Qed.

Lemma follows_after {A B} a (m : M Trainer A) (k : A -> M Trainer B) e tr :
  sound is_schedule_event (on_trainer same_config any_change) m ->
  configured a tr ->
  (forall x tr1, configured a tr1 -> follows a (k x) e tr1) ->
  follows a (bind m k) e tr.
Proof.
  intros Hs Hc Hk; change e with ([] ++ e).
  apply follows_bind; [apply follows_sound; assumption | exact Hk].
Qed.

Lemma follows_before {A B} a (m : M Trainer A) (k : A -> M Trainer B) e tr :
  follows a m e tr ->
  (forall x, sound is_schedule_event (on_trainer same_config any_change) (k x)) ->
  follows a (bind m k) e tr.
Proof.
  intros Hm Hk; rewrite <- (app_nil_r e).
  apply follows_bind; [exact Hm|].
  intros x tr1 Hc1; apply follows_sound; [apply Hk | exact Hc1].
Qed.

Lemma follows_mark a ev tr :
  is_schedule_event ev = true -> configured a tr ->
  follows a (emit ev) [ev] tr.
Proof.
  intros Hev Hc; split; [exact Hc|].
  exists []; unfold trace, emit; cbn; rewrite Hev; auto.
Qed.

(** Always, returning or not: the schedule events of [m] are [expected]. *)
Lemma follows_exactly {A} a (m : M Trainer A) expected tr :
  configured a (final_state m tr) ->
  filter is_schedule_event (trace m tr) = expected ->
  follows a m expected tr.
Proof.
  intros Hc Ht; split; [exact Hc|].
  exists []; rewrite Ht, app_nil_r; auto.
Qed.

Lemma follows_for_each {X} a (xs : list X) (body : X -> M Trainer unit) f :
  (forall x tr, configured a tr -> follows a (body x) (f x) tr) ->
  forall tr, configured a tr ->
  follows a (for_each xs body) (flat_map f xs) tr.
Proof.
  intros Hb; induction xs as [|x xs IH]; intros tr Hc; cbn [for_each flat_map].
  - apply follows_sound; [apply sound_ret; typeclasses eauto | exact Hc].
  - apply follows_bind; [apply Hb; exact Hc | intros _; exact IH].
Qed.

Ltac config_side :=
  first [ intros; exact I
        | intros ?; unfold same_config; cbn; repeat split; reflexivity ].

Lemma sound_schedule_kv m :
  sound is_schedule_event (on_trainer same_config any_change)
        (store_forward_mappings_kv m).
Proof. unfold_trainer; sound_by config_side. Qed.

Lemma sound_schedule_clear_cache :
  sound is_schedule_event (on_trainer same_config any_change) clear_cache.
Proof. unfold_trainer; sound_by config_side. Qed.

Lemma sound_schedule_personalization epoch :
  sound is_schedule_event (on_trainer same_config any_change)
        (enter_personalization epoch).
Proof. unfold_trainer; sound_by config_side. Qed.

Lemma sound_schedule_epoch_rest epoch :
  sound is_schedule_event (on_trainer same_config any_change)
        (set_training_all true ;;
         train_one_epoch epoch ;;
         clear_cache ;;
         set_training_all false ;;
         test_one_epoch epoch ;;
         clear_cache ;;
         inference).
Proof. unfold_trainer; sound_by config_side. Qed.

Lemma sound_schedule_save_dir :
  sound is_schedule_event (on_trainer same_config any_change) _create_save_dir.
Proof. unfold _create_save_dir; sound_by config_side. Qed.

Lemma bind_get_run {A} (k : Trainer -> M Trainer A) tr :
  bind get k tr = k tr tr.
Proof. unfold bind, get; now destruct (k tr tr) as [[? ?] ?]. Qed.

Lemma bind_lift_ok_run {A B} (v : A) (k : A -> M Trainer B) tr :
  bind (lift_result (Ok v)) k tr = k v tr.
Proof. unfold bind, lift_result; now destruct (k v tr) as [[? ?] ?]. Qed.

Lemma bind_emit_run {A} ev (k : unit -> M Trainer A) tr :
  bind (emit ev) k tr
  = (final_state (k tt) tr, ev :: trace (k tt) tr, outcome (k tt) tr).
Proof.
  unfold bind, emit, final_state, trace, outcome.
  now destruct (k tt tr) as [[? ?] ?].
Qed.

Lemma follows_ext {A} a (m m' : M Trainer A) expected tr :
  m tr = m' tr -> follows a m' expected tr -> follows a m expected tr.
Proof. unfold follows, final_state, trace, outcome; now intros ->. Qed.

(** A population shows its mark once, whether it completes or not. *)
Lemma populate_marks_once a tr :
  configured a tr ->
  configured a (final_state populate_key_value_store tr) /\
  filter is_schedule_event (trace populate_key_value_store tr)
  = [populate_mark].
Proof.
  intros Hc.
  assert (Hs : sound is_schedule_event (on_trainer same_config any_change)
                 (store_forward_mappings_kv train ;;
                  emit (Print msg_generating_test) ;;
                  store_forward_mappings_kv test)).
  { unfold_trainer; sound_by config_side. }
  destruct (Hs tr) as [Ht Hf].
  unfold populate_key_value_store, final_state at 1, trace at 1.
  rewrite bind_emit_run; cbn [fst snd filter is_schedule_event].
  split.
  - eapply same_config_configured; [exact Hf | exact Hc].
  - rewrite Ht; reflexivity.
Qed.

Lemma populate_then_clear a tr :
  configured a tr ->
  follows a (populate_key_value_store ;; clear_cache) [populate_mark] tr.
Proof.
  intros Hc; destruct (populate_marks_once a tr Hc) as [Hc1 Ht].
  change [populate_mark] with ([populate_mark] ++ []).
  apply follows_bind.
  - apply follows_exactly; assumption.
  - intros _ tr1 Hc'; apply follows_sound;
      [apply sound_schedule_clear_cache | exact Hc'].
Qed.

Lemma refresh_follows a epoch tr :
  configured a tr ->
  follows a (refresh_key_value_store epoch)
          (if refresh_due (args_kv_refresh_rate a) epoch
           then [populate_mark] else []) tr.
Proof.
  intros Hc; pose proof Hc as [Ha Hr].
  unfold refresh_key_value_store, refresh_due.
  eapply follows_ext; [apply bind_get_run|].
  rewrite Ha, Hr; unfold py_mod.
  destruct (Z.eqb_spec (args_kv_refresh_rate a) 0) as [E|E]; cbn [negb when andb].
  - apply follows_sound; [apply sound_ret; typeclasses eauto | exact Hc].
  - eapply follows_ext; [apply bind_lift_ok_run|].
    destruct (epoch mod args_kv_refresh_rate a =? 0)%Z; cbn [when].
    + change [populate_mark] with ([] ++ [populate_mark]).
      apply follows_bind.
      * apply follows_sound; [|exact Hc].
        apply sound_emit; [typeclasses eauto | reflexivity].
      * intros _ tr1 Hc1; apply populate_then_clear; exact Hc1.
    + apply follows_sound; [apply sound_ret; typeclasses eauto | exact Hc].
Qed.

Lemma fit_epoch_follows a epoch tr :
  configured a tr ->
  follows a (fit_epoch epoch)
          ((if refresh_due (args_kv_refresh_rate a) epoch
            then [populate_mark] else []) ++ [epoch_mark epoch]) tr.
Proof.
  intros Hc; unfold fit_epoch.
  apply follows_bind; [apply refresh_follows; exact Hc|].
  intros _ tr1 Hc1.
  change [epoch_mark epoch] with ([] ++ [epoch_mark epoch] ++ []).
  apply follows_bind.
  { apply follows_sound; [apply sound_schedule_personalization | exact Hc1]. }
  intros _ tr2 Hc2.
  apply follows_bind; [apply follows_mark; [reflexivity | exact Hc2] |].
  intros _ tr3 Hc3.
  apply follows_sound; [apply sound_schedule_epoch_rest | exact Hc3].
Qed.

Lemma expected_schedule_unfold a :
  expected_schedule a
  = (if (args_kv_refresh_rate a =? 0)%Z then [populate_mark] else [])
    ++ flat_map (fun epoch =>
                   (if refresh_due (args_kv_refresh_rate a) epoch
                    then [populate_mark] else []) ++ [epoch_mark epoch])
                (py_range (epochs a)).
Proof.
  unfold expected_schedule, refresh_due.
  destruct (args_kv_refresh_rate a =? 0)%Z; cbn [negb andb app]; [|reflexivity].
  f_equal; induction (py_range (epochs a)) as [|e l IH]; cbn; congruence.
Qed.

(** The marks of the populations and of the epochs in the run of [fit]
    are the expected schedule (a prefix of it if the run aborts). *)
Lemma fit_follows_schedule tr :
  kv_refresh_rate (self tr) = args_kv_refresh_rate (args (self tr)) ->
  exists rest,
    filter is_schedule_event (trace fit tr) ++ rest
    = expected_schedule (args (self tr)) /\
    (outcome fit tr = Ok tt -> rest = []).
Proof.
  intros Hr.
  set (a := args (self tr)).
  assert (Hc : configured a tr) by (split; [reflexivity | exact Hr]).
  assert (H : follows a fit (expected_schedule a) tr).
  { rewrite expected_schedule_unfold; unfold fit.
    eapply follows_ext; [apply bind_get_run|]; fold a.
    apply follows_after; [|exact Hc|].
    { apply sound_when; [typeclasses eauto|].
      apply sound_emit; [typeclasses eauto | reflexivity]. }
    intros _ tr1 Hc1.
    apply follows_after; [apply sound_schedule_save_dir | exact Hc1 |].
    intros _ tr2 Hc2; apply follows_bind.
    { destruct (args_kv_refresh_rate a =? 0)%Z; cbn [when].
      - apply populate_then_clear; exact Hc2.
      - apply follows_sound; [apply sound_ret; typeclasses eauto | exact Hc2]. }
    intros _ tr3 Hc3; apply follows_after; [|exact Hc3|].
    { apply sound_emit; [typeclasses eauto | reflexivity]. }
    intros _ tr4 Hc4; apply follows_before.
    { apply follows_for_each; [|exact Hc4].
      intros e tr5 Hc5; apply fit_epoch_follows; exact Hc5. }
    intros _; sound_by config_side. }
  destruct H as [_ (rest & H1 & H2)].
  exists rest; split; [exact H1|].
  intros Hok; apply H2; rewrite Hok; reflexivity.
Qed.

End Schedule.

#[export] Instance same_loaders_preorder {T : Torch} : PreOrder same_loaders.
Proof.
  split; unfold same_loaders.
  - intros p; split; reflexivity.
  - intros a b c [H1 H2] [H3 H4]; split; congruence.
Qed.

(** ** Every scheduled population is a full one *)
Section Populations.
Context {T : Torch} {C : Collaborators}.
Hypothesis HF : metrics_frame.
Hypothesis HL : loaders_frame.

Lemma call_client_same_loaders m p :
  same_loaders p (p <| client ::= client_call m |>).
Proof.
  unfold same_loaders; cbn; split; [apply HL | apply HF].
Qed.

Ltac loaders_side :=
  first [ intros; exact I
        | intros ?; apply call_client_same_loaders
        | intros ?; unfold same_loaders; cbn; split; reflexivity
        | intros ?; unfold same_config; cbn; repeat split; reflexivity ].

Lemma populate_keeps_loaders :
  sound no_event (on_trainer same_config same_loaders) populate_key_value_store.
Proof. unfold_trainer; sound_by loaders_side. Qed.

Lemma populate_tail_no_mark :
  sound is_populate_mark (on_trainer same_config same_loaders)
        (store_forward_mappings_kv train ;;
         emit (Print msg_generating_test) ;;
         store_forward_mappings_kv test).
Proof. unfold_trainer; sound_by loaders_side. Qed.

Lemma epoch_rest_no_mark epoch :
  sound is_populate_mark (on_trainer same_config same_loaders)
        (enter_personalization epoch ;;
         emit (WandbLog k_epoch (inject_Z epoch)) ;;
         set_training_all true ;;
         train_one_epoch epoch ;;
         clear_cache ;;
         set_training_all false ;;
         test_one_epoch epoch ;;
         clear_cache ;;
         inference).
Proof. unfold_trainer; sound_by loaders_side. Qed.

(** The events of a population depend on the configuration, the ids and
    the loaders only. *)
Lemma populate_events_same tr tr' :
  on_trainer same_config same_loaders tr tr' ->
  populate_events tr' = populate_events tr.
Proof.
  intros [(Ha & _) Hps]; unfold populate_events, kv_train_passes.
  rewrite Ha; f_equal.
  assert (H1 : forall (f : mode) (n : Participant -> nat),
             (forall p p', same_loaders p p' -> n p' = n p) ->
             flat_map (fun x => kv_events f (fst x) (n (snd x))) (participants tr')
             = flat_map (fun x => kv_events f (fst x) (n (snd x))) (participants tr)).
  { intros f n Hn.
    induction Hps as [|x y l l' [Hk Hl] _ IH]; [reflexivity|].
    cbn [flat_map]; rewrite IH, <- Hk, (Hn _ _ Hl); reflexivity. }
  rewrite (H1 train (fun p => Z.to_nat (Z.of_nat (train_DataLoader (client p))
                                        * kv_factor (args (self tr))))),
          (H1 test (fun p => test_DataLoader (client p))).
  - reflexivity.
  - intros p p' [_ H]; exact H.
  - intros p p' [H _]; now rewrite H.
Qed.

Lemma populations_complete_no_mark tr t :
  filter is_populate_mark t = [] -> populations_complete tr t.
Proof.
  intros H t1 t2 ->; rewrite filter_app in H; cbn in H.
  apply app_eq_nil in H; destruct H as [_ H]; discriminate H.
Qed.

Lemma populations_complete_app tr u v :
  populations_complete tr u -> populations_complete tr v ->
  populations_complete tr (u ++ v).
Proof.
  intros Hu Hv t1 t2 E.
  apply app_eq_app in E; destruct E as (l & [[E1 E2]|[E1 E2]]).
  - destruct l as [|x l].
    + cbn in E2; rewrite app_nil_r in E1; subst.
      apply (Hv [] t2); reflexivity.
    + cbn in E2; injection E2 as <- ->.
      destruct (Hu t1 l E1) as (t3 & E3).
      exists (t3 ++ v); rewrite app_assoc, <- E3; reflexivity.
  - apply (Hv l t2); exact E2.
Qed.

(** A population, from a state of the run, is complete. *)
Lemma populate_in_full tr0 : populates_in_full tr0 populate_key_value_store.
Proof.
  intros tr Hr; split.
  - destruct (populate_key_value_store_run HF tr) as (ps2 & Hrun & _).
    destruct (run_parts _ _ _ _ _ Hrun) as (_ & Ht & _).
    rewrite Ht, (populate_events_same tr0 tr Hr).
    assert (Hpe : populate_events tr0
                  = populate_mark
                    :: trace (store_forward_mappings_kv train ;;
                              emit (Print msg_generating_test) ;;
                              store_forward_mappings_kv test) tr0).
    { destruct (populate_key_value_store_run HF tr0) as (ps0 & Hrun0 & _).
      destruct (run_parts _ _ _ _ _ Hrun0) as (_ & Ht0 & _).
      rewrite <- Ht0; unfold populate_key_value_store, trace at 1.
      rewrite bind_emit_run; reflexivity. }
    pose proof (sound_trace _ _ _ tr0 populate_tail_no_mark) as Hno.
    intros t1 t2 E; destruct t1 as [|x t1].
    + exists []; rewrite app_nil_r; symmetry; exact E.
    + exfalso; rewrite Hpe in E; cbn in E; injection E as _ E.
      rewrite E, filter_app in Hno; cbn in Hno.
      apply app_eq_nil in Hno; destruct Hno as [_ Hno]; discriminate Hno.
  - etransitivity; [exact Hr|].
    apply (sound_state _ _ _ tr populate_keeps_loaders).
Qed.

Lemma no_mark_in_full {A} tr0 (m : M Trainer A) :
  sound is_populate_mark (on_trainer same_config same_loaders) m ->
  populates_in_full tr0 m.
Proof.
  intros Hs tr Hr; destruct (Hs tr) as [Ht Hf]; split.
  - apply populations_complete_no_mark, Ht.
  - etransitivity; eassumption.
Qed.

Lemma bind_in_full {A B} tr0 (m : M Trainer A) (k : A -> M Trainer B) :
  populates_in_full tr0 m -> (forall x, populates_in_full tr0 (k x)) ->
  populates_in_full tr0 (bind m k).
Proof.
  intros Hm Hk tr Hr; destruct (Hm tr Hr) as [Ht Hf].
  rewrite trace_bind, final_state_bind.
  destruct (outcome m tr) as [x|e].
  - destruct (Hk x _ Hf) as [Ht2 Hf2]; split; [|exact Hf2].
    apply populations_complete_app; assumption.
  - rewrite app_nil_r; split; assumption.
Qed.

Lemma for_each_in_full {X} tr0 (xs : list X) (body : X -> M Trainer unit) :
  (forall x, populates_in_full tr0 (body x)) ->
  populates_in_full tr0 (for_each xs body).
Proof.
  intros Hb; induction xs as [|x xs IH]; cbn [for_each].
  - apply no_mark_in_full, sound_ret; typeclasses eauto.
  - apply bind_in_full; [apply Hb | intros _; exact IH].
Qed.

Ltac in_full_step :=
  lazymatch goal with
  | |- populates_in_full _ populate_key_value_store => apply populate_in_full
  | |- populates_in_full _ (bind populate_key_value_store _) =>
      apply bind_in_full; [apply populate_in_full | intros ?]
  | |- populates_in_full _ (bind (when _ _) _) =>
      apply bind_in_full; [| intros ?]
  | |- populates_in_full _ (bind (lift_result ?r) _) =>
      apply bind_in_full;
      [apply no_mark_in_full, sound_lift_result; typeclasses eauto | intros ?]
  | |- populates_in_full _ (bind get _) =>
      apply bind_in_full;
      [apply no_mark_in_full, sound_get; typeclasses eauto | intros ?]
  | |- populates_in_full _ (bind (emit _) _) =>
      apply bind_in_full;
      [apply no_mark_in_full, sound_emit; [typeclasses eauto | reflexivity]
      | intros ?]
  | |- populates_in_full _ (when ?b _) => destruct b; cbn [when]
  | |- populates_in_full _ _ =>
      apply no_mark_in_full; unfold_trainer; sound_by loaders_side
  end.

Lemma refresh_in_full tr0 epoch :
  populates_in_full tr0 (refresh_key_value_store epoch).
Proof. unfold refresh_key_value_store; repeat in_full_step. Qed.

Lemma fit_in_full tr0 : populates_in_full tr0 fit.
Proof.
  unfold fit.
  apply bind_in_full;
    [apply no_mark_in_full, sound_get; typeclasses eauto | intros tr].
  apply bind_in_full; [repeat in_full_step | intros _].
  apply bind_in_full;
    [apply no_mark_in_full; unfold _create_save_dir; sound_by loaders_side
    | intros _].
  apply bind_in_full; [repeat in_full_step | intros _].
  apply bind_in_full;
    [apply no_mark_in_full, sound_emit; [typeclasses eauto | reflexivity]
    | intros _].
  apply bind_in_full.
  - apply for_each_in_full; intros epoch; unfold fit_epoch.
    apply bind_in_full; [apply refresh_in_full | intros _].
    apply no_mark_in_full, epoch_rest_no_mark.
  - intros _; apply no_mark_in_full; sound_by loaders_side.
Qed.

(** C4, as the code has it: the populations of the key-value store follow
    the refresh rate, and each is a full one.  Read off the run of [fit]
    the first print of each population and the [wandb.log] of each epoch:
    they are the expected schedule (a prefix of it if the run aborts).
    With a rate of zero that is one population before every epoch;
    otherwise one population at the head of each epoch of the run that is
    divisible by the rate, epoch 0 first, and at no other time, so that a
    run of no epoch is not populated at all.  Whenever a population starts
    it runs to its end: its first print is followed by all the forward
    passes of [populate_events] over the participants of the run. *)
Theorem populations_follow_refresh_rate tr :
  kv_refresh_rate (self tr) = args_kv_refresh_rate (args (self tr)) ->
  (exists rest,
     filter is_schedule_event (trace fit tr) ++ rest
     = expected_schedule (args (self tr)) /\
     (outcome fit tr = Ok tt -> rest = [])) /\
  populations_complete tr (trace fit tr).
Proof.
  intros Hr; split; [exact (fit_follows_schedule tr Hr)|].
  apply (fit_in_full tr tr); reflexivity.
Qed.

End Populations.

(** ** The F1 aggregates of an epoch *)
Section Aggregates.
Context {T : Torch} {C : Collaborators}.
Hypothesis HF : metrics_frame.

Ltac peel :=
  repeat first
    [ rewrite (frame_train_f1 HF) | rewrite (frame_test_f1 HF)
    | rewrite (frame_num_iterations HF) | rewrite (frame_test_DataLoader HF)
    | proj_step ].

Lemma train_epoch_metrics_run c_id locals g p l s ol acc :
  train_f1 (client p) = l ++ [s] -> 0 < num_iterations (client p) ->
  overall_f1_train g = ol ++ [acc] ->
  let v := tensor_div s (num_iterations (client p)) in
  exists p1 locals' g1 b f al,
    train_epoch_metrics c_id locals (g, p)
    = ((g1, p1), epoch_metrics_events train c_id v b f al, Ok locals') /\
    train_f1 (client p1) = l ++ [v] /\
    test_f1 (client p1) = test_f1 (client p) /\
    overall_f1_train g1 = ol ++ [tensor_add acc v] /\
    overall_f1_test g1 = overall_f1_test g /\
    num_clients g1 = num_clients g.
Proof.
  intros H Hk Ho v; destruct locals as [[ba fm] al].
  unfold train_epoch_metrics; mrun.
  rewrite H, update_last_snoc, (py_div_pos _ _ _ Hk); mrun.
  rewrite (py_div_pos _ _ _ Hk); mrun.
  rewrite py_index_last; mrun.
  rewrite Ho, update_last_snoc; mrun.
  destruct (main_metric_result train _) as [b f]; mrun.
  match goal with
  | |- context [py_index (train_f1 ?c) _] =>
      assert (E : train_f1 c = l ++ [v]) by (peel; reflexivity)
  end.
  rewrite E, py_index_last; mrun.
  do 6 eexists; split; [reflexivity|].
  repeat split; peel; reflexivity.
Qed.

Lemma test_epoch_metrics_run c_id locals g p l s ol acc :
  test_f1 (client p) = l ++ [s] -> 0 < test_DataLoader (client p) ->
  overall_f1_test g = ol ++ [acc] ->
  let v := tensor_div s (test_DataLoader (client p)) in
  exists p1 locals' g1 b f al,
    test_epoch_metrics c_id locals (g, p)
    = ((g1, p1), epoch_metrics_events test c_id v b f al, Ok locals') /\
    test_f1 (client p1) = l ++ [v] /\
    train_f1 (client p1) = train_f1 (client p) /\
    overall_f1_test g1 = ol ++ [tensor_add acc v] /\
    overall_f1_train g1 = overall_f1_train g /\
    num_clients g1 = num_clients g.
Proof.
  intros H Hk Ho v; destruct locals as [[ba fm] al].
  unfold test_epoch_metrics; mrun.
  rewrite H, update_last_snoc, (py_div_pos _ _ _ Hk); mrun.
  rewrite (py_div_pos _ _ _ Hk); mrun.
  destruct (main_metric_result test _) as [b f]; mrun.
  match goal with
  | |- context [py_index (test_f1 ?c) _] =>
      assert (E : test_f1 c = l ++ [v]) by (peel; reflexivity)
  end.
  rewrite E, py_index_last; mrun.
  rewrite Ho, update_last_snoc; mrun.
  do 6 eexists; split; [reflexivity|].
  repeat split; peel; reflexivity.
Qed.

Lemma epoch_metrics_run m c_id locals g p l s ol acc :
  f1_list m p = l ++ [s] -> 0 < iterations m p ->
  overall_f1 m g = ol ++ [acc] ->
  exists p1 locals' g1 t1,
    epoch_metrics m c_id locals (g, p) = ((g1, p1), t1, Ok locals') /\
    metrics_post m c_id p p1 t1 /\
    overall_f1 m g1
    = ol ++ [tensor_add acc (tensor_div s (iterations m p))] /\
    overall_f1 (other_mode m) g1 = overall_f1 (other_mode m) g /\
    num_clients g1 = num_clients g.
Proof.
  intros H Hk Ho; destruct m;
    cbn [f1_list iterations overall_f1 other_mode epoch_metrics] in *.
  - destruct (train_epoch_metrics_run c_id locals g p l s ol acc H Hk Ho)
      as (p1 & locals' & g1 & b & f & al & Hrun & H1 & H2 & H3 & H4 & H5).
    exists p1, locals', g1; eexists; split; [exact Hrun|].
    split; [exists l, s, b, f, al; cbv zeta; auto | auto].
  - destruct (test_epoch_metrics_run c_id locals g p l s ol acc H Hk Ho)
      as (p1 & locals' & g1 & b & f & al & Hrun & H1 & H2 & H3 & H4 & H5).
    exists p1, locals', g1; eexists; split; [exact Hrun|].
    split; [exists l, s, b, f, al; cbv zeta; auto | auto].
Qed.




End Aggregates.

#[export] Instance same_overall_preorder {T : Torch} : PreOrder same_overall.
Proof.
  split; unfold same_overall.
  - intros g; split; reflexivity.
  - intros a b c [H1 H2] [H3 H4]; split; congruence.
Qed.

Section Logged.
Context {T : Torch}.

Lemma logged_app k a b : logged k (a ++ b) = logged k a ++ logged k b.
Proof. apply flat_map_app. Qed.






Lemma logged_all_iteration m c' obs :
  logged (k_avg_f1_all m) (iteration_events m c' obs) = [].
Proof.
  unfold iteration_events; induction obs as [|o obs IH]; [reflexivity|].
  cbn [flat_map]; rewrite logged_app, IH.
  destruct m; reflexivity.
Qed.




Lemma logged_all_metrics m c' v b f al :
  logged (k_avg_f1_all m) (epoch_metrics_events m c' v b f al) = [].
Proof. reflexivity. Qed.






Lemma iterations_same m p p1 :
  iterations train p1 = iterations train p ->
  iterations test p1 = iterations test p ->
  iterations m p1 = iterations m p.
Proof. now destruct m. Qed.




End Logged.

Section EpochAggregates.
Context {T : Torch} {C : Collaborators}.
Hypothesis HF : metrics_frame.

Lemma test_one_epoch_loop epoch tr :
  exists ps2 t,
    let tr2 := {| self := (self tr) <| overall_f1_test ::= (fun l => l ++ [0%Q]) |>;
                  participants := ps2 |} in
    runs (epoch_loop test) (participants tr) ps2 t /\
    final_state (test_one_epoch epoch) tr = final_state test_metrics tr2 /\
    trace (test_one_epoch epoch) tr = t ++ trace test_metrics tr2 /\
    outcome (test_one_epoch epoch) tr = outcome test_metrics tr2.
Proof.
  set (g2 := (self tr) <| overall_f1_test ::= (fun l => l ++ [0%Q]) |>).
  set (F := fun (_ : string) (p : Participant) =>
              p <| client ::= (fun c => c <| test_f1 ::= (fun l => l ++ [0%Q]) |>) |>
                <| client ::= (fun c => c <| pred := [] |>) |>
                <| client ::= (fun c => c <| y := [] |>) |>).
  destruct (fold_participants_runs (epoch_loop test) F
              (fun c_id (_ : unit) => test_client c_id)
              (participants tr) tt g2) as (ps2 & t & Hloop & Hruns).
  { intros c_id p _; apply test_client_run, HF. }
  exists ps2, t; cbv zeta; split; [exact Hruns|].
  unfold test_one_epoch.
  destruct (parts_bind_ok (create_iters test)
              (fun _ => self_do (fun g => g <| overall_f1_test ::= (fun l => l ++ [0%Q]) |>) ;;
                        for_clients reset_predictions ;;
                        for_clients test_client ;;
                        test_metrics)
              tr _ _ _ (create_iters_run test tr)) as (E1 & E2 & E3).
  rewrite E1, E2, E3; clear E1 E2 E3.
  set (tr1 := {| self := self tr; participants := _ |}).
  destruct (parts_bind_ok
              (self_do (fun g => g <| overall_f1_test ::= (fun l => l ++ [0%Q]) |>))
              (fun _ => for_clients reset_predictions ;;
                        for_clients test_client ;;
                        test_metrics)
              tr1 _ [] tt eq_refl) as (E1 & E2 & E3).
  rewrite E1, E2, E3; clear E1 E2 E3.
  set (tr1' := tr1 <| self ::= _ |>).
  assert (Hreset : for_clients reset_predictions tr1'
                   = ({| self := g2;
                         participants := map (fun x => (fst x, F (fst x) (snd x)))
                                             (participants tr) |}, [], Ok tt)).
  { rewrite (for_clients_pure
               (fun _ p => p <| client ::= (fun c => c <| pred := [] |>) |>
                             <| client ::= (fun c => c <| y := [] |>) |>));
      [|reflexivity].
    unfold tr1', tr1.
    change (participants (?a <| self ::= ?f |>)) with (participants a).
    change (self (?a <| self ::= ?f |>)) with (f (self a)).
    cbn [participants self]; rewrite map_map; reflexivity. }
  destruct (parts_bind_ok (for_clients reset_predictions)
              (fun _ => for_clients test_client ;; test_metrics)
              _ _ _ _ Hreset) as (E1 & E2 & E3).
  rewrite E1, E2, E3; clear E1 E2 E3.
  assert (Hfor : for_clients test_client
                   {| self := g2;
                      participants := map (fun x => (fst x, F (fst x) (snd x)))
                                          (participants tr) |}
                 = ({| self := g2; participants := ps2 |}, t, Ok tt)).
  { unfold for_clients, fold_clients; cbn [participants self].
    rewrite Hloop; reflexivity. }
  destruct (parts_bind_ok (for_clients test_client)
              (fun _ => test_metrics) _ _ _ _ Hfor) as (E1 & E2 & E3).
  rewrite E1, E2, E3; cbn [app]; auto.
Qed.





End EpochAggregates.

(** ** The testing epoch *)
Section TestingEpoch.
Context {T : Torch} {C : Collaborators}.
Hypothesis HFwd : forward_frame.
Hypothesis HF : metrics_frame.

Lemma test_metrics_calls_no_pipeline :
  sound is_pipeline_call (on_trainer any_change any_change) test_metrics.
Proof. unfold_trainer; sound_by ltac:(intros; exact I). Qed.

(** C7: a testing epoch runs, for every participant in turn and for each
    of its [len(test_DataLoader)] batches, the forward sequence of the
    four segments, the loss and the metric ([test_iteration_events]: the
    events of a training iteration without the backward pass and the
    optimizer steps), and then only the epoch metrics.  It does nothing
    that updates: no backward pass, no optimizer step or gradient clear,
    no fusion, no loading or freezing of parameters; the six models and
    optimizers of every participant are after the epoch what they were
    before it.  The methods of [Client] and [ConnectedClient] are taken to
    keep to [forward_frame] and [metrics_frame]. *)
Theorem test_epoch_changes_no_model tr epoch :
  (exists ps2 t_loop t_metrics,
     trace (test_one_epoch epoch) tr = t_loop ++ t_metrics /\
     runs (epoch_loop test) (participants tr) ps2 t_loop /\
     filter is_pipeline_call t_metrics = []) /\
  filter is_update_event (trace (test_one_epoch epoch) tr) = [] /\
  Forall2 (fun x y => fst x = fst y /\ same_models (snd x) (snd y))
          (participants tr)
          (participants (final_state (test_one_epoch epoch) tr)).
Proof.
  split.
  - destruct (test_one_epoch_loop HF epoch tr)
      as (ps2 & t_loop & Hr & _ & Ht & _); cbv zeta in Ht.
    exists ps2, t_loop; eexists; split; [exact Ht|]; split; [exact Hr|].
    apply (sound_trace _ _ _ _ test_metrics_calls_no_pipeline).
  - destruct (test_one_epoch_updates_nothing HFwd epoch tr) as [Ht [_ Hs]].
    split; assumption.
Qed.

End TestingEpoch.

(** ** The mapping of participants: lookups and order *)
Module RandomClientsLookup.
Import RandomClients RandomClientsFacts.

Lemma dict_get_set_same {V} k (v : V) d : dict_get k (dict_set k v d) = Some v.
Proof.
  induction d as [|[k' v'] d IH]; simpl.
  - now rewrite String.eqb_refl.
  - destruct (String.eqb_spec k k') as [->|Hne]; simpl.
    + now rewrite String.eqb_refl.
    + apply String.eqb_neq in Hne; now rewrite Hne.
Qed.

Lemma dict_get_set_other {V} k k0 (v : V) d :
  k0 <> k -> dict_get k0 (dict_set k v d) = dict_get k0 d.
Proof.
  intros Hne; induction d as [|[k' v'] d IH]; simpl.
  - apply String.eqb_neq in Hne; now rewrite Hne.
  - destruct (String.eqb_spec k k') as [->|Hk]; simpl.
    + apply String.eqb_neq in Hne; now rewrite Hne.
    + now rewrite IH.
Qed.

Lemma dict_get_fold {V} (Client : string -> V) l : forall d id,
  dict_get id (fold_left (fun clients x => dict_set x (Client x) clients) l d)
  = if in_dec string_dec id l then Some (Client id) else dict_get id d.
Proof.
  induction l as [|x l IH]; intros d id; [reflexivity|].
  cbn [fold_left]; rewrite IH.
  destruct (in_dec string_dec id l) as [Hin|Hnin];
    destruct (in_dec string_dec id (x :: l)) as [Hin'|Hnin'];
    try reflexivity.
  - exfalso; apply Hnin'; now right.
  - destruct Hin' as [->|Hin']; [apply dict_get_set_same | contradiction].
  - apply dict_get_set_other; intros ->; apply Hnin'; now left.
Qed.

Lemma first_occurrences_snoc l x :
  first_occurrences (l ++ [x]) = add_key (first_occurrences l) x.
Proof.
  unfold first_occurrences, add_key; rewrite rev_app_distr; cbn [rev app nodup].
  destruct (in_dec string_dec x (rev l)) as [Hin|Hnin].
  - replace (existsb (String.eqb x) (rev (nodup string_dec (rev l)))) with true;
      [reflexivity|].
    symmetry; apply existsb_exists; exists x; split; [|apply String.eqb_refl].
    rewrite <- in_rev; now apply nodup_In.
  - replace (existsb (String.eqb x) (rev (nodup string_dec (rev l)))) with false;
      [reflexivity|].
    symmetry; apply Bool.not_true_is_false; intros H.
    apply existsb_exists in H; destruct H as (y & Hy & Heq).
    apply String.eqb_eq in Heq; subst y.
    apply Hnin; rewrite <- in_rev in Hy.
    exact (proj1 (nodup_In string_dec _ _) Hy).
Qed.

Lemma fold_add_key_first_occurrences l :
  fold_left add_key l [] = first_occurrences l.
Proof.
  induction l as [|x l IH] using rev_ind; [reflexivity|].
  now rewrite fold_left_app, first_occurrences_snoc, IH.
Qed.

(** X1: the mapping [generate_random_clients] returns answers
    [Client(id)] under every generated id and has no other key; its keys
    are the generated ids in the order of their first occurrence. *)
Theorem generate_random_clients_lookup :
  forall (V : Type) (Client : string -> V) (num_clients : nat) (g : rng),
    let client_ids := fst (generate_random_client_ids num_clients 4 g) in
    let clients := fst (generate_random_clients num_clients Client g) in
    (forall id, In id client_ids -> dict_get id clients = Some (Client id)) /\
    (forall id, ~ In id client_ids -> dict_get id clients = None) /\
    dict_keys clients = first_occurrences client_ids.
Proof.
  intros V Client n g; unfold generate_random_clients.
  destruct (generate_random_client_ids n 4 g) as [l g']; cbn [fst].
  repeat split.
  - intros id Hin; rewrite dict_get_fold.
    destruct (in_dec string_dec id l); [reflexivity | contradiction].
  - intros id Hnin; rewrite dict_get_fold.
    destruct (in_dec string_dec id l); [contradiction | reflexivity].
  - rewrite (dict_keys_fold Client l []); apply fold_add_key_first_occurrences.
Qed.

End RandomClientsLookup.

(** ** Building the participants in [__init__] *)
Module InitClientsFacts.
Import RandomClients RandomClientsFacts InitClients.

Lemma generate_one_client {V} (Client : string -> V) g :
  exists id g',
    generate_random_client_ids 1 4 g = ([id], g') /\
    generate_random_clients 1 Client g = ([(id, Client id)], g').
Proof.
  unfold generate_random_clients; cbn [generate_random_client_ids].
  destruct (random_sample population 4 g) as [cs g1].
  exists (string_of_list_ascii cs), g1; split; reflexivity.
Qed.

Lemma keys_enumerate_from {V} (f : nat -> V -> V) (cl : list (string * V)) :
  forall i,
    map fst (map (fun ic => (fst (snd ic), f (fst ic) (snd (snd ic))))
                 (enumerate_from i cl))
    = map fst cl.
Proof.
  induction cl as [|[k v] cl IH]; intros i; [reflexivity|].
  cbn [enumerate_from map fst snd]; now rewrite IH.
Qed.

Lemma generated_keys {V} (Client : string -> V) n g :
  let cl := fst (generate_random_clients n Client g) in
  NoDup (dict_keys cl) /\ List.length (dict_keys cl) <= n.
Proof.
  unfold generate_random_clients.
  pose proof (generate_random_client_ids_spec n g) as [Hlen _].
  destruct (generate_random_client_ids n 4 g) as [l g']; cbn [fst] in *.
  rewrite (dict_keys_fold Client l []).
  change (dict_keys (@nil (string * V))) with (@nil string).
  destruct (add_keys_spec l [] (NoDup_nil string)) as (H1 & _ & H3 & _).
  cbn [List.length Nat.add] in H3; split; [exact H1 | lia].
Qed.

(** The pooling branch on the one client that is generated. *)
Lemma pooled_of_one_client {V} (Client : string -> V)
    (with_data : nat -> bool -> V -> V) (n : Z) (g g' : rng) (id : string) :
  (n <= 10)%Z ->
  generate_random_clients 1 Client g = ([(id, Client id)], g') ->
  init_clients_with_data V Client with_data n true g
  = (inr {| num_clients := 1;
            clients := [("pooled_client", with_data 0 true (Client id))];
            client_ids := ["pooled_client"] |}, g').
Proof.
  intros Hn Hcl; unfold init_clients_with_data.
  destruct (Z.ltb_spec 10 n) as [Hlt|_]; [lia|].
  change (Z.to_nat 1) with 1; rewrite Hcl.
  unfold pool_clients; cbn [dict_keys map fst dict_pop].
  rewrite String.eqb_refl; reflexivity.
Qed.

(** X2: in pooling mode, whatever number of clients is asked for (up to
    the 10 the assertion allows), there is one participant; it is the
    [Client] built with the random id, stored under the key
    ['pooled_client'] and given split 0 of the pooled data. *)
Theorem init_clients_pooled :
  forall (V : Type) (Client : string -> V) (with_data : nat -> bool -> V -> V)
         (number_of_clients : Z) (g : rng),
    (number_of_clients <= 10)%Z ->
    exists id g',
      generate_random_client_ids 1 4 g = ([id], g') /\
      init_clients_with_data V Client with_data number_of_clients true g
      = (inr {| num_clients := 1;
                clients := [("pooled_client", with_data 0 true (Client id))];
                client_ids := ["pooled_client"] |}, g').
Proof.
  intros V Client with_data n g Hn.
  destruct (generate_one_client Client g) as (id & g' & Hids & Hcl).
  exists id, g'; split; [exact Hids|].
  now apply pooled_of_one_client.
Qed.

(** X3: [init_clients_with_data] fails exactly when more than 10 clients
    are asked for, with the [AssertionError] (also in pooling mode); the
    lookups of the pooling branch never fail.  When it returns,
    [client_ids] are the keys of [clients], pairwise distinct, at most
    [num_clients] and at most 10 of them, and [num_clients] is 1 in
    pooling mode and the number asked for otherwise. *)
Theorem init_clients_outcome :
  forall (V : Type) (Client : string -> V) (with_data : nat -> bool -> V -> V)
         (number_of_clients : Z) (pooling_mode : bool) (g : rng),
    match fst (init_clients_with_data V Client with_data
                 number_of_clients pooling_mode g) with
    | inl e => e = AssertionError /\ (10 < number_of_clients)%Z
    | inr c =>
        (number_of_clients <= 10)%Z /\
        num_clients V c = (if pooling_mode then 1 else number_of_clients)%Z /\
        client_ids V c = dict_keys (clients V c) /\
        NoDup (client_ids V c) /\
        List.length (client_ids V c) <= Z.to_nat (num_clients V c) /\
        List.length (client_ids V c) <= 10
    end.
Proof.
  intros V Client with_data n pooling g.
  destruct (Z.ltb_spec 10 n) as [Hlt|Hle].
  - unfold init_clients_with_data.
    destruct (Z.ltb_spec 10 n) as [_|Hle]; [|lia].
    split; [reflexivity | exact Hlt].
  - destruct pooling.
    + destruct (generate_one_client Client g) as (id & g' & _ & Hcl).
      rewrite (pooled_of_one_client Client with_data n g g' id Hle Hcl); cbn.
      repeat split; try lia.
      repeat constructor; cbn; tauto.
    + unfold init_clients_with_data.
      destruct (Z.ltb_spec 10 n) as [Hlt|_]; [lia|].
      pose proof (generated_keys Client (Z.to_nat n) g) as [Hnd Hlen].
      destruct (generate_random_clients (Z.to_nat n) Client g) as [cl g'].
      cbn [fst pool_clients num_clients clients client_ids] in *.
      unfold dict_keys at 2, enumerate.
      rewrite (keys_enumerate_from (fun i v => with_data i false v) cl 0).
      repeat split; try assumption; try reflexivity; lia.
Qed.

End InitClientsFacts.

(** ** The whole run: [fit] *)

#[export] Instance keeps_records_preorder {T : Torch} : PreOrder keeps_records.
Proof.
  split; unfold keeps_records.
  - intros g; split; reflexivity.
  - intros a b c [H1 H2] [H3 H4]; split; [etransitivity; eassumption | congruence].
Qed.

Section Fit.
Context {T : Torch} {C : Collaborators}.

Lemma bind_assoc_run {S A B D} (m : M S A) (k : A -> M S B) (h : B -> M S D) s :
  bind (bind m k) h s = bind m (fun a => bind (k a) h) s.
Proof.
  unfold bind; destruct (m s) as [[s1 t1] [a|e]]; [|reflexivity].
  destruct (k a s1) as [[s2 t2] [b|e]]; [|reflexivity].
  destruct (h b s2) as [[s3 t3] r]; now rewrite app_assoc.
Qed.

Lemma bind_ext_run {S A B} (m : M S A) (k k' : A -> M S B) s :
  (forall a s1, k a s1 = k' a s1) -> bind m k s = bind m k' s.
Proof.
  intros H; unfold bind; destruct (m s) as [[s1 t1] [a|e]]; [|reflexivity].
  now rewrite H.
Qed.

Lemma fit_split tr : fit tr = (fit_epochs (self tr) ;; fit_report) tr.
Proof.
  unfold fit; rewrite bind_get_run; unfold fit_epochs.
  rewrite bind_assoc_run; apply bind_ext_run; intros _ s1.
  rewrite bind_assoc_run; apply bind_ext_run; intros _ s2.
  rewrite bind_assoc_run; apply bind_ext_run; intros _ s3.
  rewrite bind_assoc_run; reflexivity.
Qed.

Ltac records_side :=
  first [ intros; exact I
        | intros ?; unfold keeps_records, same_config; cbn;
          repeat split; reflexivity ].

Lemma fit_epoch_keeps_records epoch :
  sound no_event (on_trainer keeps_records any_change) (fit_epoch epoch).
Proof. unfold_trainer; sound_by records_side. Qed.

Lemma populate_keeps_records :
  sound no_event (on_trainer keeps_records any_change)
        (populate_key_value_store ;; clear_cache).
Proof. unfold_trainer; sound_by records_side. Qed.

Lemma fit_epochs_keeps_records g :
  sound no_event (on_trainer keeps_records any_change) (fit_epochs g).
Proof.
  unfold fit_epochs, _create_save_dir.
  repeat first
    [ apply fit_epoch_keeps_records
    | apply populate_keeps_records
    | sound_step records_side ].
Qed.

Lemma fit_report_keeps_records :
  sound no_event (on_trainer keeps_records any_change) fit_report.
Proof. unfold fit_report; sound_by records_side. Qed.

(** X4: when the save directory cannot be created, [fit] prints the
    error and raises [OSError] at once: nothing is populated, trained or
    evaluated; the one attribute assigned is [self.save_dir], which holds
    the path that could not be made, and the participants are as they
    were. *)
Theorem fit_without_save_dir tr :
  mkdir_ok (self tr) = false ->
  fit tr
  = (tr <| self ::=
             (fun g => g <| save_dir := Some (save_dir_path (args g)) |>) |>,
     (if pooling_mode (self tr) then [Print msg_pooling_enabled] else [])
     ++ [Print msg_error_creating_directory],
     Err OSError).
Proof.
  intros H; unfold fit, _create_save_dir; mrun.
  destruct (pooling_mode (self tr)); cbn [when ret emit];
    repeat proj_step; rewrite H; reflexivity.
Qed.

Lemma never_raises_for_each {S X} (xs : list X) (body : X -> M S unit) :
  (forall x, never_raises (body x)) -> never_raises (for_each xs body).
Proof.
  intros H; induction xs as [|x xs IH]; cbn [for_each].
  - apply never_raises_ret.
  - apply never_raises_bind; [apply H | intros _; exact IH].
Qed.

Lemma never_raises_for_range {S} n (body : nat -> M S unit) :
  (forall it, never_raises (body it)) -> never_raises (for_range n body).
Proof. apply never_raises_for_each. Qed.

Lemma never_raises_for_clients (body : string -> M (Self * Participant) unit) :
  (forall c_id, never_raises (body c_id)) -> never_raises (for_clients body).
Proof. intros H; apply never_raises_fold_clients; intros c_id _; apply H. Qed.

Ltac never_raises_more :=
  repeat first
    [ never_raises_step
    | apply never_raises_for_clients; intros ?
    | apply never_raises_for_range; intros ?
    | apply never_raises_for_each; intros ?
    | progress unfold on_client, on_server, on_self, self_do, call_client,
        call_server ].

Lemma populate_never_raises :
  never_raises (populate_key_value_store ;; clear_cache).
Proof. unfold_trainer; never_raises_more. Qed.

Lemma py_range_nonpositive n : (n <= 0)%Z -> py_range n = [].
Proof. intros H; unfold py_range; destruct n; try reflexivity; lia. Qed.

Lemma py_index_empty i : py_index [] i = Err IndexError.
Proof.
  unfold py_index; cbn [List.length Z.of_nat].
  destruct (Z.ltb_spec i 0) as [Hi|Hi]; rewrite ?Z.add_0_r.
  - destruct (Z.ltb_spec i 0); [reflexivity | lia].
  - destruct (Z.ltb_spec i 0); [lia|].
    destruct (Z.leb_spec 0 i); [reflexivity | lia].
Qed.

Lemma is_ok_unit {S} (m : M S unit) s :
  is_ok (outcome m s) = true -> outcome m s = Ok tt.
Proof. destruct (outcome m s) as [[]|]; [reflexivity | discriminate]. Qed.

Lemma populate_keeps_overall :
  sound no_event (on_trainer same_overall any_change)
        (populate_key_value_store ;; clear_cache).
Proof.
  unfold_trainer.
  sound_by ltac:(intros; first [exact I | reflexivity | split; reflexivity]).
Qed.

(** [fit] before its loop, when the directory can be made: it returns,
    and [self.overall_f1] is as it was. *)
Lemma fit_epochs_no_epoch g tr :
  mkdir_ok (self tr) = true -> (epochs (args g) <= 0)%Z ->
  outcome (fit_epochs g) tr = Ok tt /\
  same_overall (self tr) (self (final_state (fit_epochs g) tr)).
Proof.
  intros Hm He; unfold fit_epochs; rewrite (py_range_nonpositive _ He).
  cbn [for_each].
  set (A := when (pooling_mode g) (emit (Print msg_pooling_enabled))).
  assert (HA : outcome A tr = Ok tt /\ final_state A tr = tr)
    by (subst A; destruct (pooling_mode g); split; reflexivity).
  destruct HA as [HA1 HA2].
  rewrite outcome_bind, final_state_bind, HA1, HA2.
  set (tr1 := tr <| self ::=
                     (fun g => g <| save_dir := Some (save_dir_path (args g)) |>) |>).
  assert (HB : outcome _create_save_dir tr = Ok tt
               /\ final_state _create_save_dir tr = tr1).
  { unfold _create_save_dir; mrun; repeat proj_step; rewrite Hm.
    split; reflexivity. }
  destruct HB as [HB1 HB2].
  rewrite outcome_bind, final_state_bind, HB1, HB2.
  set (P := when (args_kv_refresh_rate (args g) =? 0)%Z
                 (populate_key_value_store ;; clear_cache)).
  assert (HP : outcome P tr1 = Ok tt
               /\ same_overall (self tr1) (self (final_state P tr1))).
  { subst P; destruct (args_kv_refresh_rate (args g) =? 0)%Z; cbn [when];
      [|split; [reflexivity | split; reflexivity]].
    split.
    - apply is_ok_unit, populate_never_raises.
    - apply (sound_state _ _ _ tr1 populate_keeps_overall). }
  destruct HP as [HP1 HP2].
  rewrite outcome_bind, final_state_bind, HP1.
  split; [reflexivity | exact HP2].
Qed.

(** X5: a run of no epoch ([args.epochs <= 0]) that can make its save
    directory raises [IndexError] in its final report:
    [self.overall_f1['train']] is still the empty list of [__init__]. *)
Theorem fit_without_epochs tr :
  mkdir_ok (self tr) = true ->
  (epochs (args (self tr)) <= 0)%Z ->
  overall_f1_train (self tr) = [] ->
  outcome fit tr = Err IndexError /\
  filter is_update_event (trace fit tr) = [].
Proof.
  intros Hm He Hl.
  destruct (fit_epochs_no_epoch (self tr) tr Hm He) as [Hok [Hself _]].
  unfold outcome, trace; rewrite fit_split.
  fold (outcome (fit_epochs (self tr) ;; fit_report) tr).
  fold (trace (fit_epochs (self tr) ;; fit_report) tr).
  rewrite outcome_bind, trace_bind, Hok.
  set (s := final_state (fit_epochs (self tr)) tr) in *.
  assert (Hrep : fit_report s = (s, [], Err IndexError)).
  { unfold fit_report; mrun; rewrite Hself, Hl, py_index_empty; reflexivity. }
  destruct (run_parts _ _ _ _ _ Hrep) as (_ & -> & ->).
  split; [reflexivity|]; rewrite app_nil_r.
  unfold fit_epochs; rewrite (py_range_nonpositive _ He); cbn [for_each].
  apply (sound_trace is_update_event (on_trainer any_change any_change)).
  unfold_trainer; unfold _create_save_dir.
  sound_by ltac:(intros; exact I).
Qed.

(** X6: [fit] keeps the configuration, the checkpoints on disk and the
    best score on record ([self.max_f1] is never assigned, no model is
    ever saved), and the ids of the participants.  When it returns, its
    last print reports [self.overall_f1['train'][self.max_f1['epoch']]] and
    the [self.max_f1['f1']] the run started with. *)
Theorem fit_keeps_records tr :
  keeps_records (self tr) (self (final_state fit tr)) /\
  ids (final_state fit tr) = ids tr /\
  (outcome fit tr = Ok tt ->
   exists t v,
     trace fit tr = t ++ [Print (msg_best_metrics v (max_f1_f1 (self tr)))] /\
     py_index (overall_f1_train (self (final_state fit tr)))
              (max_f1_epoch (self tr)) = Ok v).
Proof.
  assert (Hs : sound no_event (on_trainer keeps_records any_change)
                 (fit_epochs (self tr) ;; fit_report)).
  { apply sound_bind; [typeclasses eauto | apply fit_epochs_keeps_records |].
    intros _; apply fit_report_keeps_records. }
  destruct (Hs tr) as [_ [Hrec Hps]].
  unfold final_state, trace, outcome, ids; rewrite !fit_split.
  fold (final_state (fit_epochs (self tr) ;; fit_report) tr).
  fold (trace (fit_epochs (self tr) ;; fit_report) tr).
  fold (outcome (fit_epochs (self tr) ;; fit_report) tr).
  split; [exact Hrec|]; split.
  { apply (Forall2_keys _ _ _ Hps). }
  rewrite outcome_bind, trace_bind, final_state_bind.
  destruct (sound_state _ _ _ tr (fit_epochs_keeps_records (self tr)))
    as [[Hcfg Hmax] _].
  destruct (outcome (fit_epochs (self tr)) tr) as [[]|e]; [|discriminate].
  set (s := final_state (fit_epochs (self tr)) tr) in *.
  unfold fit_report; mrun.
  destruct Hcfg as (_ & _ & _ & _ & _ & _ & Hep).
  rewrite Hmax, Hep.
  destruct (py_index (overall_f1_train (self s)) (max_f1_epoch (self tr)))
    as [v|e] eqn:E; [|discriminate].
  intros _; exists (snd (fst (fit_epochs (self tr) tr))), v.
  split; [reflexivity | exact E].
Qed.

End Fit.

(** ** Loading the checkpoints *)
Section LoadBest.
Context {T : Torch} {C : Collaborators}.

Lemma load_segment_cases c_id s g p :
  exists t,
    (exists m, loaded_model g c_id s = Some m /\
               load_segment c_id s (g, p) = ((g, p), t, Ok m)) \/
    (exists e, load_segment c_id s (g, p) = ((g, p), t, Err e)).
Proof.
  unfold loaded_model, load_segment; mrun.
  destruct (saved_models g c_id s) as [sd|].
  - destruct (load_state_dict sd (new_model s)) as [m [[]|e]]; eexists.
    + left; exists m; split; reflexivity.
    + right; exists e; reflexivity.
  - eexists; right; exists FileNotFoundError; reflexivity.
Qed.

(** One participant: all four models are replaced, or none is. *)
Lemma load_best_model_cases c_id g p :
  exists t,
    (exists p', reloaded g c_id p p' /\
                load_best_model c_id (g, p) = ((g, p'), t, Ok tt)) \/
    (exists e, load_best_model c_id (g, p) = ((g, p), t, Err e)).
Proof.
  unfold load_best_model.
  destruct (load_segment_cases c_id front g p) as (t1 & [(m1 & L1 & E1)|(e & E1)]);
    [|eexists; right; exists e; unfold bind at 1; rewrite E1; reflexivity].
  destruct (load_segment_cases c_id center_front g p)
    as (t2 & [(m2 & L2 & E2)|(e & E2)]);
    [|eexists; right; exists e; unfold bind at 1; rewrite E1;
      unfold bind at 1; rewrite E2; reflexivity].
  destruct (load_segment_cases c_id center_back g p)
    as (t3 & [(m3 & L3 & E3)|(e & E3)]);
    [|eexists; right; exists e; unfold bind at 1; rewrite E1;
      unfold bind at 1; rewrite E2; unfold bind at 1; rewrite E3; reflexivity].
  destruct (load_segment_cases c_id back g p)
    as (t4 & [(m4 & L4 & E4)|(e & E4)]);
    [|eexists; right; exists e; unfold bind at 1; rewrite E1;
      unfold bind at 1; rewrite E2; unfold bind at 1; rewrite E3;
      unfold bind at 1; rewrite E4; reflexivity].
  eexists; left; eexists; split;
    [exists m1, m2, m3, m4; repeat split; try eassumption; reflexivity|].
  unfold bind at 1; rewrite E1; unfold bind at 1; rewrite E2.
  unfold bind at 1; rewrite E3; unfold bind at 1; rewrite E4.
  reflexivity.
Qed.

Lemma load_best_models_fold ps : forall g,
  exists done rest done' t r,
    fold_participants (fun c_id (_ : unit) => load_best_model c_id) ps tt g
    = ((g, done' ++ rest), t, r) /\
    ps = done ++ rest /\
    Forall2 (fun x y => fst x = fst y /\ reloaded g (fst x) (snd x) (snd y))
            done done' /\
    (is_ok r = true -> rest = []) /\
    (is_ok r = false -> rest <> []).
Proof.
  induction ps as [|[c p] ps IH]; intros g.
  - exists [], [], [], [], (Ok tt); repeat split; try constructor; discriminate.
  - cbn [fold_participants].
    destruct (load_best_model_cases c g p)
      as (t1 & [(p' & Hre & E)|(e & E)]); rewrite E.
    + destruct (IH g) as (done & rest & done' & t & r & Ef & -> & HF & Hok & Herr).
      rewrite Ef.
      exists ((c, p) :: done), rest, ((c, p') :: done'), (t1 ++ t), r.
      repeat split; try assumption.
      constructor; [split; [reflexivity | exact Hre] | exact HF].
    + exists [], ((c, p) :: ps), [], t1, (Err e).
      repeat split; try constructor; discriminate.
Qed.

(** X8: [load_best_models] replaces the four models of the participants
    in turn and stops at the first one for which a checkpoint is missing
    or does not load: every participant before it has all four models
    replaced by the loaded checkpoints, it and every participant after it
    keep all four of theirs (nothing is assigned before the four are
    loaded).  The trainer's attributes are untouched. *)
Theorem load_best_models_all_or_nothing tr :
  exists done rest done',
    participants tr = done ++ rest /\
    participants (final_state load_best_models tr) = done' ++ rest /\
    Forall2 (fun x y => fst x = fst y /\
                        reloaded (self tr) (fst x) (snd x) (snd y))
            done done' /\
    (is_ok (outcome load_best_models tr) = true -> rest = []) /\
    (is_ok (outcome load_best_models tr) = false -> rest <> []) /\
    self (final_state load_best_models tr) = self tr.
Proof.
  destruct (load_best_models_fold (participants tr) (self tr))
    as (done & rest & done' & t & r & Ef & Hps & HF & Hok & Herr).
  exists done, rest, done'.
  unfold final_state, outcome, load_best_models, for_clients, fold_clients.
  rewrite Ef; cbn [fst snd participants self]; auto 10.
Qed.

Lemma load_best_models_missing tr c_id p ps :
  participants tr = (c_id, p) :: ps ->
  saved_models (self tr) c_id front = None ->
  load_best_models tr = (tr, [TorchLoad c_id front], Err FileNotFoundError).
Proof.
  intros Hps Hf; unfold load_best_models, for_clients, fold_clients.
  rewrite Hps; cbn [fold_participants].
  assert (E : load_best_model c_id (self tr, p)
              = ((self tr, p), [TorchLoad c_id front], Err FileNotFoundError)).
  { unfold load_best_model, load_segment; mrun; rewrite Hf; reflexivity. }
  rewrite E, <- Hps, trainer_eta; reflexivity.
Qed.

End LoadBest.

(** ** Personalization from an empty save directory *)
Section NoCheckpoint.
Context {T : Torch} {C : Collaborators}.

Lemma unsaved_kept a tr tr' :
  on_trainer same_config any_change tr tr' -> unsaved a tr -> unsaved a tr'.
Proof.
  intros [(Ha & _ & _ & _ & _ & Hs & _) Hps] (H1 & H2 & H3).
  split; [congruence|]; split.
  - intros c s; rewrite Hs; apply H2.
  - intros E; rewrite E in Hps; inversion Hps; subst.
    apply H3; symmetry; assumption.
Qed.

(** [m] then [k], when [k] is bound to fail. *)
Lemma bind_aborts {S A B} (I : S -> Prop) P (m : M S A) (k : A -> M S B) s :
  I (final_state m s) /\ filter P (trace m s) = [] ->
  (forall a s1, I s1 ->
     is_ok (outcome (k a) s1) = false /\ filter P (trace (k a) s1) = []) ->
  is_ok (outcome (bind m k) s) = false /\ filter P (trace (bind m k) s) = [].
Proof.
  intros [Hi Ht] Hk; rewrite outcome_bind, trace_bind, filter_app, Ht.
  destruct (outcome m s) as [a|e]; [|split; reflexivity].
  destruct (Hk a _ Hi) as [H1 H2]; split; [exact H1 | exact H2].
Qed.

Lemma for_each_aborts {S X} (I : S -> Prop) P (body : X -> M S unit) x0 xs :
  (forall x s, I s ->
     I (final_state (body x) s) /\ filter P (trace (body x) s) = []) ->
  (forall s, I s -> is_ok (outcome (body x0) s) = false) ->
  In x0 xs ->
  forall s, I s ->
    is_ok (outcome (for_each xs body) s) = false /\
    filter P (trace (for_each xs body) s) = [].
Proof.
  intros Hb Hx0; induction xs as [|x xs IH]; intros Hin s Hi; [contradiction|].
  cbn [for_each]; rewrite outcome_bind, trace_bind, filter_app.
  destruct (Hb x s Hi) as [Hi1 Ht1]; rewrite Ht1.
  destruct Hin as [->|Hin].
  - pose proof (Hx0 s Hi) as Hr.
    destruct (outcome (body x0) s); [discriminate | split; reflexivity].
  - destruct (outcome (body x) s) as [[]|e]; [|split; reflexivity].
    apply (IH Hin _ Hi1).
Qed.

Lemma In_py_range p n : (0 <= p < n)%Z -> In p (py_range n).
Proof.
  intros H; unfold py_range.
  rewrite <- (Z2Nat.id p) by lia.
  apply in_map, in_seq; lia.
Qed.

Ltac config_side :=
  first [ intros; exact I
        | intros ?; unfold same_config; cbn; repeat split; reflexivity ].

Lemma refresh_keeps_config epoch :
  sound is_freeze (on_trainer same_config any_change)
        (refresh_key_value_store epoch).
Proof. unfold_trainer; sound_by config_side. Qed.

Lemma epoch_rest_keeps_config epoch :
  sound is_freeze (on_trainer same_config any_change)
        (emit (WandbLog k_epoch (inject_Z epoch)) ;;
         set_training_all true ;;
         train_one_epoch epoch ;;
         clear_cache ;;
         set_training_all false ;;
         test_one_epoch epoch ;;
         clear_cache ;;
         inference).
Proof. unfold_trainer; sound_by config_side. Qed.

(** Entering personalization without checkpoints: the first [torch.load]
    fails, after [personalization_mode] has been set. *)
Lemma enter_personalization_unsaved a epoch (tr : Trainer) :
  args_personalize a = true -> unsaved a tr ->
  unsaved a (final_state (enter_personalization epoch) tr) /\
  filter is_freeze (trace (enter_personalization epoch) tr) = [] /\
  (epoch = p_epoch a -> outcome (enter_personalization epoch) tr
                        = Err FileNotFoundError).
Proof.
  intros Hp (Ha & Hno & Hne).
  unfold enter_personalization.
  unfold final_state, trace, outcome; rewrite bind_get_run, Ha, Hp; cbn [when].
  destruct (Z.eqb_spec epoch (p_epoch a)) as [->|Hne']; cbn [when].
  - destruct (participants tr) as [|[c p] ps] eqn:Eps; [contradiction|].
    set (tr1 := tr <| self ::= (fun g => g <| personalization_mode := true |>) |>).
    assert (E : (self_do (fun g => g <| personalization_mode := true |>) ;;
                 load_best_models ;; personalize (p_epoch a)) tr
                = (tr1, [TorchLoad c front], Err FileNotFoundError)).
    { unfold bind at 1, self_do, modify; fold tr1.
      unfold bind at 1.
      rewrite (load_best_models_missing tr1 c p ps Eps (Hno c front)).
      reflexivity. }
    rewrite E; cbn [fst snd filter is_freeze].
    repeat split; try assumption.
    change (participants tr1) with (participants tr); rewrite Eps; discriminate.
  - cbn [ret fst snd filter]; repeat split; try assumption.
    intros E; contradiction.
Qed.

Lemma fit_epoch_unsaved a epoch (tr : Trainer) :
  args_personalize a = true -> unsaved a tr ->
  unsaved a (final_state (fit_epoch epoch) tr) /\
  filter is_freeze (trace (fit_epoch epoch) tr) = [] /\
  (epoch = p_epoch a -> is_ok (outcome (fit_epoch epoch) tr) = false).
Proof.
  intros Hp Hu; unfold fit_epoch.
  destruct (refresh_keeps_config epoch tr) as [Ht1 Hs1].
  pose proof (unsaved_kept a _ _ Hs1 Hu) as Hu1.
  rewrite final_state_bind, trace_bind, outcome_bind, filter_app, Ht1.
  destruct (outcome (refresh_key_value_store epoch) tr) as [[]|e];
    [|split; [exact Hu1|]; split; [reflexivity | intros _; reflexivity]].
  set (s1 := final_state (refresh_key_value_store epoch) tr) in *.
  destruct (enter_personalization_unsaved a epoch s1 Hp Hu1) as (Hu2 & Ht2 & Hr2).
  rewrite final_state_bind, trace_bind, outcome_bind, filter_app, Ht2.
  destruct (outcome (enter_personalization epoch) s1) as [[]|e] eqn:Eo.
  - set (s2 := final_state (enter_personalization epoch) s1) in *.
    destruct (epoch_rest_keeps_config epoch s2) as [Ht3 Hs3].
    split; [exact (unsaved_kept a _ _ Hs3 Hu2)|]; split; [exact Ht3|].
    intros E; specialize (Hr2 E); discriminate.
  - split; [exact Hu2|]; split; [reflexivity | intros _; reflexivity].
Qed.

(** X7: with personalization enabled at an epoch of the run, at least one
    participant and no checkpoint on disk, [fit] cannot return: it saves
    no checkpoint itself, so that [load_best_models] finds none when the
    run reaches that epoch.  No [center_back] is ever frozen. *)
Theorem fit_personalization_needs_checkpoints tr :
  args_personalize (args (self tr)) = true ->
  (0 <= p_epoch (args (self tr)) < epochs (args (self tr)))%Z ->
  participants tr <> [] ->
  no_checkpoint (self tr) ->
  is_ok (outcome fit tr) = false /\
  filter is_freeze (trace fit tr) = [].
Proof.
  intros Hp Hrange Hne Hno.
  set (a := args (self tr)) in *.
  assert (Hu : unsaved a tr) by (repeat split; assumption).
  unfold outcome, trace; rewrite fit_split.
  fold (outcome (fit_epochs (self tr) ;; fit_report) tr).
  fold (trace (fit_epochs (self tr) ;; fit_report) tr).
  assert (Hloop : is_ok (outcome (fit_epochs (self tr)) tr) = false /\
                  filter is_freeze (trace (fit_epochs (self tr)) tr) = []).
  { unfold fit_epochs; fold a.
    apply (bind_aborts (unsaved a)).
    { split; [destruct (pooling_mode (self tr)); exact Hu|].
      destruct (pooling_mode (self tr)); reflexivity. }
    intros _ s1 Hu1; apply (bind_aborts (unsaved a)).
    { assert (Hs : sound is_freeze (on_trainer same_config any_change)
                     _create_save_dir)
        by (unfold _create_save_dir; sound_by config_side).
      destruct (Hs s1) as [Ht Hs1]; split; [|exact Ht].
      exact (unsaved_kept a _ _ Hs1 Hu1). }
    intros _ s2 Hu2; apply (bind_aborts (unsaved a)).
    { assert (Hs : sound is_freeze (on_trainer same_config any_change)
                     (when (args_kv_refresh_rate a =? 0)%Z
                           (populate_key_value_store ;; clear_cache)))
        by (unfold_trainer; sound_by config_side).
      destruct (Hs s2) as [Ht Hs2]; split; [|exact Ht].
      exact (unsaved_kept a _ _ Hs2 Hu2). }
    intros _ s3 Hu3; apply (bind_aborts (unsaved a)).
    { split; [exact Hu3 | reflexivity]. }
    intros _ s4 Hu4.
    apply (for_each_aborts (unsaved a) is_freeze fit_epoch (p_epoch a)).
    - intros e s Hs; destruct (fit_epoch_unsaved a e s Hp Hs) as (H1 & H2 & _).
      split; assumption.
    - intros s Hs; destruct (fit_epoch_unsaved a (p_epoch a) s Hp Hs)
        as (_ & _ & H3); apply H3; reflexivity.
    - apply In_py_range; exact Hrange.
    - exact Hu4. }
  destruct Hloop as [Hr Ht].
  rewrite outcome_bind, trace_bind, filter_app, Ht.
  destruct (outcome (fit_epochs (self tr)) tr); [discriminate|].
  split; reflexivity.
Qed.

End NoCheckpoint.

(** ** What a merge calls and what it leaves *)

#[export] Instance same_client_preorder {T : Torch} : PreOrder same_client.
Proof.
  split; unfold same_client; [intros p; reflexivity | intros a b c; congruence].
Qed.

Section MergeModes.
Context {T : Torch} {C : Collaborators}.

Lemma merge_center_back_keeps_clients :
  sound no_event (on_trainer eq same_client) merge_center_back.
Proof. unfold_trainer; sound_by ltac:(intros; reflexivity). Qed.

Lemma merge_center_back_returns tr : outcome merge_center_back tr = Ok tt.
Proof.
  apply is_ok_unit.
  assert (H : never_raises merge_center_back)
    by (unfold_trainer; repeat never_raises_step).
  apply H.
Qed.

Lemma merge_back_calls tr :
  filter is_merge_call (trace merge_back tr)
  = [MergeWeights back (back_pool tr) (back_sample_lens tr)].
Proof.
  unfold merge_back.
  destruct (run_parts _ _ _ _ _ (collect_back_run tr)) as (E1 & E2 & E3).
  rewrite trace_bind, E1, E2, E3; cbn [app].
  assert (Hload : forall w,
            filter is_merge_call (trace (for_clients (load_back w)) tr) = []).
  { intros w; eapply sound_trace.
    apply (sound_for_clients eq any_change).
    intros c_id; unfold load_back.
    sound_by ltac:(intros; first [exact I | reflexivity]). }
  destruct (run_parts _ _ _ _ _
              (call_merge_weights_run back (back_pool tr)
                 (back_sample_lens tr) tr)) as (F1 & F2 & F3).
  rewrite trace_try_except, outcome_bind, trace_bind, F1, F2, F3, !filter_app.
  destruct (merge_weights (back_pool tr) (back_sample_lens tr))
    as [w|x]; [rewrite Hload|].
  - destruct (outcome (for_clients (load_back w)) tr); reflexivity.
  - reflexivity.
Qed.

Lemma same_clients_back_pool (tr tr' : Trainer) :
  on_trainer eq same_client tr tr' ->
  back_pool tr' = back_pool tr /\ back_sample_lens tr' = back_sample_lens tr.
Proof.
  intros [_ H]; unfold back_pool, back_sample_lens.
  induction H as [|x y l l' [_ Hc] _ [IH1 IH2]]; [split; reflexivity|].
  unfold same_client in Hc; cbn [map]; rewrite Hc, IH1, IH2; split; reflexivity.
Qed.

(** X9: what the end of a training epoch fuses.  In pooling mode
    [merge_weights] is not called.  Otherwise it is called on the
    [center_back] states of all participants, weighted by
    [len(train_dataset) * kv_factor], and then, unless the run is in
    personalization mode, on their [back] states, weighted by
    [len(train_dataset)]; and on nothing else. *)
Theorem merge_calls_by_mode tr epoch :
  filter is_merge_call (trace (merge_unless_pooling epoch) tr)
  = if pooling_mode (self tr) then []
    else MergeWeights center_back (center_back_pool tr)
                      (center_back_sample_lens tr)
         :: (if personalization_mode (self tr) then []
             else [MergeWeights back (back_pool tr) (back_sample_lens tr)]).
Proof.
  unfold merge_unless_pooling, trace; rewrite bind_get_run.
  fold (trace (when (negb (pooling_mode (self tr))) (merge_model_weights epoch)) tr).
  destruct (pooling_mode (self tr)); cbn [negb when]; [reflexivity|].
  unfold merge_model_weights.
  rewrite trace_bind.
  change (outcome (emit (Print (msg_merging epoch))) tr) with (@Ok unit tt).
  change (final_state (emit (Print (msg_merging epoch))) tr) with tr.
  change (trace (emit (Print (msg_merging epoch))) tr)
    with [Print (msg_merging epoch)].
  cbv iota; rewrite trace_bind, merge_center_back_returns, !filter_app.
  rewrite merge_center_back_calls; cbn [filter is_merge_call app].
  f_equal.
  destruct (merge_center_back_keeps_clients tr) as [_ Hrel].
  set (tr1 := final_state merge_center_back tr) in *.
  unfold trace; rewrite bind_get_run.
  destruct Hrel as [Hself Hps].
  rewrite <- Hself.
  destruct (personalization_mode (self tr)); cbn [negb when]; [reflexivity|].
  fold (trace merge_back tr1); rewrite merge_back_calls.
  destruct (same_clients_back_pool tr tr1 (conj Hself Hps)) as [-> ->].
  reflexivity.
Qed.

End MergeModes.

Section MergeDistributes.
Context {T : Torch} {C : Collaborators}.

Lemma load_center_back_run w c_id g p :
  snd (load_state_dict w (center_back_model (sc_client p))) = Ok tt ->
  load_center_back w c_id (g, p)
  = ((g, with_center_back w p),
     [LoadStateDict c_id center_back w;
      Print (msg_merged_loaded center_back c_id)], Ok tt).
Proof.
  intros H.
  assert (Hw : with_center_back w p
               = p <| sc_client ::=
                      (fun sc => sc <| center_back_model :=
                         fst (load_state_dict w (center_back_model (sc_client p))) |>) |>)
    by reflexivity.
  rewrite Hw; unfold load_center_back; mrun.
  destruct (load_state_dict w (center_back_model (sc_client p))) as [m r].
  cbn [fst snd] in *; subst r; reflexivity.
Qed.

Lemma load_back_run w c_id g p :
  snd (load_state_dict w (back_model (client p))) = Ok tt ->
  load_back w c_id (g, p)
  = ((g, with_back w p),
     [LoadStateDict c_id back w; Print (msg_merged_loaded back c_id)], Ok tt).
Proof.
  intros H.
  assert (Hw : with_back w p
               = p <| client ::=
                      (fun c => c <| back_model :=
                         fst (load_state_dict w (back_model (client p))) |>) |>)
    by reflexivity.
  rewrite Hw; unfold load_back; mrun.
  destruct (load_state_dict w (back_model (client p))) as [m r].
  cbn [fst snd] in *; subst r; reflexivity.
Qed.

Lemma distribute_run (F : Participant -> Participant)
    (body : string -> M (Self * Participant) unit) tr :
  (forall c_id p, In (c_id, p) (participants tr) ->
     exists t1, body c_id (self tr, p) = ((self tr, F p), t1, Ok tt)) ->
  final_state (for_clients body) tr
  = {| self := self tr;
       participants := map (fun x => (fst x, F (snd x))) (participants tr) |} /\
  outcome (for_clients body) tr = Ok tt.
Proof.
  intros H.
  destruct (for_clients_runs (fun _ p p1 _ => p1 = F p) body tr)
    as (ps1 & t & Hrun & Hr).
  { intros c p Hin; destruct (H c p Hin) as (t1 & E); eauto. }
  destruct (run_parts _ _ _ _ _ Hrun) as (-> & _ & ->).
  rewrite (runs_map _ (fun _ p => F p) _ _ _ (fun _ _ _ _ E => E) Hr).
  split; reflexivity.
Qed.

Lemma merge_center_back_distributes tr w :
  merge_weights (center_back_pool tr) (center_back_sample_lens tr) = Ok w ->
  (forall c_id p, In (c_id, p) (participants tr) ->
     snd (load_state_dict w (center_back_model (sc_client p))) = Ok tt) ->
  final_state merge_center_back tr
  = {| self := self tr;
       participants := map (fun x => (fst x, with_center_back w (snd x)))
                           (participants tr) |}.
Proof.
  intros Hw Hl.
  destruct (distribute_run (with_center_back w) (load_center_back w) tr)
    as [Hs Ho].
  { intros c p Hin; eexists; apply load_center_back_run, (Hl c p Hin). }
  unfold merge_center_back, final_state.
  unfold bind at 1; rewrite collect_center_back_run.
  unfold try_except, bind at 1; rewrite call_merge_weights_run, Hw.
  fold (final_state (for_clients (load_center_back w)) tr).
  fold (outcome (for_clients (load_center_back w)) tr).
  rewrite (run_eta (for_clients (load_center_back w)) tr), Hs, Ho.
  reflexivity.
Qed.

Lemma merge_back_distributes tr w :
  merge_weights (back_pool tr) (back_sample_lens tr) = Ok w ->
  (forall c_id p, In (c_id, p) (participants tr) ->
     snd (load_state_dict w (back_model (client p))) = Ok tt) ->
  final_state merge_back tr
  = {| self := self tr;
       participants := map (fun x => (fst x, with_back w (snd x)))
                           (participants tr) |}.
Proof.
  intros Hw Hl.
  destruct (distribute_run (with_back w) (load_back w) tr) as [Hs Ho].
  { intros c p Hin; eexists; apply load_back_run, (Hl c p Hin). }
  unfold merge_back, final_state.
  unfold bind at 1; rewrite collect_back_run.
  unfold try_except, bind at 1; rewrite call_merge_weights_run, Hw.
  fold (final_state (for_clients (load_back w)) tr).
  fold (outcome (for_clients (load_back w)) tr).
  rewrite (run_eta (for_clients (load_back w)) tr), Hs, Ho.
  reflexivity.
Qed.

(** X10: outside personalization mode, when both fusions succeed and the
    fused states load, [merge_model_weights] leaves every participant with
    the same fused [center_back] state and the same fused [back] state
    loaded into its own models, and changes nothing else. *)
Theorem merge_distributes_fused_states tr epoch w_glob w_glob_cb :
  personalization_mode (self tr) = false ->
  merge_weights (center_back_pool tr) (center_back_sample_lens tr) = Ok w_glob ->
  merge_weights (back_pool tr) (back_sample_lens tr) = Ok w_glob_cb ->
  (forall c_id p, In (c_id, p) (participants tr) ->
     snd (load_state_dict w_glob (center_back_model (sc_client p))) = Ok tt /\
     snd (load_state_dict w_glob_cb (back_model (client p))) = Ok tt) ->
  final_state (merge_model_weights epoch) tr
  = {| self := self tr;
       participants :=
         map (fun x => (fst x, with_back w_glob_cb
                                 (with_center_back w_glob (snd x))))
             (participants tr) |}.
Proof.
  intros Hp Hw Hwb Hl.
  pose proof (merge_center_back_distributes tr w_glob Hw
                (fun c p Hin => proj1 (Hl c p Hin))) as H1.
  unfold merge_model_weights.
  rewrite final_state_bind.
  change (outcome (emit (Print (msg_merging epoch))) tr) with (@Ok unit tt).
  change (final_state (emit (Print (msg_merging epoch))) tr) with tr.
  cbv iota; rewrite final_state_bind, merge_center_back_returns, H1.
  set (tr1 := {| self := self tr; participants := _ |}).
  unfold final_state; rewrite bind_get_run.
  change (self tr1) with (self tr); rewrite Hp; cbn [negb when].
  fold (final_state merge_back tr1).
  assert (Hpool : back_pool tr1 = back_pool tr
                  /\ back_sample_lens tr1 = back_sample_lens tr).
  { unfold back_pool, back_sample_lens, tr1; cbn [participants].
    rewrite !map_map; split; reflexivity. }
  destruct Hpool as [Hb1 Hb2].
  rewrite (merge_back_distributes tr1 w_glob_cb).
  - unfold tr1; cbn [self participants]; rewrite map_map; reflexivity.
  - rewrite Hb1, Hb2; exact Hwb.
  - intros c p Hin; unfold tr1 in Hin; cbn [participants] in Hin.
    apply in_map_iff in Hin; destruct Hin as ([c0 p0] & [= <- <-] & Hin0).
    exact (proj2 (Hl c0 p0 Hin0)).
Qed.

End MergeDistributes.

(** ** Failures in the weight-merge step *)
Section MergeFailures.
Context {T : Torch} {C : Collaborators}.

Lemma load_center_back_fails w c_id g p e :
  snd (load_state_dict w (center_back_model (sc_client p))) = Err e ->
  load_center_back w c_id (g, p)
  = ((g, with_center_back w p), [LoadStateDict c_id center_back w], Err e).
Proof.
  intros H.
  assert (Hw : with_center_back w p
               = p <| sc_client ::=
                      (fun sc => sc <| center_back_model :=
                         fst (load_state_dict w (center_back_model (sc_client p))) |>) |>)
    by reflexivity.
  rewrite Hw; unfold load_center_back; mrun.
  destruct (load_state_dict w (center_back_model (sc_client p))) as [m r].
  cbn [fst snd] in *; subst r; reflexivity.
Qed.

Lemma load_back_fails w c_id g p e :
  snd (load_state_dict w (back_model (client p))) = Err e ->
  load_back w c_id (g, p)
  = ((g, with_back w p), [LoadStateDict c_id back w], Err e).
Proof.
  intros H.
  assert (Hw : with_back w p
               = p <| client ::=
                      (fun c => c <| back_model :=
                         fst (load_state_dict w (back_model (client p))) |>) |>)
    by reflexivity.
  rewrite Hw; unfold load_back; mrun.
  destruct (load_state_dict w (back_model (client p))) as [m r].
  cbn [fst snd] in *; subst r; reflexivity.
Qed.

(** A loop over the participants that stops at [(c_id, p)]: those before
    it have had their turn, it is left as its failed turn leaves it, those
    after it are untouched. *)
Lemma fold_participants_stops (F : Participant -> Participant)
    (ev : string -> list event) (body : string -> M (Self * Participant) unit)
    g c_id p rest t_fail e :
  body c_id (g, p) = ((g, F p), t_fail, Err e) ->
  forall done,
    Forall (fun x => body (fst x) (g, snd x)
                     = ((g, F (snd x)), ev (fst x), Ok tt)) done ->
    fold_participants (fun c (_ : unit) => body c) (done ++ (c_id, p) :: rest) tt g
    = ((g, map (fun x => (fst x, F (snd x))) done ++ (c_id, F p) :: rest),
       flat_map (fun x => ev (fst x)) done ++ t_fail, Err e).
Proof.
  intros Hfail; induction done as [|[c q] done IH]; intros Hd;
    cbn [app map flat_map fold_participants fst snd].
  - rewrite Hfail; reflexivity.
  - inversion Hd as [|? ? Hq Hd']; subst; cbn [fst snd] in Hq.
    rewrite Hq, (IH Hd'), <- app_assoc; reflexivity.
Qed.

Lemma merge_center_back_load_failure tr w done c_id p rest e :
  merge_weights (center_back_pool tr) (center_back_sample_lens tr) = Ok w ->
  participants tr = done ++ (c_id, p) :: rest ->
  Forall (fun x => snd (load_state_dict w (center_back_model (sc_client (snd x))))
                   = Ok tt) done ->
  snd (load_state_dict w (center_back_model (sc_client p))) = Err e ->
  merge_center_back tr
  = ({| self := self tr;
        participants :=
          map (fun x => (fst x, with_center_back w (snd x))) done
          ++ (c_id, with_center_back w p) :: rest |},
     MergeWeights center_back (center_back_pool tr) (center_back_sample_lens tr)
     :: flat_map (fun x => [LoadStateDict (fst x) center_back w;
                            Print (msg_merged_loaded center_back (fst x))]) done
     ++ [LoadStateDict c_id center_back w;
         Print (msg_error_merging center_back e)],
     Ok tt).
Proof.
  intros Hw Hps Hd He.
  unfold merge_center_back.
  unfold bind at 1; rewrite collect_center_back_run.
  unfold try_except, bind at 1; rewrite call_merge_weights_run, Hw.
  unfold for_clients, fold_clients; rewrite Hps.
  rewrite (fold_participants_stops (with_center_back w)
             (fun c => [LoadStateDict c center_back w;
                        Print (msg_merged_loaded center_back c)])
             (load_center_back w) (self tr) c_id p rest
             [LoadStateDict c_id center_back w] e
             (load_center_back_fails w c_id (self tr) p e He)).
  - cbn [emit app]; rewrite <- app_assoc; reflexivity.
  - eapply Forall_impl; [|exact Hd].
    intros [c q] Hq; apply load_center_back_run, Hq.
Qed.

Lemma merge_back_load_failure tr w done c_id p rest e :
  merge_weights (back_pool tr) (back_sample_lens tr) = Ok w ->
  participants tr = done ++ (c_id, p) :: rest ->
  Forall (fun x => snd (load_state_dict w (back_model (client (snd x))))
                   = Ok tt) done ->
  snd (load_state_dict w (back_model (client p))) = Err e ->
  merge_back tr
  = ({| self := self tr;
        participants :=
          map (fun x => (fst x, with_back w (snd x))) done
          ++ (c_id, with_back w p) :: rest |},
     MergeWeights back (back_pool tr) (back_sample_lens tr)
     :: flat_map (fun x => [LoadStateDict (fst x) back w;
                            Print (msg_merged_loaded back (fst x))]) done
     ++ [LoadStateDict c_id back w; Print (msg_error_merging back e)],
     Ok tt).
Proof.
  intros Hw Hps Hd He.
  unfold merge_back.
  unfold bind at 1; rewrite collect_back_run.
  unfold try_except, bind at 1; rewrite call_merge_weights_run, Hw.
  unfold for_clients, fold_clients; rewrite Hps.
  rewrite (fold_participants_stops (with_back w)
             (fun c => [LoadStateDict c back w;
                        Print (msg_merged_loaded back c)])
             (load_back w) (self tr) c_id p rest
             [LoadStateDict c_id back w] e
             (load_back_fails w c_id (self tr) p e He)).
  - cbn [emit app]; rewrite <- app_assoc; reflexivity.
  - eapply Forall_impl; [|exact Hd].
    intros [c q] Hq; apply load_back_run, Hq.
Qed.

(** C2, as the code has it: a failure of [merge_weights], or of
    [load_state_dict] while the fused state is distributed, is caught
    where it is raised.  [merge_model_weights] returns normally whatever
    the two do.  A failed [merge_weights] prints the error and changes
    nothing, for either pool.  A [load_state_dict] that fails at a
    participant prints the error and ends the distribution there, without
    rollback: the participants before it keep the fused state they have
    loaded, it is left as the failed call leaves it, and those after it
    keep their own state. *)
Theorem merge_failure_is_caught tr epoch :
  outcome (merge_model_weights epoch) tr = Ok tt /\
  (forall x,
     merge_weights (center_back_pool tr) (center_back_sample_lens tr) = Err x ->
     merge_center_back tr
     = (tr, [MergeWeights center_back (center_back_pool tr)
                          (center_back_sample_lens tr);
             Print (msg_error_merging center_back x)], Ok tt)) /\
  (forall x,
     merge_weights (back_pool tr) (back_sample_lens tr) = Err x ->
     merge_back tr
     = (tr, [MergeWeights back (back_pool tr) (back_sample_lens tr);
             Print (msg_error_merging back x)], Ok tt)) /\
  (forall w done c_id p rest e,
     merge_weights (center_back_pool tr) (center_back_sample_lens tr) = Ok w ->
     participants tr = done ++ (c_id, p) :: rest ->
     Forall (fun x => snd (load_state_dict w (center_back_model (sc_client (snd x))))
                      = Ok tt) done ->
     snd (load_state_dict w (center_back_model (sc_client p))) = Err e ->
     merge_center_back tr
     = ({| self := self tr;
           participants :=
             map (fun x => (fst x, with_center_back w (snd x))) done
             ++ (c_id, with_center_back w p) :: rest |},
        MergeWeights center_back (center_back_pool tr)
                     (center_back_sample_lens tr)
        :: flat_map (fun x => [LoadStateDict (fst x) center_back w;
                               Print (msg_merged_loaded center_back (fst x))])
                    done
        ++ [LoadStateDict c_id center_back w;
            Print (msg_error_merging center_back e)],
        Ok tt)) /\
  (forall w done c_id p rest e,
     merge_weights (back_pool tr) (back_sample_lens tr) = Ok w ->
     participants tr = done ++ (c_id, p) :: rest ->
     Forall (fun x => snd (load_state_dict w (back_model (client (snd x))))
                      = Ok tt) done ->
     snd (load_state_dict w (back_model (client p))) = Err e ->
     merge_back tr
     = ({| self := self tr;
           participants :=
             map (fun x => (fst x, with_back w (snd x))) done
             ++ (c_id, with_back w p) :: rest |},
        MergeWeights back (back_pool tr) (back_sample_lens tr)
        :: flat_map (fun x => [LoadStateDict (fst x) back w;
                               Print (msg_merged_loaded back (fst x))]) done
        ++ [LoadStateDict c_id back w; Print (msg_error_merging back e)],
        Ok tt)).
Proof.
  split; [|split; [|split; [|split]]].
  - pose proof (merge_model_weights_never_raises epoch tr) as H.
    destruct (outcome (merge_model_weights epoch) tr) as [[]|];
      [reflexivity | discriminate].
  - apply merge_center_back_failure.
  - apply merge_back_failure.
  - intros w done c_id p rest e; apply merge_center_back_load_failure.
  - intros w done c_id p rest e; apply merge_back_load_failure.
Qed.

End MergeFailures.

(** ** An epoch over a participant without a batch *)
Section ZeroIterations.
Context {T : Torch} {C : Collaborators}.
Hypothesis HF : metrics_frame.

Lemma epoch_metrics_zero m c_id locals g p l s :
  f1_list m p = l ++ [s] -> iterations m p = 0 ->
  epoch_metrics m c_id locals (g, p) = ((g, p), [], Err ZeroDivisionError).
Proof.
  intros H Hz; destruct locals as [[ba fm] al].
  destruct m; cbn [f1_list iterations epoch_metrics] in *;
    [unfold train_epoch_metrics | unfold test_epoch_metrics]; mrun;
    rewrite H, update_last_snoc, Hz; reflexivity.
Qed.

Lemma epoch_metrics_fold_zero m ps : forall locals g ol acc,
  overall_f1 m g = ol ++ [acc] ->
  (forall c p, In (c, p) ps -> exists l s, f1_list m p = l ++ [s]) ->
  (exists c p, In (c, p) ps /\ iterations m p = 0) ->
  exists st t,
    fold_participants (epoch_metrics m) ps locals g
    = (st, t, Err ZeroDivisionError) /\
    filter is_merge_call t = [] /\
    logged (k_avg_f1_all m) t = [].
Proof.
  induction ps as [|[c p] ps IH]; intros locals g ol acc Ho Hl Hz.
  - destruct Hz as (c & p & [] & _).
  - cbn [fold_participants].
    destruct (Hl c p (or_introl eq_refl)) as (l & s & Hlp).
    destruct (Nat.eq_dec (iterations m p) 0) as [Hz0|Hpos].
    + rewrite (epoch_metrics_zero m c locals g p l s Hlp Hz0).
      do 2 eexists; split; [reflexivity | split; reflexivity].
    + destruct (epoch_metrics_run HF m c locals g p l s ol acc Hlp
                  ltac:(lia) Ho)
        as (p1 & locals1 & g1 & t1 & Hrun & Hpost & Ho1 & _ & _).
      rewrite Hrun.
      destruct (IH locals1 g1 ol _ Ho1) as (st & t & Hf & Hm & Hg).
      { intros c' p' Hin; apply (Hl c' p'); now right. }
      { destruct Hz as (c' & p' & [[= <- <-]|Hin] & Hz');
          [contradiction | eauto]. }
      rewrite Hf; destruct st as [g2 ps2].
      do 2 eexists; split; [reflexivity|].
      destruct Hpost as (l' & s' & b & f & al & _ & _ & _ & ->).
      rewrite filter_app, logged_app, Hm, Hg, logged_all_metrics.
      split; reflexivity.
Qed.

Lemma iteration_events_no_merge m c obs :
  filter is_merge_call (iteration_events m c obs) = [].
Proof.
  unfold iteration_events; induction obs as [|o obs IH]; [reflexivity|].
  cbn [flat_map]; rewrite filter_app, IH; destruct m; reflexivity.
Qed.

Lemma epoch_loop_calls_no_merge m ps ps2 t :
  runs (epoch_loop m) ps ps2 t ->
  filter is_merge_call t = [] /\ logged (k_avg_f1_all m) t = [].
Proof.
  induction 1 as [|c p p1 t1 ps ps1 t (obs & -> & _) _ [IH1 IH2]];
    [split; reflexivity|].
  rewrite filter_app, logged_app, IH1, IH2, iteration_events_no_merge,
    logged_all_iteration.
  split; reflexivity.
Qed.

(** The metrics of an epoch, from a state whose lists end in the sums of
    the iterations, when a participant has made no iteration. *)
Lemma metrics_stage_zero m tr ol (rest : M Trainer unit) :
  overall_f1 m (self tr) = ol ++ [0%Q] ->
  (forall c p, In (c, p) (participants tr) ->
     exists l s, f1_list m p = l ++ [s]) ->
  (exists c p, In (c, p) (participants tr) /\ iterations m p = 0) ->
  let metrics := match m with train => train_metrics | test => test_metrics end in
  outcome (metrics ;; rest) tr = Err ZeroDivisionError /\
  filter is_merge_call (trace (metrics ;; rest) tr) = [] /\
  logged (k_avg_f1_all m) (trace (metrics ;; rest) tr) = [].
Proof.
  intros Ho Hl Hz metrics.
  destruct (epoch_metrics_fold_zero m (participants tr) ([], [], 0%Q) (self tr)
              ol 0%Q Ho Hl Hz) as ([g1 ps1] & t & Hf & Hm & Hg).
  assert (Hfold : fold_clients (epoch_metrics m) ([], [], 0%Q) tr
                  = ({| self := g1; participants := ps1 |}, t,
                     Err ZeroDivisionError)).
  { unfold fold_clients; rewrite Hf; reflexivity. }
  assert (Hrun : (metrics ;; rest) tr
                 = ({| self := g1; participants := ps1 |}, t,
                    Err ZeroDivisionError)).
  { subst metrics; destruct m; [unfold train_metrics | unfold test_metrics];
      cbn [epoch_metrics] in Hfold; unfold bind; rewrite Hfold; reflexivity. }
  destruct (run_parts _ _ _ _ _ Hrun) as (_ & -> & ->).
  repeat split; assumption.
Qed.

(** X11: an epoch (training or testing) over participants one of which
    has no batch to iterate on (its number of iterations is 0) raises
    [ZeroDivisionError] when it comes to that participant's average;
    nothing is fused and no average across the participants is logged. *)
Theorem epoch_without_iterations m epoch tr :
  (exists c p, In (c, p) (participants tr) /\ iterations m p = 0) ->
  outcome (one_epoch m epoch) tr = Err ZeroDivisionError /\
  filter is_merge_call (trace (one_epoch m epoch) tr) = [] /\
  logged (k_avg_f1_all m) (trace (one_epoch m epoch) tr) = [].
Proof.
  intros Hz.
  assert (Hstage : forall ps2 t_loop g2 (rest : M Trainer unit),
             runs (epoch_loop m) (participants tr) ps2 t_loop ->
             overall_f1 m g2 = overall_f1 m (self tr) ++ [0%Q] ->
             let metrics :=
               match m with train => train_metrics | test => test_metrics end in
             let tr2 := {| self := g2; participants := ps2 |} in
             outcome (metrics ;; rest) tr2 = Err ZeroDivisionError /\
             filter is_merge_call (trace (metrics ;; rest) tr2) = [] /\
             logged (k_avg_f1_all m) (trace (metrics ;; rest) tr2) = []).
  { intros ps2 t_loop g2 rest Hr Ho.
    apply (metrics_stage_zero m {| self := g2; participants := ps2 |}
             (overall_f1 m (self tr)) rest Ho).
    - cbn [participants]; intros c p2 Hin.
      destruct (Forall2_In_r _ _ _ _ (runs_Forall2 _ _ _ _ Hr) Hin)
        as ([c' p] & _ & _ & t1 & obs & _ & _ & Hl & _).
      eauto.
    - cbn [participants]; destruct Hz as (c & p & Hin & Hz).
      destruct (Forall2_In_l _ _ _ _ (runs_Forall2 _ _ _ _ Hr) Hin)
        as ([c' p2] & Hin2 & Hc & t1 & obs & _ & _ & _ & _ & Hi1 & Hi2).
      cbn [fst snd] in *; subst c'.
      exists c, p2; split; [exact Hin2|].
      rewrite (iterations_same m _ _ Hi1 Hi2); exact Hz. }
  destruct m; cbn [one_epoch].
  - destruct (train_one_epoch_loop HF epoch tr)
      as (ps2 & t_loop & Hr & _ & E2 & E3); cbv zeta in E2, E3.
    edestruct (Hstage ps2 t_loop
                 ((self tr) <| overall_f1_train ::= (fun l => l ++ [0%Q]) |>)
                 (merge_unless_pooling epoch) Hr)
      as (H1 & H2 & H3); [reflexivity|].
    destruct (epoch_loop_calls_no_merge _ _ _ _ Hr) as [L1 L2].
    rewrite E2, E3.
    change (Print (msg_training epoch) :: ?x)
      with ([Print (msg_training epoch)] ++ x).
    rewrite !filter_app, !logged_app, L1, L2, H2, H3.
    split; [exact H1 | split; reflexivity].
  - destruct (test_one_epoch_loop HF epoch tr)
      as (ps2 & t_loop & Hr & _ & E2 & E3); cbv zeta in E2, E3.
    edestruct (Hstage ps2 t_loop
                 ((self tr) <| overall_f1_test ::= (fun l => l ++ [0%Q]) |>)
                 (ret tt) Hr)
      as (H1 & H2 & H3); [reflexivity|].
    destruct (epoch_loop_calls_no_merge _ _ _ _ Hr) as [L1 L2].
    cbv zeta in H1, H2, H3.
    rewrite outcome_bind in H1; rewrite trace_bind in H2, H3.
    destruct (outcome test_metrics _) as [[]|e] eqn:Eo; [discriminate|].
    rewrite app_nil_r in H2, H3.
    rewrite E2, E3, ?Eo, !filter_app, !logged_app, L1, L2, H2, H3.
    split; [exact H1 | split; reflexivity].
Qed.

End ZeroIterations.

(** ** A training epoch after a population *)
Section PopulateThenTrain.
Context {T : Torch} {C : Collaborators}.
Hypothesis HF : metrics_frame.

Lemma forward_center_back_calls c obs :
  count (is_server_call c forward_center_back) (iteration_events train c obs)
  = List.length obs.
Proof.
  unfold iteration_events, count; induction obs as [|o obs IH]; [reflexivity|].
  cbn [flat_map]; rewrite filter_app, length_app, IH.
  cbn [filter is_server_call train_iteration_events server_method_eqb andb].
  rewrite String.eqb_refl; reflexivity.
Qed.

(** The iterations of a training epoch, counted by the forward passes of
    [center_back]. *)
Lemma train_epoch_iterations tr epoch c_id p :
  NoDup (ids tr) -> In (c_id, p) (participants tr) ->
  count (is_server_call c_id forward_center_back)
        (trace (train_one_epoch epoch) tr)
  = num_iterations (client p).
Proof.
  intros Hnd Hin.
  destruct (train_one_epoch_loop HF epoch tr) as (ps2 & t & Hruns & _ & Ht & _).
  rewrite Ht; clear Ht.
  unfold count; cbn [filter is_server_call].
  rewrite filter_app,
    (sound_trace _ _ _ _
       (train_rest_no_server_call c_id forward_center_back epoch)),
    app_nil_r.
  destruct (runs_at_key (filter (is_server_call c_id forward_center_back))
              (epoch_loop train) (participants tr) ps2 t c_id p)
    as (p1 & t1 & _ & (obs & -> & Hlen & _) & E); auto.
  - intros a b; apply filter_app.
  - intros c' p' p1 t1 Hc (obs & -> & _).
    now apply server_calls_off_key.
  - rewrite E; fold (count (is_server_call c_id forward_center_back)
                           (iteration_events train c_id obs)).
    rewrite forward_center_back_calls; exact Hlen.
Qed.

(** X12: a population of the key-value store sets every participant's
    number of iterations to the number of its training batches, whatever
    it was, so that the training epoch that follows runs
    [len(train_DataLoader)] iterations for each participant, and not
    [kv_factor] times as many as the population has stored. *)
Theorem train_iterations_after_population tr epoch c_id p :
  NoDup (ids tr) -> In (c_id, p) (participants tr) ->
  let tr1 := final_state populate_key_value_store tr in
  (exists p1, In (c_id, p1) (participants tr1) /\
              num_iterations (client p1) = train_DataLoader (client p)) /\
  count (is_server_call c_id forward_center_back)
        (trace (train_one_epoch epoch) tr1)
  = train_DataLoader (client p).
Proof.
  intros Hnd Hin tr1; subst tr1.
  destruct (populate_key_value_store_run HF tr) as (ps2 & Hrun & HF2).
  destruct (run_parts _ _ _ _ _ Hrun) as (-> & _ & _).
  destruct (Forall2_In_l _ _ _ _ HF2 Hin)
    as ([c' p1] & Hin1 & Hc & _ & _ & _ & Hn).
  cbn [fst snd] in *; subst c'.
  split; [exists p1; split; assumption|].
  rewrite <- Hn; apply train_epoch_iterations; [|exact Hin1].
  unfold ids; cbn [participants].
  replace (map fst ps2) with (map fst (participants tr)); [exact Hnd|].
  clear - HF2; induction HF2 as [|x y l l' [H _] _ IH]; cbn; congruence.
Qed.

End PopulateThenTrain.

(** ** The inference pass *)
Section InferencePass.
Context {T : Torch} {C : Collaborators}.

Lemma count_correct_bounds preds : forall targets,
  (0 <= count_correct preds targets <= Z.of_nat (List.length targets))%Z.
Proof.
  induction preds as [|p preds IH]; intros [|t targets];
    cbn [count_correct List.length]; try lia.
  specialize (IH targets); destruct (p =? t)%Z; lia.
Qed.

Lemma fraction_of_counts c n :
  (0 <= c <= Z.of_nat n)%Z ->
  is_fraction (inject_Z c / inject_Z (Z.of_nat n))%Q.
Proof.
  intros [H0 H1]; unfold is_fraction.
  destruct n as [|n].
  - assert (c = 0%Z) by (cbn in H1; lia); subst c; split; discriminate.
  - assert (Hpos : (0 < inject_Z (Z.of_nat (S n)))%Q).
    { change 0%Q with (inject_Z 0); rewrite <- Zlt_Qlt; lia. }
    split.
    + apply Qle_shift_div_l; [exact Hpos|].
      rewrite Qmult_0_l; change 0%Q with (inject_Z 0); rewrite <- Zle_Qle; lia.
    + apply Qle_shift_div_r; [exact Hpos|].
      rewrite Qmult_1_l, <- Zle_Qle; exact H1.
Qed.

Lemma accuracy_is_fraction preds targets :
  is_fraction (accuracy_of preds targets).
Proof. apply fraction_of_counts, count_correct_bounds. Qed.

(** The outputs of a participant: there are some exactly when it has an
    evaluation batch. *)
Lemma inference_outputs_cases p :
  match inference_outputs p with
  | Ok _ => main_test_DataLoader (client p) <> []
  | Err e => e = cat_empty_error /\ main_test_DataLoader (client p) = []
  end.
Proof.
  unfold inference_outputs.
  destruct (main_test_DataLoader (client p)) as [|b bs];
    [split; reflexivity | discriminate].
Qed.

Lemma plotted_no_error p e : plotted p -> inference_error p e -> False.
Proof.
  intros (preds & targets & Ho & Hc) [[Hl _]|(preds' & targets' & Ho' & Hc')].
  - pose proof (inference_outputs_cases p) as H; rewrite Ho in H; auto.
  - rewrite Ho in Ho'; injection Ho' as <- <-; congruence.
Qed.

(** One participant in [inference]: its scores are shown, or it fails and
    nothing of it is shown. *)
Lemma inference_client_cases c_id avg g p :
  (exists preds targets,
     inference_outputs p = Ok (preds, targets) /\
     confusion_matrix preds targets = Ok tt /\
     inference_client c_id avg (g, p)
     = ((g, p),
        [WandbLogPlot preds targets;
         Print (msg_inference_score c_id (accuracy_of preds targets));
         WandbLog (k_inference_score c_id) (accuracy_of preds targets)],
        Ok (avg + accuracy_of preds targets)%Q)) \/
  (exists e, inference_error p e /\
             inference_client c_id avg (g, p) = ((g, p), [], Err e)).
Proof.
  pose proof (inference_outputs_cases p) as Hcases.
  destruct (inference_outputs p) as [[preds targets]|e] eqn:Ho.
  - destruct (confusion_matrix preds targets) as [[]|e] eqn:Hc.
    + left; exists preds, targets; split; [reflexivity|]; split; [exact Hc|].
      now apply inference_client_run.
    + right; exists e; split; [right; exists preds, targets; auto|].
      unfold inference_client; mrun; rewrite Ho; mrun; rewrite Hc.
      reflexivity.
  - destruct Hcases as [-> Hl]; right; exists cat_empty_error.
    split; [left; auto|].
    unfold inference_client; mrun; rewrite Ho; reflexivity.
Qed.

Lemma inference_fold_facts ps : forall avg g,
  exists t r,
    fold_participants inference_client ps avg g = ((g, ps), t, r) /\
    Forall is_fraction (printed_scores t) /\
    printed_averages t = [] /\
    match r with
    | Ok v => (avg <= v)%Q /\ (v <= avg + inject_Z (Z.of_nat (List.length ps)))%Q
              /\ Forall (fun x => plotted (snd x)) ps
    | Err e =>
        exists done c p rest,
          ps = done ++ (c, p) :: rest /\
          Forall (fun x => plotted (snd x)) done /\
          inference_error p e /\
          List.length (printed_scores t) = List.length done
    end.
Proof.
  induction ps as [|[c p] ps IH]; intros avg g.
  - exists [], (Ok avg); repeat split; try constructor.
    + apply Qle_refl.
    + cbn; rewrite Qplus_0_r; apply Qle_refl.
  - cbn [fold_participants].
    destruct (inference_client_cases c avg g p)
      as [(preds & targets & Ho & Hc & E)|(e & He & E)]; rewrite E.
    + pose proof (accuracy_is_fraction preds targets) as [Ha0 Ha1].
      set (a := accuracy_of preds targets) in *.
      destruct (IH (avg + a)%Q g) as (t & r & Hf & Hs & Hv & Hr).
      rewrite Hf; do 2 eexists; split; [reflexivity|].
      assert (Hp : plotted p) by (exists preds, targets; auto).
      unfold printed_scores, printed_averages in *; cbn [flat_map app].
      split; [constructor; [split; assumption | exact Hs]|].
      split; [exact Hv|].
      destruct r as [v|e].
      * destruct Hr as (H1 & H2 & H3); split; [|split].
        -- eapply Qle_trans; [|exact H1].
           rewrite <- (Qplus_0_r avg) at 1; apply Qplus_le_r; exact Ha0.
        -- eapply Qle_trans; [exact H2|].
           cbn [List.length]; rewrite Nat2Z.inj_succ, <- Z.add_1_r, inject_Z_plus.
           rewrite <- Qplus_assoc; apply Qplus_le_r.
           rewrite Qplus_comm; apply Qplus_le_r; exact Ha1.
        -- constructor; assumption.
      * destruct Hr as (done & c' & p' & rest & -> & Hd & He & Hlen).
        exists ((c, p) :: done), c', p', rest.
        split; [reflexivity|]; split; [constructor; assumption|].
        split; [exact He|]; cbn [List.length]; now rewrite Hlen.
    + do 2 eexists; split; [reflexivity|].
      split; [constructor|]; split; [reflexivity|].
      exists [], c, p, ps; repeat split; [constructor | exact He].
Qed.

Lemma inference_fold_run tr :
  exists t r,
    fold_clients inference_client 0%Q tr = (tr, t, r) /\
    Forall is_fraction (printed_scores t) /\
    printed_averages t = [] /\
    match r with
    | Ok v => (0 <= v)%Q /\
              (v <= inject_Z (Z.of_nat (List.length (participants tr))))%Q
              /\ Forall (fun x => plotted (snd x)) (participants tr)
    | Err e =>
        exists done c p rest,
          participants tr = done ++ (c, p) :: rest /\
          Forall (fun x => plotted (snd x)) done /\
          inference_error p e /\
          List.length (printed_scores t) = List.length done
    end.
Proof.
  destruct (inference_fold_facts (participants tr) 0%Q (self tr))
    as (t & r & Hf & Hs & Ha & Hr).
  exists t, r; split; [|split; [exact Hs | split; [exact Ha|]]].
  - unfold fold_clients; rewrite Hf, trainer_eta; reflexivity.
  - destruct r as [v|e]; [|exact Hr].
    destruct Hr as (H0 & H1 & H2); rewrite Qplus_0_l in H1; auto.
Qed.

(** X13: [inference] is an evaluation only: it leaves the trainer and
    every participant exactly as they were, whether it returns or raises,
    and it invokes no method of [Client] or [ConnectedClient] and nothing
    that updates a model. *)
Theorem inference_changes_nothing tr :
  final_state inference tr = tr /\
  filter is_pipeline_call (trace inference tr) = [] /\
  filter is_update_event (trace inference tr) = [].
Proof.
  destruct (inference_fold_run tr) as (t & r & Hfold & _).
  split.
  - unfold inference; rewrite final_state_bind.
    destruct (run_parts _ _ _ _ _ Hfold) as (-> & _ & ->).
    destruct r; reflexivity.
  - split; eapply sound_trace with (R := on_trainer any_change any_change);
      unfold_trainer; sound_by ltac:(intros; exact I).
Qed.


(** X15: [inference] returns exactly when every participant has an
    evaluation batch and the confusion matrix of its predictions and
    labels is made.  Otherwise it stops at the first participant for which
    that fails, with the error of [torch.cat] on an empty list or the one
    [wandb.plot.confusion_matrix] raises; the scores of the participants
    before it are printed, nothing of it or of a later participant is, and
    no average is printed. *)
Theorem inference_failures tr :
  (outcome inference tr = Ok tt
   <-> Forall (fun x => plotted (snd x)) (participants tr)) /\
  (forall e, outcome inference tr = Err e ->
     printed_averages (trace inference tr) = [] /\
     exists done c p rest,
       participants tr = done ++ (c, p) :: rest /\
       Forall (fun x => plotted (snd x)) done /\
       inference_error p e /\
       List.length (printed_scores (trace inference tr)) = List.length done).
Proof.
  destruct (inference_fold_run tr) as (t & r & Hfold & Hs & Ha & Hr).
  destruct (run_parts _ _ _ _ _ Hfold) as (E1 & E2 & E3).
  unfold inference; rewrite trace_bind, outcome_bind, E1, E2, E3.
  destruct r as [v|e].
  - destruct Hr as (_ & _ & Hall); cbn.
    split; [split; auto | discriminate].
  - destruct Hr as (done & c & p & rest & Hps & Hd & He & Hlen).
    rewrite app_nil_r; split.
    + split; [discriminate|].
      intros Hall; exfalso; rewrite Hps in Hall.
      apply Forall_app in Hall; destruct Hall as [_ Hall].
      inversion Hall as [|? ? Hp _]; subst.
      exact (plotted_no_error p e Hp He).
    + intros e' [= <-]; split; [exact Ha|].
      exists done, c, p, rest; auto.
Qed.

End InferencePass.

(** ** Saving the models and loading them back *)
Section SaveAndLoad.
Context {T : Torch} {C : Collaborators}.








End SaveAndLoad.

(** ** The properties on concrete runs *)
Import Toy.

(** The toy collaborators keep to the frame laws. *)
Lemma toy_metrics_frame : metrics_frame.
Proof.
  intros m c; destruct m as [| | |[|]| | | | | |]; repeat split; reflexivity.
Qed.

Lemma toy_forward_frame : forward_frame.
Proof.
  split.
  - intros m c; destruct m as [| | |[|]| | | | | |]; intros H;
      try discriminate H; repeat split; reflexivity.
  - intros m sc; destruct m; intros H; try discriminate H;
      repeat split; reflexivity.
Qed.

Lemma toy_loaders_frame : loaders_frame.
Proof. intros m c; destruct m as [| | |[|]| | | | | |]; reflexivity. Qed.

Lemma toy_ids_NoDup : NoDup ["abcd"; "wxyz"].
Proof.
  repeat constructor; cbn [In]; intros H; repeat destruct H as [H|H];
    try discriminate H; exact H.
Qed.


(** The theorem on the toy run, at the epoch where personalization
    starts. *)
Lemma personalization_stops_back_fusion_witness :
  let tr := personalizing in
  personalization_mode (self tr) = true /\
  filter is_merge_call (trace (merge_model_weights 1) tr)
  = [MergeWeights center_back (center_back_pool tr) (center_back_sample_lens tr)].
Proof.
  split; [reflexivity|].
  apply (personalization_stops_back_fusion personalizing 1%Z).
  reflexivity.
Defined.

(** C1 as stated fails: in the toy run, after personalization has started
    at epoch 1, the merge step calls [merge_weights] on the pool of both
    [center_back] states and does not call it on the [back] states. *)
Lemma center_back_fused_after_personalization :
  let tr := personalizing in
  let t := trace (merge_model_weights 1) tr in
  ~ (personalization_mode (self tr) = true ->
     (forall params sample_lens,
        In (MergeWeights center_back params sample_lens) t -> params = []) /\
     (exists params sample_lens, In (MergeWeights back params sample_lens) t)).
Proof.
  intros tr t H; destruct (H eq_refl) as [H1 _].
  specialize (H1 [13%Z; 13%Z] [20%Z; 60%Z]).
  assert (Hin : In (MergeWeights center_back [13%Z; 13%Z] [20%Z; 60%Z]) t).
  { right; left; reflexivity. }
  specialize (H1 Hin); discriminate H1.
Qed.

(** The theorem on the toy run with [kv_factor] 0, where the fusion of
    [center_back] fails with [EmptyInput]; and on two participants whose
    [center_back] models differ in shape: the fused state has the shape of
    the first, is loaded into it (its weight goes from 3 to 100) and fails
    to load into the second, which keeps its weight 7. *)
Lemma merge_failure_is_caught_witness :
  (merge_weights (center_back_pool zero_factor)
                 (center_back_sample_lens zero_factor) = Err EmptyInput /\
   outcome (merge_model_weights 0) zero_factor = Ok tt /\
   merge_center_back zero_factor
   = (zero_factor,
      [MergeWeights center_back (center_back_pool zero_factor)
                    (center_back_sample_lens zero_factor);
       Print (msg_error_merging center_back EmptyInput)], Ok tt)) /\
  (let tr := Shapes.mismatched in
   let C := Shapes.shape_collaborators in
   outcome (@merge_model_weights _ C 0) tr = Ok tt /\
   @merge_center_back _ C tr
   = ({| self := self tr;
         participants := [("abcd", Shapes.mk_participant 1 100);
                          ("wxyz", Shapes.mk_participant 2 7)] |},
      [MergeWeights (T := Shapes.shape_torch) center_back
                    [(1, 3%Z); (2, 7%Z)] [10%Z; 10%Z];
       LoadStateDict (T := Shapes.shape_torch) "abcd" center_back (1, 100%Z);
       Print (msg_merged_loaded center_back "abcd");
       LoadStateDict (T := Shapes.shape_torch) "wxyz" center_back (1, 100%Z);
       Print (msg_error_merging center_back RuntimeError)],
      Ok tt)).
Proof.
  split.
  - split; [reflexivity|].
    split.
    + apply (merge_failure_is_caught zero_factor 0%Z).
    + apply (merge_failure_is_caught zero_factor 0%Z); reflexivity.
  - intros tr C; split.
    + apply (@merge_failure_is_caught _ C tr 0%Z).
    + destruct (@merge_failure_is_caught _ C tr 0%Z) as (_ & _ & _ & H & _).
      apply (H (1, 100%Z) [("abcd", Shapes.mk_participant 1 3)] "wxyz"
               (Shapes.mk_participant 2 7) [] RuntimeError);
        [reflexivity | reflexivity | repeat constructor | reflexivity].
Defined.

(** C2 as stated fails: with [kv_factor] 0 the weights of the
    [center_back] pool are all zero, [merge_weights] raises [EmptyInput],
    and [merge_model_weights] returns normally; the whole run returns
    normally too. *)
Lemma merge_failure_does_not_propagate :
  ~ (forall x,
       merge_weights (center_back_pool zero_factor)
                     (center_back_sample_lens zero_factor) = Err x ->
       outcome (merge_model_weights 0) zero_factor = Err x /\
       outcome fit zero_factor = Err x).
Proof.
  intros H; destruct (H EmptyInput eq_refl) as [H1 _].
  vm_compute in H1; discriminate H1.
Qed.

(** The theorem on the toy run after it has entered personalization, for
    "abcd" and its 2 iterations. *)
Lemma center_optimizer_called_every_iteration_witness :
  let tr := personalizing in
  let p := nth 0 (map snd (participants tr))
               (mk_participant 0 0 0 [] 0 0 0 0) in
  let t := trace (train_one_epoch 1) tr in
  metrics_frame /\ NoDup (ids tr) /\ In ("abcd", p) (participants tr) /\
  count (is_server_call "abcd" center_optimizer_step) t
  = num_iterations (client p) /\
  count (is_server_call "abcd" center_optimizer_zero_grad) t
  = num_iterations (client p).
Proof.
  intros tr p t.
  assert (Hnd : NoDup (ids tr)) by exact toy_ids_NoDup.
  assert (Hin : In ("abcd", p) (participants tr)) by (left; reflexivity).
  split; [exact toy_metrics_frame|]; split; [exact Hnd|]; split; [exact Hin|].
  exact (center_optimizer_called_every_iteration toy_metrics_frame
           tr 1%Z "abcd" p Hnd Hin).
Defined.

(** C3 as stated fails: in the toy run, personalization entered and every
    [center_back] frozen, the training epoch calls
    [center_optimizer.step()] and [.zero_grad()] for "abcd" in each of its
    2 iterations. *)
Lemma center_optimizer_stepped_when_frozen :
  let tr := personalizing in
  let t := trace (train_one_epoch 1) tr in
  ~ (personalization_mode (self tr) = true ->
     Forall (fun x => frozen (center_back_model (sc_client (snd x))) = true)
            (participants tr) ->
     count (is_server_call "abcd" center_optimizer_step) t = 0 /\
     count (is_server_call "abcd" center_optimizer_zero_grad) t = 0).
Proof.
  intros tr t H.
  assert (Hf : Forall (fun x => frozen (center_back_model (sc_client (snd x))) = true)
                      (participants tr)).
  { repeat constructor. }
  destruct (H eq_refl Hf) as [H1 _].
  vm_compute in H1; discriminate H1.
Qed.

(** The theorem on the toy run at its start, for "abcd": 2 train batches
    and [kv_factor] 2, 1 test batch. *)
Lemma populate_forward_passes_witness :
  let tr := started in
  let p := mk_participant 10 2 1 [(0%Z, [3%Z])] 1 2 3 4 in
  let t := trace populate_key_value_store tr in
  metrics_frame /\ NoDup (ids tr) /\ In ("abcd", p) (participants tr) /\
  t = populate_events tr /\
  outcome populate_key_value_store tr = Ok tt /\
  count (is_client_call "abcd" forward_front_key_value) t
  = Z.to_nat (Z.of_nat (train_DataLoader (client p)) * kv_factor (args (self tr))) /\
  count (is_server_call "abcd" forward_center_front) t
  = Z.to_nat (Z.of_nat (train_DataLoader (client p)) * kv_factor (args (self tr))) /\
  count (is_client_call "abcd" forward_front_key_value_test) t
  = test_DataLoader (client p) /\
  count (is_server_call "abcd" forward_center_front_test) t
  = test_DataLoader (client p).
Proof.
  intros tr p t.
  assert (Hnd : NoDup (ids tr)) by exact toy_ids_NoDup.
  assert (Hin : In ("abcd", p) (participants tr)) by (left; reflexivity).
  split; [exact toy_metrics_frame|]; split; [exact Hnd|]; split; [exact Hin|].
  exact (populate_forward_passes toy_metrics_frame tr "abcd" p Hnd Hin).
Defined.

(** C5 as stated fails: with [kv_factor] 2 and one test batch, a
    population makes one forward pass on the test batches of "abcd", not
    two. *)
Lemma test_passes_not_multiplied :
  let p := mk_participant 10 2 1 [(0%Z, [3%Z])] 1 2 3 4 in
  let t := trace populate_key_value_store started in
  ~ (count (is_client_call "abcd" forward_front_key_value_test) t
     = Z.to_nat (kv_factor (args (self started))
                 * Z.of_nat (test_DataLoader (client p)))).
Proof. intros p t H; vm_compute in H; discriminate H. Qed.



(** The theorem on the testing epoch of the toy run, after the first
    population. *)
Lemma test_epoch_changes_no_model_witness :
  let tr := populated in
  forward_frame /\ metrics_frame /\
  (exists ps2 t_loop t_metrics,
     trace (test_one_epoch 0) tr = t_loop ++ t_metrics /\
     runs (epoch_loop test) (participants tr) ps2 t_loop /\
     filter is_pipeline_call t_metrics = []) /\
  filter is_update_event (trace (test_one_epoch 0) tr) = [] /\
  Forall2 (fun x y => fst x = fst y /\ same_models (snd x) (snd y))
          (participants tr)
          (participants (final_state (test_one_epoch 0) tr)).
Proof.
  intros tr; split; [exact toy_forward_frame|].
  split; [exact toy_metrics_frame|].
  exact (test_epoch_changes_no_model toy_forward_frame toy_metrics_frame
           tr 0%Z).
Defined.

(** The theorem on the toy run, whose checkpoints are all on disk, at its
    personalization epoch 1. *)
Lemma personalization_reloads_models_witness :
  let tr := started in
  let epoch := 1%Z in
  args_personalize (args (self tr)) = true /\
  epoch = p_epoch (args (self tr)) /\
  (forall c_id p, In (c_id, p) (participants tr) ->
     forall s, exists m, loaded_model (self tr) c_id s = Some m) /\
  outcome (enter_personalization epoch) tr = Ok tt /\
  Forall2 (fun x y => fst x = fst y
                      /\ personalized (self tr) epoch (fst x) (snd y))
          (participants tr)
          (participants (final_state (enter_personalization epoch) tr)) /\
  exists t_load t_freeze,
    trace (enter_personalization epoch) tr
    = t_load ++ Print (msg_personalizing epoch) :: t_freeze /\
    filter is_freeze t_load = [] /\ filter is_load t_freeze = [].
Proof.
  intros tr epoch.
  assert (Hfiles : forall c_id p, In (c_id, p) (participants tr) ->
                     forall s, exists m, loaded_model (self tr) c_id s = Some m).
  { intros c_id p _ s; destruct s; eexists; reflexivity. }
  split; [reflexivity|]; split; [reflexivity|]; split; [exact Hfiles|].
  exact (personalization_reloads_models tr epoch eq_refl eq_refl Hfiles).
Defined.

(** The theorem on the toy run: two epochs, a refresh at every epoch. *)
Lemma populations_follow_refresh_rate_witness :
  metrics_frame /\ loaders_frame /\
  kv_refresh_rate (self started) = args_kv_refresh_rate (args (self started)) /\
  (exists rest,
     filter is_schedule_event (trace fit started) ++ rest
     = expected_schedule (args (self started)) /\
     (outcome fit started = Ok tt -> rest = [])) /\
  populations_complete started (trace fit started).
Proof.
  split; [exact toy_metrics_frame|]; split; [exact toy_loaders_frame|].
  split; [reflexivity|].
  exact (populations_follow_refresh_rate toy_metrics_frame toy_loaders_frame
           started eq_refl).
Defined.

(** C4 as stated fails on a run of no epoch with a refresh rate that is
    not zero: the store is not populated at the start of the run, nor at
    any other time. *)
Lemma no_population_without_epochs :
  ~ (args_kv_refresh_rate (args (self no_epochs)) <> 0%Z ->
     In populate_mark (trace fit no_epochs)).
Proof.
  intros H.
  assert (Hr : args_kv_refresh_rate (args (self no_epochs)) <> 0%Z)
    by (cbn; discriminate).
  specialize (H Hr); vm_compute in H.
  repeat destruct H as [H|H]; try discriminate H; exact H.
Qed.

(** X2 on three clients asked for in pooling mode, with the identity for
    [Client] and for the data. *)
Lemma init_clients_pooled_witness :
  (3 <= 10)%Z /\
  exists id g',
    RandomClients.generate_random_client_ids 1 4 [] = ([id], g') /\
    InitClients.init_clients_with_data string (fun id => id) (fun _ _ v => v)
      3 true []
    = (inr {| InitClients.num_clients := 1;
              InitClients.clients := [("pooled_client", id)];
              InitClients.client_ids := ["pooled_client"] |}, g').
Proof.
  split; [lia|].
  apply (InitClientsFacts.init_clients_pooled string (fun id => id)
           (fun _ _ v => v) 3 []); lia.
Defined.

(** X4 on the toy run when the save directory cannot be made. *)
Lemma fit_without_save_dir_witness :
  mkdir_ok (self no_save_dir) = false /\
  fit no_save_dir
  = (no_save_dir
       <| self ::=
            (fun g => g <| save_dir :=
                             Some "./saved_models/cifar10/key_value_mode/model_split1" |>) |>,
     [Print msg_error_creating_directory], Err OSError).
Proof.
  split; [reflexivity|].
  exact (fit_without_save_dir no_save_dir eq_refl).
Defined.

(** X5 on the toy run with [epochs = 0]. *)
Lemma fit_without_epochs_witness :
  mkdir_ok (self no_epochs) = true /\
  (epochs (args (self no_epochs)) <= 0)%Z /\
  overall_f1_train (self no_epochs) = [] /\
  outcome fit no_epochs = Err IndexError /\
  filter is_update_event (trace fit no_epochs) = [].
Proof.
  assert (He : (epochs (args (self no_epochs)) <= 0)%Z) by (cbn; lia).
  split; [reflexivity|]; split; [exact He|]; split; [reflexivity|].
  exact (fit_without_epochs no_epochs eq_refl He eq_refl).
Defined.

(** X7 on the toy run with no checkpoint on disk: personalization is due
    at epoch 1 of 2. *)
Lemma fit_personalization_needs_checkpoints_witness :
  args_personalize (args (self unsaved_run)) = true /\
  (0 <= p_epoch (args (self unsaved_run)) < epochs (args (self unsaved_run)))%Z /\
  participants unsaved_run <> [] /\
  no_checkpoint (self unsaved_run) /\
  is_ok (outcome fit unsaved_run) = false /\
  filter is_freeze (trace fit unsaved_run) = [].
Proof.
  assert (Hr : (0 <= p_epoch (args (self unsaved_run))
                < epochs (args (self unsaved_run)))%Z) by (cbn; lia).
  assert (Hne : participants unsaved_run <> []) by discriminate.
  assert (Hno : no_checkpoint (self unsaved_run)) by (intros c s; reflexivity).
  split; [reflexivity|]; split; [exact Hr|]; split; [exact Hne|].
  split; [exact Hno|].
  exact (fit_personalization_needs_checkpoints unsaved_run eq_refl Hr Hne Hno).
Defined.

(** X10 on the toy run at its start: the [center_back] weights 3 and 7
    and the [back] weights 4 and 8, with 10 and 30 samples, fuse to 6 and
    to 7. *)
Lemma merge_distributes_fused_states_witness :
  personalization_mode (self started) = false /\
  merge_weights (center_back_pool started) (center_back_sample_lens started)
  = Ok 6%Z /\
  merge_weights (back_pool started) (back_sample_lens started) = Ok 7%Z /\
  (forall c_id p, In (c_id, p) (participants started) ->
     snd (load_state_dict 6%Z (center_back_model (sc_client p))) = Ok tt /\
     snd (load_state_dict 7%Z (back_model (client p))) = Ok tt) /\
  final_state (merge_model_weights 0) started
  = {| self := self started;
       participants :=
         map (fun x => (fst x, with_back 7%Z (with_center_back 6%Z (snd x))))
             (participants started) |}.
Proof.
  assert (H1 : merge_weights (center_back_pool started)
                 (center_back_sample_lens started) = Ok 6%Z)
    by (vm_compute; reflexivity).
  assert (H2 : merge_weights (back_pool started) (back_sample_lens started)
               = Ok 7%Z) by (vm_compute; reflexivity).
  assert (Hl : forall c_id p, In (c_id, p) (participants started) ->
     snd (load_state_dict 6%Z (center_back_model (sc_client p))) = Ok tt /\
     snd (load_state_dict 7%Z (back_model (client p))) = Ok tt)
    by (intros; split; reflexivity).
  split; [reflexivity|]; split; [exact H1|]; split; [exact H2|].
  split; [exact Hl|].
  exact (merge_distributes_fused_states started 0%Z 6%Z 7%Z eq_refl H1 H2 Hl).
Defined.

(** X11 on the testing epoch of the toy run whose second participant has
    no test batch. *)
Lemma epoch_without_iterations_witness :
  metrics_frame /\
  (exists c p, In (c, p) (participants idle_tester) /\ iterations test p = 0) /\
  outcome (one_epoch test 0) idle_tester = Err ZeroDivisionError /\
  filter is_merge_call (trace (one_epoch test 0) idle_tester) = [] /\
  logged (k_avg_f1_all test) (trace (one_epoch test 0) idle_tester) = [].
Proof.
  assert (Hz : exists c p, In (c, p) (participants idle_tester)
                           /\ iterations test p = 0).
  { exists "wxyz", (mk_participant 30 3 0 [(1%Z, [7%Z])] 5 6 7 8).
    split; [right; left; reflexivity | reflexivity]. }
  split; [exact toy_metrics_frame|]; split; [exact Hz|].
  exact (epoch_without_iterations toy_metrics_frame test 0%Z idle_tester Hz).
Defined.

(** X12 on the participant ["abcd"] of the toy run, which has two
    training batches. *)
Lemma train_iterations_after_population_witness :
  let tr := started in
  let p := mk_participant 10 2 1 [(0%Z, [3%Z])] 1 2 3 4 in
  metrics_frame /\ NoDup (ids tr) /\ In ("abcd", p) (participants tr) /\
  (exists p1,
     In ("abcd", p1) (participants (final_state populate_key_value_store tr)) /\
     num_iterations (client p1) = train_DataLoader (client p)) /\
  count (is_server_call "abcd" forward_center_back)
        (trace (train_one_epoch 0) (final_state populate_key_value_store tr))
  = train_DataLoader (client p).
Proof.
  intros tr p.
  assert (Hnd : NoDup (ids tr)) by exact toy_ids_NoDup.
  assert (Hin : In ("abcd", p) (participants tr)) by (left; reflexivity).
  split; [exact toy_metrics_frame|]; split; [exact Hnd|]; split; [exact Hin|].
  exact (train_iterations_after_population toy_metrics_frame tr 0%Z "abcd" p
           Hnd Hin).
Defined.


